(** * Backquant: the rebalancing and valuation engine of [backtest_script.py]

    A shallow embedding of [get_rebalance_dates] and [run_backtest] and the
    properties the specification states about them, followed by further
    properties read off the code: of the schedule, of the loop of
    [run_backtest] and its steps, and of the ticker list of
    [parse_arguments].

    Conventions of the embedding.
    - Python [float] arithmetic is idealised as exact arithmetic over [Q]:
      the specification states its numeric properties up to a tolerance, and
      they are read here as exact equalities ([==]) of rationals.  [Q]'s total
      division agrees with the source only away from a zero denominator: a
      quotient in a statement stands for the source's value where its
      divisor is not zero.
    - A [pd.Timestamp] at midnight is its proleptic Gregorian ordinal
      ([datetime.date.toordinal]), an integer; [pd.Timedelta(days=k)] adds [k].
    - A Python [dict] is an insertion-ordered association list with the
      update-in-place semantics of [d[k] = v].
    - The external collaborators (fundamentals provider, scoring functions,
      price provider) and the tie order of [DataFrame.sort_values] are the
      fields of one [Environment]. *)

From Stdlib Require Import ZArith QArith Qminmax Qround List String Bool Lia Lqa.
From Stdlib Require Import Sorting.Sorted Sorting.Permutation.
From Stdlib Require Import Ascii.
Import ListNotations.

Local Open Scope Z_scope.
Local Open Scope Q_scope.

(** ** Python built-ins used by the script *)

Module Py.

(** [x < y] on floats, as a boolean. *)
Definition Qltb (x y : Q) : bool := negb (Qle_bool y x).

(** An insertion-ordered [dict] with string keys. *)
Definition dict (V : Type) : Type := list (string * V).

(** [d[k] = v]: an existing key keeps its position, a new key goes last. *)
Fixpoint setitem {V} (d : dict V) (k : string) (v : V) : dict V :=
  match d with
  | [] => [(k, v)]
  | (k', v') :: d' =>
      if String.eqb k' k then (k', v) :: d' else (k', v') :: setitem d' k v
  end.

(** [d.get(k)] *)
Fixpoint getitem {V} (d : dict V) (k : string) : option V :=
  match d with
  | [] => None
  | (k', v') :: d' => if String.eqb k' k then Some v' else getitem d' k
  end.

(** [k in l] for a list of strings. *)
Definition contains (l : list string) (k : string) : bool :=
  existsb (String.eqb k) l.

Definition keys {V} (d : dict V) : list string := map fst d.
Definition values {V} (d : dict V) : list V := map snd d.

(** Truth value of a container: [if xs:]. *)
Definition truthy {A} (l : list A) : bool :=
  match l with [] => false | _ :: _ => true end.

(** [{key(a): val(a) for a in l}] *)
Definition comprehension {A V} (f : A -> string * V) (l : list A) : dict V :=
  fold_left (fun d a => setitem d (fst (f a)) (snd (f a))) l [].

(** [l[:k]]: a negative [k] counts from the end. *)
Definition slice_to {A} (l : list A) (k : Z) : list A :=
  if (0 <=? k)%Z then firstn (Z.to_nat k) l
  else firstn (List.length l - Z.to_nat (- k)) l.

(** [int(x)]: truncation towards zero. *)
Definition int (x : Q) : Z := Z.quot (Qnum x) (Z.pos (Qden x)).

(** [sum(xs)], accumulated from [0] left to right. *)
Definition sum (l : list Q) : Q := fold_left Qplus l 0.

(** [len(l)] as a float operand. *)
Definition len {A} (l : list A) : Q := inject_Z (Z.of_nat (List.length l)).

(** [xs[-1]] when [xs] is not empty. *)
Definition last_item {A} (l : list A) : option A :=
  match rev l with [] => None | x :: _ => Some x end.

End Py.

(** ** Calendar: dates as proleptic Gregorian ordinals *)

(** A calendar date: its ordinal. *)
Abbreviation date := Z (only parsing).

Module Calendar.

Definition is_leap (year : Z) : bool :=
  ((year mod 4 =? 0) && (negb (year mod 100 =? 0) || (year mod 400 =? 0)))%Z.

Definition days_before_year (year : Z) : Z :=
  (let y := year - 1 in y * 365 + y / 4 - y / 100 + y / 400)%Z.

Definition DAYS_BEFORE_MONTH : list Z :=
  [0; 31; 59; 90; 120; 151; 181; 212; 243; 273; 304; 334]%Z.

Definition DAYS_IN_MONTH : list Z :=
  [31; 28; 31; 30; 31; 30; 31; 31; 30; 31; 30; 31]%Z.

Definition days_before_month (year month : Z) : Z :=
  (nth (Z.to_nat (month - 1)) DAYS_BEFORE_MONTH 0
   + (if (2 <? month) && is_leap year then 1 else 0))%Z.

(** [date(year, month, day).toordinal()] *)
Definition ymd2ord (year month day : Z) : date :=
  (days_before_year year + days_before_month year month + day)%Z.

(** [date.fromordinal(n)] as [(year, month, day)]. *)
Definition ord2ymd (n : date) : Z * Z * Z :=
  (let n := n - 1 in
   let n400 := n / 146097 in
   let n := n mod 146097 in
   let n100 := n / 36524 in
   let n := n mod 36524 in
   let n4 := n / 1461 in
   let n := n mod 1461 in
   let n1 := n / 365 in
   let n := n mod 365 in
   let year := n400 * 400 + 1 + n100 * 100 + n4 * 4 + n1 in
   if (n1 =? 4) || (n100 =? 4) then (year - 1, 12, 31)
   else
     let leapyear := (n1 =? 3) && (negb (n4 =? 24) || (n100 =? 3)) in
     let month := Z.shiftr (n + 50) 5 in
     let preceding :=
       nth (Z.to_nat (month - 1)) DAYS_BEFORE_MONTH 0
       + (if (2 <? month) && leapyear then 1 else 0) in
     if n <? preceding then
       let month := month - 1 in
       let preceding :=
         preceding
         - (nth (Z.to_nat (month - 1)) DAYS_IN_MONTH 0
            + (if (month =? 2) && leapyear then 1 else 0)) in
       (year, month, n - preceding + 1)
     else (year, month, n - preceding + 1))%Z.

(** [date.weekday()]: Monday is 0, Sunday is 6. *)
Definition weekday (d : date) : Z := ((d + 6) mod 7)%Z.

(** The [len] consecutive days from [start]. *)
Fixpoint days_from (start : date) (len : nat) : list date :=
  match len with
  | O => []
  | S len' => start :: days_from (start + 1)%Z len'
  end.

(** Every day of the closed interval [[start, stop]]. *)
Definition days_between (start stop : date) : list date :=
  days_from start (Z.to_nat (stop - start + 1)).

End Calendar.

(** ** The pandas and numpy operations used by the script *)

Module Pd.

(** [np.clip(x, lo, hi)] is [minimum(maximum(x, lo), hi)]. *)
Definition clip (x lo hi : Q) : Q := Qmin (Qmax x lo) hi.

(** [df.head(n)]: the first [n] rows, all but the last [-n] for negative [n]. *)
Definition head {A} (l : list A) (n : Z) : list A := Py.slice_to l n.

(** Date offsets: business day and business month, quarter and year start. *)
Inductive Offset : Type := B | BMS | BQS | BYS.

(** Day of the month of the first business day of [(year, month)]. *)
Definition get_firstbday (year month : Z) : Z :=
  (let wkday := Calendar.weekday (Calendar.ymd2ord year month 1) in
   if wkday =? 5 then 3 else if wkday =? 6 then 2 else 1)%Z.

(** [offset.is_on_offset(d)]; ['BQS'] starts its quarters in January. *)
Definition is_on_offset (freq : Offset) (d : date) : bool :=
  (let '(year, month, day) := Calendar.ord2ymd d in
   match freq with
   | B => Calendar.weekday d <? 5
   | BMS => day =? get_firstbday year month
   | BQS => ((month - 1) mod 3 =? 0) && (day =? get_firstbday year month)
   | BYS => (month =? 1) && (day =? get_firstbday year month)
   end)%Z.

(** [pd.date_range(start, stop, freq=...)]: the dates of [[start, stop]] that
    lie on the offset, in increasing order. *)
Definition date_range (start stop : date) (freq : Offset) : list date :=
  filter (is_on_offset freq) (Calendar.days_between start stop).

(** A price table: one column per ticker, one row per date; a cell is a price
    or NaN ([None]).  The cells of a row are aligned with [columns]. *)
Record DataFrame : Type := {
  columns : list string;
  rows : list (date * list (option Q))
}.

(** A row of a table: labels and cells. *)
Definition Series : Type := Py.dict (option Q).

Definition isnull (c : option Q) : bool :=
  match c with None => true | Some _ => false end.

(** [df.empty] *)
Definition empty (df : DataFrame) : bool :=
  negb (Py.truthy (columns df)) || negb (Py.truthy (rows df)).

(** Every cell of the rows is NaN. *)
Definition all_null (rs : list (date * list (option Q))) : bool :=
  forallb (fun r => forallb isnull (snd r)) rs.

(** [df.isnull().all().all()] *)
Definition isnull_all_all (df : DataFrame) : bool := all_null (rows df).

(** One step of a fill: a NaN cell takes the cell of the row before. *)
Fixpoint fill_from (prev cells : list (option Q)) : list (option Q) :=
  match cells with
  | [] => []
  | c :: cs =>
      let p := match prev with [] => None | p :: _ => p end in
      let ps := match prev with [] => [] | _ :: ps => ps end in
      (match c with Some _ => c | None => p end) :: fill_from ps cs
  end.

Fixpoint ffill_rows (prev : list (option Q)) (rs : list (date * list (option Q)))
  : list (date * list (option Q)) :=
  match rs with
  | [] => []
  | (d, cells) :: rs' =>
      let cells' := fill_from prev cells in
      (d, cells') :: ffill_rows cells' rs'
  end.

(** [df.ffill()] *)
Definition ffill (df : DataFrame) : DataFrame :=
  {| columns := columns df; rows := ffill_rows [] (rows df) |}.

(** [df.bfill()] *)
Definition bfill (df : DataFrame) : DataFrame :=
  {| columns := columns df; rows := rev (ffill_rows [] (rev (rows df))) |}.

(** [df.iloc[0]] of a table that has a row. *)
Definition iloc0 (df : DataFrame) : Series :=
  match rows df with
  | [] => []
  | (_, cells) :: _ => combine (columns df) cells
  end.

(** [s.reindex(labels)[t]] and [s[t]]: the cell under label [t], NaN when the
    label is absent. *)
Definition at_label (s : Series) (t : string) : option Q :=
  match Py.getitem s t with Some c => c | None => None end.

(** [d in df.index] *)
Definition in_index (df : DataFrame) (d : date) : bool :=
  existsb (fun r => (fst r =? d)%Z) (rows df).

(** [df.loc[d, t]] guarded by [t in df.columns and d in df.index and not
    pd.isnull(...)]: the price when all three hold. *)
Definition loc (df : DataFrame) (d : date) (t : string) : option Q :=
  match find (fun r => (fst r =? d)%Z) (rows df) with
  | Some (_, cells) => at_label (combine (columns df) cells) t
  | None => None
  end.

End Pd.

(** ** Data model of the script *)

(** [args]: the parsed command line (the fields the engine reads). *)
Record Args : Type := {
  start_date_backtest : date;
  end_date_backtest : date;
  initial_portfolio_value : Q;
  rebalance_frequency : string;
  universe_tickers : list string;
  min_piotroski_score : Z;
  min_quant_value_score : Q;
  top_n_quant_value : Z;
  max_selected_assets : Z;
  min_alloc_asset : Q;
  max_alloc_asset : Q;
  vc_metrics : list string
}.

(** The checks of [parse_arguments] on dates, universe and allocation bounds:
    [true] when no [parser.error] is raised. *)
Definition parse_arguments_accepts (args : Args) : bool :=
  (start_date_backtest args <? end_date_backtest args)%Z
  && Py.truthy (universe_tickers args)
  && (Qle_bool 0 (min_alloc_asset args) && Qle_bool (min_alloc_asset args) 1
      && Qle_bool 0 (max_alloc_asset args) && Qle_bool (max_alloc_asset args) 1)
  && negb (Py.Qltb (max_alloc_asset args) (min_alloc_asset args)).

Inductive Direction : Type := lower_is_better | higher_is_better.

Definition VC_METRIC_DIRECTIONS_DEFAULT : Py.dict Direction :=
  [("trailingPE", lower_is_better); ("priceToBook", lower_is_better);
   ("enterpriseToEbitda", lower_is_better);
   ("dividendYield", higher_is_better); ("returnOnEquity", higher_is_better);
   ("netMargin", higher_is_better); ("forwardPE", lower_is_better);
   ("marketCap", lower_is_better)]%string.

(** A row of [df_fundamental] once both score columns are set. *)
Record ScoredRow : Type := {
  ticker : string;
  Piotroski_F_Score : Z;
  Quant_Value_Score : Q
}.

(** An entry of a holdings dictionary: [current_holdings] holds
    [{'shares', 'price_at_buy', 'weight'}], the log of a valued day holds
    [{'shares', 'current_price', 'value'}]. *)
Inductive HoldingEntry : Type :=
  | Bought (shares price_at_buy weight : Q)
  | Valued (shares current_price value : Q).

(** [data['shares']] *)
Definition shares_of (data : HoldingEntry) : Q :=
  match data with Bought s _ _ => s | Valued s _ _ => s end.

Definition Holdings : Type := Py.dict HoldingEntry.

(** An element of [portfolio_history]. *)
Record Snapshot : Type := {
  snap_date : date;
  portfolio_value : Q;
  holdings : Holdings
}.

(** The variables [run_backtest] carries through its loops. *)
Record State : Type := {
  portfolio_history : list Snapshot;
  current_portfolio_value : Q;
  current_holdings : Holdings
}.

(** [portfolio_history.append(...)] *)
Definition append_snapshot (st : State) (s : Snapshot) : State :=
  {| portfolio_history := portfolio_history st ++ [s];
     current_portfolio_value := current_portfolio_value st;
     current_holdings := current_holdings st |}.

Definition set_holdings (st : State) (h : Holdings) : State :=
  {| portfolio_history := portfolio_history st;
     current_portfolio_value := current_portfolio_value st;
     current_holdings := h |}.

Definition set_value (st : State) (v : Q) : State :=
  {| portfolio_history := portfolio_history st;
     current_portfolio_value := v;
     current_holdings := current_holdings st |}.

(** What [run_backtest] leaves behind. *)
Inductive RunResult : Type :=
  | UnknownFrequency
  | NoRebalanceDates
  | Finished (history : list Snapshot).

(** The collaborators of the engine.  The fundamentals provider reads live
    data, so its answer may change from one rebalance to the next: it takes
    the rebalance date at which it is called.  [sort_values_desc] is
    [df.sort_values(by="Quant_Value_Score", ascending=False)]. *)
Class Environment : Type := {
  Fundamentals : Type;
  fundamentals_ticker : Fundamentals -> string;
  obter_dados_fundamentalistas_detalhados_br :
    date -> list string -> list Fundamentals;
  calcular_piotroski_f_score_br : Fundamentals -> Z;
  calcular_value_composite_score :
    list Fundamentals -> Py.dict Direction -> Fundamentals -> Q;
  obter_dados_historicos_yf : list string -> date -> date -> Pd.DataFrame;
  sort_values_desc : list ScoredRow -> list ScoredRow
}.

(** What pandas documents of [sort_values] with its default [kind]
    (quicksort, not a stable sort): the rows are rearranged into descending
    order of the key. *)
Definition descending (l : list ScoredRow) : Prop :=
  StronglySorted (fun a b => Quant_Value_Score b <= Quant_Value_Score a) l.

Definition sort_values_contract (sort : list ScoredRow -> list ScoredRow) : Prop :=
  forall l, Permutation l (sort l) /\ descending (sort l).

(** ** [get_rebalance_dates] (RebalanceScheduler) *)

(** [None] is the [ValueError] raised on an unknown frequency. *)
Definition get_rebalance_dates (start_date end_date : date) (frequency : string)
  : option (list date) :=
  let rebalance_dates :=
    if String.eqb frequency "monthly" then Some (Pd.date_range start_date end_date Pd.BMS)
    else if String.eqb frequency "quarterly" then Some (Pd.date_range start_date end_date Pd.BQS)
    else if String.eqb frequency "annually" then Some (Pd.date_range start_date end_date Pd.BYS)
    else None in
  match rebalance_dates with
  | None => None
  | Some rebalance_dates =>
      let rebalance_dates := filter (fun d => (start_date <=? d)%Z) rebalance_dates in
      let rebalance_dates := filter (fun d => (d <=? end_date)%Z) rebalance_dates in
      Some rebalance_dates
  end.

(** The offset behind each accepted frequency. *)
Definition offset_of_frequency (frequency : string) : option Pd.Offset :=
  if String.eqb frequency "monthly" then Some Pd.BMS
  else if String.eqb frequency "quarterly" then Some Pd.BQS
  else if String.eqb frequency "annually" then Some Pd.BYS
  else None.

(** ** The body of [run_backtest] *)

Section Engine.

Context {env : Environment}.
Variable args : Args.

(** [vc_metrics_config_backtest] *)
Definition vc_metrics_config_backtest : Py.dict Direction :=
  fold_left
    (fun d metric =>
       match Py.getitem VC_METRIC_DIRECTIONS_DEFAULT metric with
       | Some dir => Py.setitem d metric dir
       | None => d
       end)
    (vc_metrics args) [].

(** Step 3: the two score columns of [df_fundamental]. *)
Definition score_fundamentals (df_fundamental : list Fundamentals) : list ScoredRow :=
  map (fun row =>
         {| ticker := fundamentals_ticker row;
            Piotroski_F_Score := calcular_piotroski_f_score_br row;
            Quant_Value_Score :=
              calcular_value_composite_score df_fundamental
                vc_metrics_config_backtest row |})
      df_fundamental.

(** Step 4 (AssetSelector): filters, ranking, top N and the cap on the number
    of assets. *)
Definition AssetSelector (df_fundamental : list ScoredRow) : list string :=
  let df_elegiveis := df_fundamental in
  let df_elegiveis :=
    if (0 <? min_piotroski_score args)%Z
    then filter (fun r => (min_piotroski_score args <=? Piotroski_F_Score r)%Z) df_elegiveis
    else df_elegiveis in
  let df_elegiveis :=
    if Py.Qltb 0 (min_quant_value_score args)
    then filter (fun r => Qle_bool (min_quant_value_score args) (Quant_Value_Score r)) df_elegiveis
    else df_elegiveis in
  let df_elegiveis := sort_values_desc df_elegiveis in
  let df_elegiveis :=
    if (0 <? top_n_quant_value args)%Z
    then Pd.head df_elegiveis (top_n_quant_value args)
    else df_elegiveis in
  map ticker (Pd.head df_elegiveis (max_selected_assets args)).

(** Step 5, the feasibility check of the minimum allocation: with more
    assets than the minimum allows, keep the first [int(1.0 / min_alloc)]. *)
Definition shrink_to_min_alloc (selected_tickers : list string) : list string :=
  let num_selected := Py.len selected_tickers in
  if Py.Qltb 1 (min_alloc_asset args * num_selected)
  then
    let num_selected := Py.int (1 / min_alloc_asset args) in
    Py.slice_to selected_tickers num_selected
  else selected_tickers.

(** Step 5, the weights: equal weight, clipped to the bounds, then divided by
    the sum of the clipped weights.  The script has this text twice, over the
    selection and again over the tickers that have a price. *)
Definition clamped_equal_weights (selected_tickers : list string) : Py.dict Q :=
  let weight_per_asset := 1 / Py.len selected_tickers in
  let final_weights_raw :=
    Py.comprehension
      (fun ticker =>
         (ticker, Pd.clip weight_per_asset (min_alloc_asset args) (max_alloc_asset args)))
      selected_tickers in
  let sum_weights := Py.sum (Py.values final_weights_raw) in
  Py.comprehension (fun tw => (fst tw, snd tw / sum_weights)) final_weights_raw.

(** AllocationEngine: the target weights of a non-empty selection, the empty
    mapping when the shrink leaves nothing. *)
Definition AllocationEngine (selected_tickers : list string) : Py.dict Q :=
  match shrink_to_min_alloc selected_tickers with
  | [] => []
  | t :: ts => clamped_equal_weights (t :: ts)
  end.

(** Step 6, the buying loop: one holding per weighted ticker that has a
    price. *)
Definition execute_trades (current_portfolio_value : Q)
    (target_weights : Py.dict Q) (prices_on_rebalance_date : Pd.Series) : Holdings :=
  fold_left
    (fun new_holdings tw =>
       let ticker := fst tw in
       let weight := snd tw in
       match Pd.at_label prices_on_rebalance_date ticker with
       | Some price =>
           let amount_to_invest := current_portfolio_value * weight in
           let shares := amount_to_invest / price in
           Py.setitem new_holdings ticker (Bought shares price weight)
       | None => new_holdings
       end)
    target_weights [].

(** The tickers of the selection without a price on the rebalance date. *)
Definition missing_prices (selected_tickers : list string)
    (prices_on_rebalance_date : Pd.Series) : list string :=
  filter (fun t => Pd.isnull (Pd.at_label prices_on_rebalance_date t)) selected_tickers.

(** Step 6 (TradeExecutor): from the target weights and the price table
    fetched for the rebalance date to the holdings that replace the current
    ones. *)
Definition TradeExecutor (selected_tickers : list string)
    (target_weights : Py.dict Q) (prices_on_rebalance_date_df : Pd.DataFrame)
    (st : State) : State :=
  if Py.truthy target_weights then
    if Pd.empty prices_on_rebalance_date_df
       || Pd.isnull_all_all prices_on_rebalance_date_df
    then st
    else
      let prices_on_rebalance_date :=
        Pd.iloc0 (Pd.bfill (Pd.ffill prices_on_rebalance_date_df)) in
      let missing := missing_prices selected_tickers prices_on_rebalance_date in
      let target_weights :=
        if Py.truthy missing then
          let selected_tickers :=
            filter (fun t => negb (Py.contains missing t)) selected_tickers in
          if Py.truthy selected_tickers
          then clamped_equal_weights selected_tickers
          else []
        else target_weights in
      if Py.truthy target_weights
      then set_holdings st
             (execute_trades (current_portfolio_value st) target_weights
                prices_on_rebalance_date)
      else set_holdings st []
  else set_holdings st [].

(** Steps 5 and 6 for a non-empty selection. *)
Definition rebalance (current_rebalance_date : date)
    (selected_tickers : list string) (st : State) : State :=
  let num_selected := List.length selected_tickers in
  if (0 <? num_selected)%nat then
    let selected_tickers := shrink_to_min_alloc selected_tickers in
    if negb (Py.truthy selected_tickers) then set_holdings st []
    else
      let target_weights := clamped_equal_weights selected_tickers in
      TradeExecutor selected_tickers target_weights
        (obter_dados_historicos_yf selected_tickers current_rebalance_date
           (current_rebalance_date + 3)%Z)
        st
  else st.

(** Step 7 (PortfolioSimulator). *)

(** The price last recorded for [ticker]: the ['current_price'] of its entry
    in the holdings of [portfolio_history[-1]]. *)
Definition last_known_price (portfolio_history : list Snapshot) (ticker : string)
  : option Q :=
  match Py.last_item portfolio_history with
  | Some s =>
      match Py.getitem (holdings s) ticker with
      | Some (Valued _ current_price _) => Some current_price
      | _ => None
      end
  | None => None
  end.

(** The loop over [current_holdings.items()] of one day: the day's value and
    its log, or [None] when the loop breaks with [valid_prices_for_day]
    false. *)
Fixpoint value_holdings (daily_prices_df : Pd.DataFrame)
    (portfolio_history : list Snapshot) (sim_date : date)
    (items : Holdings) (current_day_value : Q)
    (temp_holdings_details_for_log : Holdings) : option (Q * Holdings) :=
  match items with
  | [] => Some (current_day_value, temp_holdings_details_for_log)
  | (ticker, data) :: items' =>
      match Pd.loc daily_prices_df sim_date ticker with
      | Some current_price =>
          value_holdings daily_prices_df portfolio_history sim_date items'
            (current_day_value + shares_of data * current_price)
            (Py.setitem temp_holdings_details_for_log ticker
               (Valued (shares_of data) current_price (shares_of data * current_price)))
      | None =>
          match last_known_price portfolio_history ticker with
          | Some last_known_price =>
              value_holdings daily_prices_df portfolio_history sim_date items'
                (current_day_value + shares_of data * last_known_price)
                (Py.setitem temp_holdings_details_for_log ticker
                   (Valued (shares_of data) last_known_price
                      (shares_of data * last_known_price)))
          | None => None
          end
      end
  end.

(** One business day of a period in which the portfolio holds assets. *)
Definition simulate_day (daily_prices_df : Pd.DataFrame) (st : State)
    (sim_date : date) : State :=
  if negb (Pd.in_index daily_prices_df sim_date) then
    match Py.last_item (portfolio_history st) with
    | Some last_snapshot =>
        if (snap_date last_snapshot <? sim_date)%Z then
          append_snapshot st
            {| snap_date := sim_date;
               portfolio_value := portfolio_value last_snapshot;
               holdings := current_holdings st |}
        else st
    | None =>
        append_snapshot st
          {| snap_date := sim_date;
             portfolio_value := current_portfolio_value st;
             holdings := current_holdings st |}
    end
  else
    match value_holdings daily_prices_df (portfolio_history st) sim_date
            (current_holdings st) 0 [] with
    | Some (current_day_value, temp_holdings_details_for_log) =>
        append_snapshot (set_value st current_day_value)
          {| snap_date := sim_date;
             portfolio_value := current_day_value;
             holdings := temp_holdings_details_for_log |}
    | None =>
        let value :=
          match Py.last_item (portfolio_history st) with
          | Some last_snapshot => portfolio_value last_snapshot
          | None => current_portfolio_value st
          end in
        append_snapshot (set_value st value)
          {| snap_date := sim_date;
             portfolio_value := value;
             holdings := current_holdings st |}
    end.

(** One business day of a period in cash. *)
Definition cash_day (st : State) (sim_date : date) : State :=
  append_snapshot st
    {| snap_date := sim_date;
       portfolio_value := current_portfolio_value st;
       holdings := [] |}.

(** The simulation of the period [[start_sim_period, end_sim_period]]. *)
Definition simulate_period (start_sim_period end_sim_period : date) (st : State)
  : State :=
  if Py.truthy (current_holdings st) then
    let tickers_in_portfolio := Py.keys (current_holdings st) in
    let daily_prices_df :=
      obter_dados_historicos_yf tickers_in_portfolio start_sim_period
        (end_sim_period + 3)%Z in
    let daily_prices_df := Pd.ffill daily_prices_df in
    fold_left (simulate_day daily_prices_df)
      (Pd.date_range start_sim_period end_sim_period Pd.B) st
  else
    fold_left cash_day (Pd.date_range start_sim_period end_sim_period Pd.B) st.

(** One turn of the rebalance loop; [next_rebalance_date] is
    [rebalance_dates[i+1]] when there is one. *)
Definition rebalance_iteration (current_rebalance_date : date)
    (next_rebalance_date : option date) (st : State) : State :=
  let df_fundamental :=
    obter_dados_fundamentalistas_detalhados_br current_rebalance_date
      (universe_tickers args) in
  if negb (Py.truthy df_fundamental) then
    if Py.truthy (current_holdings st) then
      append_snapshot st
        {| snap_date := current_rebalance_date;
           portfolio_value := current_portfolio_value st;
           holdings := current_holdings st |}
    else st
  else
    let selected_tickers := AssetSelector (score_fundamentals df_fundamental) in
    let st :=
      if negb (Py.truthy selected_tickers) then st
      else rebalance current_rebalance_date selected_tickers st in
    let start_sim_period := current_rebalance_date in
    let end_sim_period :=
      match next_rebalance_date with
      | Some next => (next - 1)%Z
      | None => end_date_backtest args
      end in
    simulate_period start_sim_period end_sim_period st.

(** The rebalance loop over [enumerate(rebalance_dates)]. *)
Fixpoint rebalance_loop (rebalance_dates : list date) (st : State) : State :=
  match rebalance_dates with
  | [] => st
  | current_rebalance_date :: rest =>
      rebalance_loop rest
        (rebalance_iteration current_rebalance_date (hd_error rest) st)
  end.

Definition initial_state : State :=
  {| portfolio_history := [];
     current_portfolio_value := initial_portfolio_value args;
     current_holdings := [] |}.

(** [run_backtest(args)]: the history handed to the writer of the results. *)
Definition run_backtest : RunResult :=
  match get_rebalance_dates (start_date_backtest args) (end_date_backtest args)
          (rebalance_frequency args) with
  | None => UnknownFrequency
  | Some rebalance_dates =>
      if negb (Py.truthy rebalance_dates) then NoRebalanceDates
      else Finished (portfolio_history (rebalance_loop rebalance_dates initial_state))
  end.

End Engine.

(** ** Reading aids for the statements *)

(** The dates recorded in the history of a state. *)
Definition dates_of (st : State) : list date := map snap_date (portfolio_history st).

(** A step of a simulation records its day once, after the days already in
    the history. *)
Definition records_its_day (step : State -> date -> State) : Prop :=
  forall st d,
    (forall x, In x (dates_of st) -> (x < d)%Z) ->
    dates_of (step st d) = dates_of st ++ [d].

(** The holding [execute_trades] books for a weighted ticker. *)
Definition bought (current_portfolio_value : Q) (prices : Pd.Series)
    (tw : string * Q) : string * HoldingEntry :=
  (fst tw,
   match Pd.at_label prices (fst tw) with
   | Some price => Bought (current_portfolio_value * snd tw / price) price (snd tw)
   | None => Bought 0 0 (snd tw)
   end).

(** Insertion into a descending list: the new record passes the records [x]
    for which [before (score r) (score x)] holds. *)
Fixpoint insert_by (before : Q -> Q -> bool) (r : ScoredRow) (l : list ScoredRow)
  : list ScoredRow :=
  match l with
  | [] => [r]
  | x :: l' =>
      if before (Quant_Value_Score r) (Quant_Value_Score x)
      then x :: insert_by before r l'
      else r :: x :: l'
  end.

(** ** The specification's wording, for comparison with the code *)

Module Spec.

(** A stable descending sort: a record goes in front of the later records of
    the same value score. *)
Definition stable_sort_desc (l : list ScoredRow) : list ScoredRow :=
  fold_right (insert_by Py.Qltb) [] l.

(** The records that survive the two filters of section 4.2, steps 1 and 2. *)
Definition survivors (args : Args) (records : list ScoredRow) : list ScoredRow :=
  let kept :=
    if (min_piotroski_score args =? 0)%Z then records
    else filter (fun r => negb (Piotroski_F_Score r <? min_piotroski_score args)%Z) records in
  if Qeq_bool (min_quant_value_score args) 0 then kept
  else filter (fun r => negb (Py.Qltb (Quant_Value_Score r) (min_quant_value_score args))) kept.

(** Steps 4 and 5: truncation to top N (when positive), then to max assets. *)
Definition truncate (args : Args) (ranked : list ScoredRow) : list ScoredRow :=
  let top :=
    if (0 <? top_n_quant_value args)%Z
    then firstn (Z.to_nat (top_n_quant_value args)) ranked
    else ranked in
  firstn (Z.to_nat (max_selected_assets args)) top.

(** Section 4.2 as written. *)
Definition select_assets (args : Args) (records : list ScoredRow) : list string :=
  map ticker (truncate args (stable_sort_desc (survivors args records))).

(** No two different records have the same value score. *)
Definition no_ties (l : list ScoredRow) : Prop :=
  forall a b, In a l -> In b l ->
              Quant_Value_Score a == Quant_Value_Score b -> a = b.

(** The filters of a well-formed configuration: thresholds and cap are not
    negative. *)
Definition filters_in_range (args : Args) : Prop :=
  (0 <= min_piotroski_score args)%Z /\ 0 <= min_quant_value_score args
  /\ (0 <= max_selected_assets args)%Z.

(** Allocation bounds as section 4.3 takes them. *)
Definition bounds_in_range (args : Args) : Prop :=
  0 <= min_alloc_asset args /\ min_alloc_asset args <= max_alloc_asset args
  /\ max_alloc_asset args <= 1.

(** Every weight lies within the allocation bounds. *)
Definition within_bounds (args : Args) (weights : Py.dict Q) : Prop :=
  Forall (fun w => min_alloc_asset args <= w /\ w <= max_alloc_asset args)
         (Py.values weights).

(** Cash put into the holdings: the sum of shares times entry price. *)
Definition invested (h : Holdings) : Q :=
  Py.sum (map (fun e => match e with
                        | Bought shares price_at_buy _ => shares * price_at_buy
                        | Valued _ _ value => value
                        end) (Py.values h)).

(** The first testable property of section 8, for a non-empty list of
    distinct tickers. *)
Definition allocation_property_as_stated : Prop :=
  forall (args : Args) (selected_tickers : list string),
    NoDup selected_tickers -> selected_tickers <> [] ->
    bounds_in_range args ->
    min_alloc_asset args * Py.len selected_tickers <= 1 ->
    Py.sum (Py.values (AllocationEngine args selected_tickers)) == 1
    /\ within_bounds args (AllocationEngine args selected_tickers).

(** The second testable property of section 8. *)
Definition shrink_property_as_stated : Prop :=
  forall (args : Args) (selected_tickers : list string),
    NoDup selected_tickers ->
    bounds_in_range args ->
    1 < min_alloc_asset args * Py.len selected_tickers ->
    let count := Z.to_nat (Qfloor (1 / min_alloc_asset args)) in
    shrink_to_min_alloc args selected_tickers = firstn count selected_tickers
    /\ List.length (shrink_to_min_alloc args selected_tickers) = count
    /\ Py.sum (Py.values (AllocationEngine args selected_tickers)) == 1
    /\ within_bounds args (AllocationEngine args selected_tickers).

(** Section 4.5, last item: a snapshot for every business day from the first
    rebalance date to the end of the backtest. *)
Definition gapless_history_as_stated : Prop :=
  forall (env : Environment) (args : Args) (rebalance_dates : list date)
         (history : list Snapshot),
    get_rebalance_dates (start_date_backtest args) (end_date_backtest args)
      (rebalance_frequency args) = Some rebalance_dates ->
    run_backtest args = Finished history ->
    forall d,
      In d (Pd.date_range (hd 0%Z rebalance_dates) (end_date_backtest args) Pd.B) ->
      In d (map snap_date history).

End Spec.

(** ** [sort_values] where numpy sorts with its AVX-512 kernel

    [df.sort_values(by=..., ascending=False)] leaves the order to
    [nargsort], which reverses the keys, calls numpy's [argsort] with the
    default [kind='quicksort'] and reverses the result.  How [argsort]
    orders equal keys depends on the build of numpy.  Without a vectorised
    kernel up to sixteen keys are sorted by insertion, which keeps equal keys
    in their order, and the rows of equal score then come out in provider
    order.  On a processor with AVX-512 numpy sorts [float64] keys with the
    bitonic network of x86-simd-sort, which exchanges keys several lanes
    apart and can carry a key past an equal one.  What follows is that
    network, for the at most eight keys that fit one register. *)

Module Np.

(** A lane of a register of [float64] keys holds a key or, when unused, the
    padding [zmm_max] (infinity), here [None]. *)
Definition lane_le (a b : option Q) : bool :=
  match a, b with
  | _, None => true
  | None, Some _ => false
  | Some x, Some y => Qle_bool x y
  end.

Definition lane_min (a b : option Q) : option Q := if lane_le a b then a else b.

Definition lane_max (a b : option Q) : option Q := if lane_le a b then b else a.

Definition lane_eq (a b : option Q) : bool := lane_le a b && lane_le b a.

Definition lanewise {A B C} (f : A -> B -> C) (v : list A) (w : list B) : list C :=
  map (fun p => f (fst p) (snd p)) (combine v w).

(** The lanes of an 8-bit mask, from lane 0. *)
Definition opmask (k : N) : list bool := map (N.testbit k) [0; 1; 2; 3; 4; 5; 6; 7]%N.

(** [mask_mov(x, k, y)]: the lanes of [y] where [k] is set, of [x] elsewhere. *)
Definition mask_mov {A} (x : list A) (k : list bool) (y : list A) : list A :=
  lanewise (fun m p => if m : bool then snd p else fst p) k (combine x y).

(** [permutexvar(idx, v)]: lane [i] takes lane [idx[i]] of [v]. *)
Definition permutexvar {A} (d : A) (idx : list nat) (v : list A) : list A :=
  map (fun i => nth i v d) idx.

(** The lane permutations of the network, lane 0 first ([_mm512_set_epi64]
    lists its arguments from lane 7 down): neighbours swapped, each half
    reversed, the register reversed, pairs of neighbours swapped. *)
Definition SHUFFLE_1_1_1_1 : list nat := [1; 0; 3; 2; 5; 4; 7; 6]%nat.

Definition NETWORK_64BIT_1 : list nat := [3; 2; 1; 0; 7; 6; 5; 4]%nat.

Definition NETWORK_64BIT_2 : list nat := [7; 6; 5; 4; 3; 2; 1; 0]%nat.

Definition NETWORK_64BIT_3 : list nat := [2; 3; 0; 1; 6; 7; 4; 5]%nat.

(** [cmp_merge]: each lane keeps the smaller of its two keys, or the larger
    where the mask is set, and the index of the key kept: its own index when
    the key kept equals its own key. *)
Definition cmp_merge (in1 in2 : list (option Q)) (indexes1 indexes2 : list nat) (k : N)
  : list (option Q) * list nat :=
  let tmp_keys :=
    mask_mov (lanewise lane_min in2 in1) (opmask k) (lanewise lane_max in2 in1) in
  (tmp_keys, mask_mov indexes2 (lanewise lane_eq tmp_keys in1) indexes1).

(** One stage of the network: every lane against its partner under [idx]. *)
Definition stage (idx : list nat) (k : N) (zmm : list (option Q) * list nat)
  : list (option Q) * list nat :=
  cmp_merge (fst zmm) (permutexvar None idx (fst zmm))
            (snd zmm) (permutexvar 0%nat idx (snd zmm)) k.

(** [sort_zmm_64bit]: the network on a register of keys and the register of
    their indexes. *)
Definition sort_zmm_64bit (zmm : list (option Q) * list nat) : list (option Q) * list nat :=
  let zmm := stage SHUFFLE_1_1_1_1 0xAA zmm in
  let zmm := stage NETWORK_64BIT_1 0xCC zmm in
  let zmm := stage SHUFFLE_1_1_1_1 0xAA zmm in
  let zmm := stage NETWORK_64BIT_2 0xF0 zmm in
  let zmm := stage NETWORK_64BIT_3 0xCC zmm in
  stage SHUFFLE_1_1_1_1 0xAA zmm.

(** [argsort_8_64bit]: the first [n] lanes load the indexes and gather their
    keys, the other lanes are padded; the sorted indexes are stored back. *)
Definition argsort_8_64bit (arr : list Q) (arg : list nat) : list nat :=
  let n := List.length arg in
  let lanes := seq 0 8 in
  let argzmm := map (fun i => if (i <? n)%nat then nth i arg 0%nat else 0%nat) lanes in
  let arrzmm :=
    map (fun i => if (i <? n)%nat then nth_error arr (nth i argzmm 0%nat) else None) lanes in
  firstn n (snd (sort_zmm_64bit (arrzmm, argzmm))).

(** [arr.argsort(kind='quicksort')] for at most eight [float64] keys, none
    of them NaN: the positions of the keys in ascending order.  [None] beyond
    eight keys, which the kernel sorts with wider networks. *)
Definition argsort (arr : list Q) : option (list nat) :=
  let arg := seq 0 (List.length arr) in
  if (List.length arr <=? 1)%nat then Some arg
  else if (List.length arr <=? 8)%nat then Some (argsort_8_64bit arr arg)
  else None.

End Np.

(** [nargsort(items, kind='quicksort', ascending=False)] of pandas on keys
    without NaN: the keys are reversed, sorted in ascending order, and the
    order found is reversed. *)
Definition nargsort_descending (items : list Q) : option (list nat) :=
  let idx := seq 0 (List.length items) in
  let non_nans := rev items in
  let non_nan_idx := rev idx in
  option_map (fun order => rev (map (fun i => nth i non_nan_idx 0%nat) order))
             (Np.argsort non_nans).

(** [df.take(indexer)] *)
Definition take {A} (df : list A) (indexer : list nat) : list A :=
  flat_map (fun i => match nth_error df i with Some r => [r] | None => [] end) indexer.

(** [df.sort_values(by="Quant_Value_Score", ascending=False)] on such a
    build, for at most eight rows.  Beyond eight rows this is no model of the
    kernel: the rows are then put in descending order by the stable sort, and
    nothing below sorts that many. *)
Definition sort_values_avx512 (df : list ScoredRow) : list ScoredRow :=
  match nargsort_descending (map Quant_Value_Score df) with
  | Some indexer => take df indexer
  | None => Spec.stable_sort_desc df
  end.

(** ** Concrete configurations and collaborators *)

Module Samples.

Local Open Scope string_scope.

Definition row (t : string) (piotroski : Z) (value : Q) : ScoredRow :=
  {| ticker := t; Piotroski_F_Score := piotroski; Quant_Value_Score := value |}.

(** Collaborators that hand out rows already scored. *)
Definition make_env (fundamentals : date -> list ScoredRow)
    (prices : list string -> date -> date -> Pd.DataFrame)
    (sort : list ScoredRow -> list ScoredRow) : Environment :=
  {| Fundamentals := ScoredRow;
     fundamentals_ticker := ticker;
     obter_dados_fundamentalistas_detalhados_br := fun d _ => fundamentals d;
     calcular_piotroski_f_score_br := Piotroski_F_Score;
     calcular_value_composite_score := fun _ _ r => Quant_Value_Score r;
     obter_dados_historicos_yf := prices;
     sort_values_desc := sort |}.

(** A price provider that quotes [price] for every requested ticker on every
    business day of the requested window. *)
Definition flat_prices (price : Q) (tickers : list string) (start stop : date)
  : Pd.DataFrame :=
  {| Pd.columns := tickers;
     Pd.rows := map (fun d => (d, map (fun _ => Some price) tickers))
                    (Pd.date_range start stop Pd.B) |}.

(** The defaults of the command line over the first quarter of 2020. *)
Definition args_defaults : Args :=
  {| start_date_backtest := Calendar.ymd2ord 2020 1 1;
     end_date_backtest := Calendar.ymd2ord 2020 3 31;
     initial_portfolio_value := 100000;
     rebalance_frequency := "monthly";
     universe_tickers := ["A"; "B"];
     min_piotroski_score := 0;
     min_quant_value_score := 0;
     top_n_quant_value := 0;
     max_selected_assets := 10;
     min_alloc_asset := 5 # 100;
     max_alloc_asset := 20 # 100;
     vc_metrics := ["trailingPE"; "priceToBook"; "enterpriseToEbitda";
                    "dividendYield"; "returnOnEquity"; "netMargin"] |}.

(** The same with other allocation bounds. *)
Definition args_with_bounds (lo hi : Q) : Args :=
  {| start_date_backtest := start_date_backtest args_defaults;
     end_date_backtest := end_date_backtest args_defaults;
     initial_portfolio_value := initial_portfolio_value args_defaults;
     rebalance_frequency := rebalance_frequency args_defaults;
     universe_tickers := universe_tickers args_defaults;
     min_piotroski_score := min_piotroski_score args_defaults;
     min_quant_value_score := min_quant_value_score args_defaults;
     top_n_quant_value := top_n_quant_value args_defaults;
     max_selected_assets := max_selected_assets args_defaults;
     min_alloc_asset := lo;
     max_alloc_asset := hi;
     vc_metrics := vc_metrics args_defaults |}.

(** Two assets of equal value score. *)
Definition tied_rows : list ScoredRow := [row "A" 5 (1 # 2); row "B" 5 (1 # 2)].

(** Three assets of distinct value scores. *)
Definition ranked_rows : list ScoredRow :=
  [row "A" 5 (1 # 2); row "B" 7 (3 # 4); row "C" 3 (1 # 4)].

(** Four assets, the last two of equal value score, the highest. *)
Definition tied_top_rows : list ScoredRow :=
  [row "A" 5 (1 # 2); row "B" 5 (1 # 4); row "C" 5 (3 # 4); row "D" 5 (3 # 4)].

(** [sort_values] as it runs where numpy sorts with its AVX-512 kernel. *)
Definition env_avx512 : Environment :=
  make_env (fun _ => tied_top_rows) (flat_prices 10) sort_values_avx512.

Definition env_stable : Environment :=
  make_env (fun _ => ranked_rows) (flat_prices 10) Spec.stable_sort_desc.

(** Fundamentals are there in January and March 2020 and missing at the
    rebalance of February. *)
Definition env_february_outage : Environment :=
  make_env
    (fun d => if (d =? Calendar.ymd2ord 2020 2 3)%Z then [] else ranked_rows)
    (flat_prices 10) Spec.stable_sort_desc.

(** A price provider that is down: every request gets an empty table. *)
Definition env_no_prices : Environment :=
  make_env (fun _ => ranked_rows)
    (fun _ _ _ => {| Pd.columns := []; Pd.rows := [] |}) Spec.stable_sort_desc.

(** Prices on a rebalance date with no quote for "B". *)
Definition prices_b_missing : Pd.DataFrame :=
  {| Pd.columns := ["A"; "B"; "C"];
     Pd.rows := [(Calendar.ymd2ord 2020 1 1, [Some 10; None; Some 20])] |}.

(** Section 8's simulator scenario: one ticker, four business days (Monday 1
    to Thursday 4 June 2020), prices 10, 11, missing, 12. *)
Definition june (day : Z) : date := Calendar.ymd2ord 2020 6 day.

(** The missing price as a NaN cell of the third day. *)
Definition prices_with_nan : Pd.DataFrame :=
  {| Pd.columns := ["T"];
     Pd.rows := [(june 1, [Some 10]); (june 2, [Some 11]);
                 (june 3, [None]); (june 4, [Some 12])] |}.

(** The missing price as a day without a row. *)
Definition prices_with_gap : Pd.DataFrame :=
  {| Pd.columns := ["T"];
     Pd.rows := [(june 1, [Some 10]); (june 2, [Some 11]); (june 4, [Some 12])] |}.

Definition hundred_shares : State :=
  {| portfolio_history := [];
     current_portfolio_value := 1000;
     current_holdings := [("T", Bought 100 10 1)] |}.

Definition env_scenario (df : Pd.DataFrame) : Environment :=
  make_env (fun _ => [row "T" 5 (1 # 2)]) (fun _ _ _ => df) Spec.stable_sort_desc.

(** The scenario as a whole run: 1000 of cash, bounds [0, 1], one rebalance
    on 1 June 2020 that buys the 100 shares. *)
Definition args_scenario : Args :=
  {| start_date_backtest := june 1;
     end_date_backtest := june 4;
     initial_portfolio_value := 1000;
     rebalance_frequency := "monthly";
     universe_tickers := ["T"];
     min_piotroski_score := 0;
     min_quant_value_score := 0;
     top_n_quant_value := 0;
     max_selected_assets := 10;
     min_alloc_asset := 0;
     max_alloc_asset := 1;
     vc_metrics := [] |}.

End Samples.

(** ** Further reading aids *)

(** The running value is the one last recorded, the initial one while the
    history is empty. *)
Definition value_is_last_recorded (initial : Q) (st : State) : Prop :=
  current_portfolio_value st
  = match Py.last_item (portfolio_history st) with
    | Some s => portfolio_value s
    | None => initial
    end.

(** The snapshot of a day in cash. *)
Definition cash_snapshot (value : Q) (d : date) : Snapshot :=
  {| snap_date := d; portfolio_value := value; holdings := [] |}.

(** A rebalance date at which the engine cannot buy: fundamentals are there,
    and either no asset is selected or the price lookup for the selection
    returns nothing usable. *)
Definition nothing_to_buy {env : Environment} (args : Args) (d : date) : Prop :=
  let df_fundamental :=
    obter_dados_fundamentalistas_detalhados_br d (universe_tickers args) in
  let selected_tickers := AssetSelector args (score_fundamentals args df_fundamental) in
  let prices_on_rebalance_date_df :=
    obter_dados_historicos_yf (shrink_to_min_alloc args selected_tickers) d (d + 3)%Z in
  df_fundamental <> []
  /\ (selected_tickers = []
      \/ Pd.empty prices_on_rebalance_date_df
         || Pd.isnull_all_all prices_on_rebalance_date_df = true).

(** The ticker of a weighted pair has a price. *)
Definition priced (prices : Pd.Series) (tw : string * Q) : bool :=
  negb (Pd.isnull (Pd.at_label prices (fst tw))).

(** The target weights recorded in the holdings. *)
Definition weights_of (h : Holdings) : list Q :=
  map (fun e => match e with
                | Bought _ _ weight => weight
                | Valued _ _ _ => 0
                end) (Py.values h).

(** The price the simulator uses for a held ticker on a day: the day's price
    of the table, failing that the price recorded in the last snapshot. *)
Definition price_used (daily_prices_df : Pd.DataFrame)
    (portfolio_history : list Snapshot) (sim_date : date) (ticker : string)
  : option Q :=
  match Pd.loc daily_prices_df sim_date ticker with
  | Some current_price => Some current_price
  | None => last_known_price portfolio_history ticker
  end.

(** The log entry of a holding valued at the price used. *)
Definition valued (daily_prices_df : Pd.DataFrame)
    (portfolio_history : list Snapshot) (sim_date : date)
    (item : string * HoldingEntry) : string * HoldingEntry :=
  (fst item,
   match price_used daily_prices_df portfolio_history sim_date (fst item) with
   | Some price =>
       Valued (shares_of (snd item)) price (shares_of (snd item) * price)
   | None => snd item
   end).

(** Every holding has a price to be valued at. *)
Definition all_priced (daily_prices_df : Pd.DataFrame)
    (portfolio_history : list Snapshot) (sim_date : date) (h : Holdings) : bool :=
  forallb (fun item =>
             negb (Pd.isnull
                     (price_used daily_prices_df portfolio_history sim_date (fst item))))
          h.

(** The value carried forward: the one last recorded, the running value
    while nothing is recorded. *)
Definition previous_value (st : State) : Q :=
  match Py.last_item (portfolio_history st) with
  | Some last_snapshot => portfolio_value last_snapshot
  | None => current_portfolio_value st
  end.

(** [df_elegiveis] after the two filters of step 4. *)
Definition eligible (args : Args) (df_fundamental : list ScoredRow) : list ScoredRow :=
  let df_elegiveis := df_fundamental in
  let df_elegiveis :=
    if (0 <? min_piotroski_score args)%Z
    then filter (fun r => (min_piotroski_score args <=? Piotroski_F_Score r)%Z) df_elegiveis
    else df_elegiveis in
  if Py.Qltb 0 (min_quant_value_score args)
  then filter (fun r => Qle_bool (min_quant_value_score args) (Quant_Value_Score r)) df_elegiveis
  else df_elegiveis.

(** The number of rows [df.head(n)] keeps of [l]. *)
Definition head_count {A} (l : list A) (n : Z) : nat :=
  if (0 <=? n)%Z then Z.to_nat n else (List.length l - Z.to_nat (- n))%nat.

(** The condition of the warning on [vc_metrics]:
    [len(vc_metrics_config_backtest) != len(args.vc_metrics)]. *)
Definition vc_metrics_warning (args : Args) : bool :=
  negb (List.length (vc_metrics_config_backtest args) =? List.length (vc_metrics args))%nat.

(** [metric in VC_METRIC_DIRECTIONS_DEFAULT] *)
Definition recognised (metric : string) : bool :=
  Py.contains (Py.keys VC_METRIC_DIRECTIONS_DEFAULT) metric.

(** The month and day of the [n]-th day (from 0) of a year, as
    [Calendar.ord2ymd] finds them. *)
Definition month_day (leapyear : bool) (n : Z) : Z * Z :=
  (let month := Z.shiftr (n + 50) 5 in
   let preceding :=
     nth (Z.to_nat (month - 1)) Calendar.DAYS_BEFORE_MONTH 0
     + (if (2 <? month) && leapyear then 1 else 0) in
   if n <? preceding then
     let month := month - 1 in
     let preceding :=
       preceding
       - (nth (Z.to_nat (month - 1)) Calendar.DAYS_IN_MONTH 0
          + (if (month =? 2) && leapyear then 1 else 0)) in
     (month, n - preceding + 1)
   else (month, n - preceding + 1))%Z.

(** [month_day] lands in a month and on the right day of it. *)
Definition month_day_ok (leapyear : bool) (n : Z) : bool :=
  (let '(month, day) := month_day leapyear n in
   (1 <=? month) && (month <=? 12) && (1 <=? day) && (day <=? 31)
   && (nth (Z.to_nat (month - 1)) Calendar.DAYS_BEFORE_MONTH 0
       + (if (2 <? month) && leapyear then 1 else 0) + day =? n + 1))%Z.

(** The year and month of a date. *)
Definition year_month (d : date) : Z * Z :=
  let '(year, month, _) := Calendar.ord2ymd d in (year, month).

(** The day of the month of a date. *)
Definition day_of_month (d : date) : Z :=
  let '(_, _, day) := Calendar.ord2ymd d in day.

(** ** Python string methods used by [parse_arguments], on ASCII text *)

Module PyStr.

Local Open Scope char_scope.

(** [c.isspace()] for an ASCII character: tab, line feed, vertical tab, form
    feed, carriage return, the four separators 28 to 31, and the space. *)
Definition isspace (c : ascii) : bool :=
  let n := nat_of_ascii c in
  ((9 <=? n) && (n <=? 13) || (28 <=? n) && (n <=? 32))%nat.

(** [c.upper()] for an ASCII character. *)
Definition upper_char (c : ascii) : ascii :=
  let n := nat_of_ascii c in
  if ((97 <=? n) && (n <=? 122))%nat then ascii_of_nat (n - 32) else c.

(** [s.upper()] *)
Fixpoint upper (s : string) : string :=
  match s with
  | EmptyString => EmptyString
  | String c s' => String (upper_char c) (upper s')
  end.

(** [s.lstrip()] *)
Fixpoint lstrip (s : string) : string :=
  match s with
  | EmptyString => EmptyString
  | String c s' => if isspace c then lstrip s' else s
  end.

(** [s.rstrip()] *)
Fixpoint rstrip (s : string) : string :=
  match s with
  | EmptyString => EmptyString
  | String c s' =>
      match rstrip s' with
      | EmptyString => if isspace c then EmptyString else String c EmptyString
      | String c' r => String c (String c' r)
      end
  end.

(** [s.strip()] *)
Definition strip (s : string) : string := rstrip (lstrip s).

(** [s.split(',')]: the pieces between the commas, empty ones included. *)
Fixpoint split_comma (s : string) : list string :=
  match s with
  | EmptyString => [EmptyString]
  | String c s' =>
      if Ascii.eqb c ","
      then EmptyString :: split_comma s'
      else match split_comma s' with
           | piece :: pieces => String c piece :: pieces
           | [] => [String c EmptyString]
           end
  end.

(** [','.join(l)] *)
Fixpoint join_comma (l : list string) : string :=
  match l with
  | [] => EmptyString
  | [piece] => piece
  | piece :: pieces => piece ++ String "," (join_comma pieces)
  end%string.

(** Truth value of a string. *)
Definition truthy (s : string) : bool :=
  match s with EmptyString => false | String _ _ => true end.

(** No character of the string is a comma. *)
Fixpoint comma_free (s : string) : bool :=
  match s with
  | EmptyString => true
  | String c s' => negb (Ascii.eqb c ",") && comma_free s'
  end.

(** Every character of the string is ASCII (below 128). *)
Fixpoint is_ascii (s : string) : bool :=
  match s with
  | EmptyString => true
  | String c s' => (nat_of_ascii c <? 128)%nat && is_ascii s'
  end.

End PyStr.

(** [args.universe_tickers] as [parse_arguments] rebuilds it from the command
    line:
    [[ticker.strip().upper() for ticker in s.split(',') if ticker.strip()]]. *)
Definition parse_universe_tickers (s : string) : list string :=
  map (fun ticker => PyStr.upper (PyStr.strip ticker))
      (filter (fun ticker => PyStr.truthy (PyStr.strip ticker)) (PyStr.split_comma s)).

(** A ticker in the form [parse_arguments] leaves it: not empty, no comma,
    nothing to strip, nothing to put in upper case. *)
Definition normalised (ticker : string) : Prop :=
  ticker <> EmptyString
  /\ PyStr.comma_free ticker = true
  /\ PyStr.strip ticker = ticker
  /\ PyStr.upper ticker = ticker.

(** The first character, if any, is not a space. *)
Definition starts_clean (s : string) : bool :=
  match s with
  | EmptyString => true
  | String c _ => negb (PyStr.isspace c)
  end.

(** ** Further collaborators and states *)

Module Cases.

Local Open Scope string_scope.

(** A fundamentals provider that is down: every request gets no rows. *)
Definition env_no_fundamentals : Environment :=
  Samples.make_env (fun _ => []) (Samples.flat_prices 10) Spec.stable_sort_desc.

(** The defaults with a quality filter and a cap of one asset. *)
Definition args_filtered : Args :=
  {| start_date_backtest := start_date_backtest Samples.args_defaults;
     end_date_backtest := end_date_backtest Samples.args_defaults;
     initial_portfolio_value := initial_portfolio_value Samples.args_defaults;
     rebalance_frequency := rebalance_frequency Samples.args_defaults;
     universe_tickers := universe_tickers Samples.args_defaults;
     min_piotroski_score := 4;
     min_quant_value_score := 0;
     top_n_quant_value := 2;
     max_selected_assets := 1;
     min_alloc_asset := min_alloc_asset Samples.args_defaults;
     max_alloc_asset := max_alloc_asset Samples.args_defaults;
     vc_metrics := vc_metrics Samples.args_defaults |}.

(** Prices of a day on which "A" is quoted at its entry price and "B" is not
    quoted. *)
Definition prices_a_only : Pd.DataFrame :=
  {| Pd.columns := ["A"; "B"];
     Pd.rows := [(Samples.june 1, [Some 10; None])] |}.

(** Two holdings bought at 10 and 20, nothing recorded yet. *)
Definition two_holdings : State :=
  {| portfolio_history := [];
     current_portfolio_value := 1000;
     current_holdings := [("A", Bought 50 10 (1 # 2)); ("B", Bought 25 20 (1 # 2))] |}.

(** Prices of a day at the entry prices of [two_holdings]. *)
Definition prices_at_entry : Pd.DataFrame :=
  {| Pd.columns := ["A"; "B"];
     Pd.rows := [(Samples.june 1, [Some 10; Some 20])] |}.

End Cases.

(** * Proofs *)

Local Open Scope Z_scope.
Local Open Scope Q_scope.

(** Side conditions on concrete data: a list of distinct tickers, and
    configuration ranges. *)
Ltac distinct_tickers := repeat constructor; simpl; intuition discriminate.

Ltac config_in_range :=
  unfold Spec.bounds_in_range, Spec.filters_in_range; simpl;
  repeat split; discriminate.

(** ** Booleans of the float comparisons *)

Lemma Qltb_true (x y : Q) : Py.Qltb x y = true <-> x < y.
Proof.
  unfold Py.Qltb. rewrite negb_true_iff.
  split; intro H.
  - apply Qnot_le_lt. intro L. apply Qle_bool_iff in L. congruence.
  - destruct (Qle_bool y x) eqn:E; [|reflexivity].
    apply Qle_bool_iff in E. exfalso. apply (Qlt_not_le _ _ H E).
Qed.

Lemma Qltb_false (x y : Q) : Py.Qltb x y = false <-> y <= x.
Proof.
  unfold Py.Qltb. rewrite negb_false_iff. apply Qle_bool_iff.
Qed.

(** ** Dictionaries *)

Lemma setitem_fresh {V} (d : Py.dict V) k v :
  ~ In k (Py.keys d) -> Py.setitem d k v = d ++ [(k, v)].
Proof.
  induction d as [|[k' v'] d IH]; simpl; intro H; [reflexivity|].
  destruct (String.eqb_spec k' k) as [->|_].
  - exfalso. apply H. now left.
  - f_equal. apply IH. intro I. apply H. now right.
Qed.

Lemma comprehension_acc {A V} (f : A -> string * V) (l : list A) (acc : Py.dict V) :
  NoDup (Py.keys acc ++ map (fun a => fst (f a)) l) ->
  fold_left (fun d a => Py.setitem d (fst (f a)) (snd (f a))) l acc = acc ++ map f l.
Proof.
  revert acc. induction l as [|a l IH]; simpl; intros acc H.
  - now rewrite app_nil_r.
  - rewrite setitem_fresh.
    + rewrite IH.
      * rewrite <- app_assoc. simpl. now destruct (f a).
      * unfold Py.keys in *. rewrite map_app. simpl.
        rewrite <- app_assoc. exact H.
    + apply NoDup_remove_2 in H. intro I. apply H. apply in_or_app. now left.
Qed.

Lemma comprehension_distinct {A V} (f : A -> string * V) (l : list A) :
  NoDup (map (fun a => fst (f a)) l) -> Py.comprehension f l = map f l.
Proof.
  intro H. unfold Py.comprehension. now rewrite comprehension_acc.
Qed.

(** ** Sums *)

Lemma sum_acc (l : list Q) (a : Q) : fold_left Qplus l a == a + Py.sum l.
Proof.
  unfold Py.sum. revert a. induction l as [|x l IH]; simpl; intro a.
  - ring.
  - rewrite (IH (a + x)), (IH (0 + x)). ring.
Qed.

Lemma sum_cons (x : Q) (l : list Q) : Py.sum (x :: l) == x + Py.sum l.
Proof. unfold Py.sum at 1. simpl. rewrite sum_acc. ring. Qed.

Lemma len_cons {A} (x : A) (l : list A) : Py.len (x :: l) == 1 + Py.len l.
Proof.
  unfold Py.len. simpl List.length. rewrite Nat2Z.inj_succ, <- Z.add_1_l.
  now rewrite inject_Z_plus.
Qed.

Lemma len_nonneg {A} (l : list A) : 0 <= Py.len l.
Proof.
  unfold Py.len. change 0 with (inject_Z 0). rewrite <- Zle_Qle. lia.
Qed.

Lemma len_pos {A} (l : list A) : l <> [] -> 1 <= Py.len l.
Proof.
  destruct l as [|x l]; [congruence|]. intros _.
  rewrite len_cons. pose proof (len_nonneg l). lra.
Qed.

Lemma sum_constant {A} (c : Q) (l : list A) :
  Py.sum (map (fun _ => c) l) == Py.len l * c.
Proof.
  induction l as [|x l IH].
  - unfold Py.sum, Py.len. simpl. ring.
  - simpl map. rewrite sum_cons, len_cons, IH. ring.
Qed.

(** ** AllocationEngine *)

Section Allocation.

Variable args : Args.

(** The clipped equal weight of a selection. *)
Let clipped (l : list string) : Q :=
  Pd.clip (1 / Py.len l) (min_alloc_asset args) (max_alloc_asset args).

Lemma clamped_equal_weights_distinct (l : list string) :
  NoDup l ->
  clamped_equal_weights args l
  = map (fun t => (t, clipped l / Py.sum (map (fun _ => clipped l) l))) l.
Proof.
  intro ND. unfold clamped_equal_weights.
  rewrite (comprehension_distinct _ l) by (simpl; now rewrite map_id).
  rewrite comprehension_distinct.
  - rewrite map_map. simpl. unfold Py.values. rewrite map_map. reflexivity.
  - rewrite map_map. simpl. now rewrite map_id.
Qed.

Lemma clipped_pos (l : list string) :
  l <> [] -> 0 < max_alloc_asset args -> 0 < clipped l.
Proof.
  intros NE Hhi. unfold clipped, Pd.clip.
  apply Q.min_glb_lt; [|exact Hhi].
  apply Q.max_lt_iff. left.
  apply Qlt_shift_div_l; pose proof (len_pos l NE); lra.
Qed.

Lemma clipped_inside (l : list string) :
  l <> [] ->
  min_alloc_asset args * Py.len l <= 1 -> 1 <= max_alloc_asset args * Py.len l ->
  clipped l == 1 / Py.len l.
Proof.
  intros NE Hlo Hhi. pose proof (len_pos l NE) as Hn.
  unfold clipped, Pd.clip.
  assert (min_alloc_asset args <= 1 / Py.len l) by (apply Qle_shift_div_l; lra).
  assert (1 / Py.len l <= max_alloc_asset args) by (apply Qle_shift_div_r; lra).
  rewrite Q.max_l by assumption. now rewrite Q.min_l.
Qed.

(** Renormalising a clipped equal weight gives the equal weight back. *)
Lemma weights_renormalised (l : list string) :
  NoDup l -> l <> [] -> 0 < max_alloc_asset args ->
  Py.keys (clamped_equal_weights args l) = l
  /\ Py.sum (Py.values (clamped_equal_weights args l)) == 1
  /\ Forall (fun w => w == 1 / Py.len l) (Py.values (clamped_equal_weights args l)).
Proof.
  intros ND NE Hhi.
  pose proof (len_pos l NE) as Hn. pose proof (clipped_pos l NE Hhi) as Hc.
  rewrite clamped_equal_weights_distinct by assumption.
  unfold Py.keys, Py.values. rewrite !map_map. simpl.
  split; [apply map_id|].
  assert (W : clipped l / Py.sum (map (fun _ => clipped l) l) == 1 / Py.len l).
  { rewrite sum_constant. field. split; lra. }
  split.
  - rewrite sum_constant, W. field. lra.
  - apply Forall_forall. intros w I. apply in_map_iff in I.
    destruct I as [t [<- _]]. exact W.
Qed.

Lemma AllocationEngine_unshrunk (l : list string) :
  min_alloc_asset args * Py.len l <= 1 -> l <> [] ->
  AllocationEngine args l = clamped_equal_weights args l.
Proof.
  intros H NE. unfold AllocationEngine, shrink_to_min_alloc.
  replace (Py.Qltb 1 (min_alloc_asset args * Py.len l)) with false
    by (symmetry; now apply Qltb_false).
  destruct l; [congruence|reflexivity].
Qed.

Lemma Forall_equal_weight_bounds (ws : list Q) (n lo hi : Q) :
  ws <> [] -> 1 <= n -> lo * n <= 1 ->
  Forall (fun w => w == 1 / n) ws ->
  Forall (fun w => lo <= w) ws
  /\ (1 <= hi * n <-> Forall (fun w => lo <= w /\ w <= hi) ws).
Proof.
  intros NE Hn Hlo F.
  assert (L : lo <= 1 / n) by (apply Qle_shift_div_l; lra).
  split.
  - eapply Forall_impl; [|exact F]. simpl. intros w ->. exact L.
  - split.
    + intro Hhi. eapply Forall_impl; [|exact F]. simpl. intros w E.
      rewrite E. split; [exact L|]. apply Qle_shift_div_r; lra.
    + intro B. destruct ws as [|w ws]; [congruence|].
      inversion F as [|? ? E _]. inversion B as [|? ? [_ U] _]. subst.
      rewrite E in U. 
      assert (1 / n * n == 1) by (field; lra).
      assert (1 / n * n <= hi * n) by (apply Qmult_le_compat_r; lra).
      lra.
Qed.

End Allocation.

Lemma values_nonempty (args : Args) (l : list string) :
  NoDup l -> l <> [] -> Py.values (clamped_equal_weights args l) <> [].
Proof.
  intros ND NE. rewrite clamped_equal_weights_distinct by assumption.
  destruct l; [congruence|discriminate].
Qed.

(** C1, amended.  For a non-empty list of N distinct tickers and bounds with
    0 <= min <= max <= 1, max > 0 and min * N <= 1, the weights of the
    AllocationEngine (equal weight 1/N, clipped into [min, max], divided by
    the sum of the clipped weights) sum to 1, and every weight is 1/N and at
    least min.  Every weight lies in [min, max] exactly when max * N >= 1:
    below that, the division by the sum takes each clipped weight back to
    1/N, above max. *)
Theorem allocation_weights_sum_and_bounds (args : Args) (selected_tickers : list string) :
  NoDup selected_tickers -> selected_tickers <> [] ->
  Spec.bounds_in_range args ->
  0 < max_alloc_asset args ->
  min_alloc_asset args * Py.len selected_tickers <= 1 ->
  let target_weights := AllocationEngine args selected_tickers in
  Py.sum (Py.values target_weights) == 1
  /\ Forall (fun w => w == 1 / Py.len selected_tickers /\ min_alloc_asset args <= w)
            (Py.values target_weights)
  /\ (1 <= max_alloc_asset args * Py.len selected_tickers
      <-> Spec.within_bounds args target_weights).
Proof.
  intros ND NE _ Hhi Hlo. cbv zeta.
  rewrite AllocationEngine_unshrunk by assumption.
  destruct (weights_renormalised args selected_tickers ND NE Hhi) as (_ & S & F).
  destruct (Forall_equal_weight_bounds
              (Py.values (clamped_equal_weights args selected_tickers))
              (Py.len selected_tickers) (min_alloc_asset args) (max_alloc_asset args))
    as (L & B); auto using values_nonempty, len_pos.
  split; [exact S|]. split; [|exact B].
  apply Forall_forall. intros w I. split.
  - exact (proj1 (Forall_forall _ _) F w I).
  - exact (proj1 (Forall_forall _ _) L w I).
Qed.

(** C1, an instance: two tickers under the bounds [0.3, 0.7]. *)
Lemma allocation_weights_sum_and_bounds_witness :
  let target_weights := AllocationEngine (Samples.args_with_bounds (3 # 10) (7 # 10)) ["A"; "B"]%string in
  Py.sum (Py.values target_weights) == 1
  /\ Forall (fun w => w == 1 / Py.len ["A"; "B"]%string /\ (3 # 10) <= w) (Py.values target_weights)
  /\ (1 <= (7 # 10) * Py.len ["A"; "B"]%string
      <-> Spec.within_bounds (Samples.args_with_bounds (3 # 10) (7 # 10)) target_weights).
Proof.
  apply (allocation_weights_sum_and_bounds (Samples.args_with_bounds (3 # 10) (7 # 10)) ["A"; "B"]%string).
  - distinct_tickers.
  - discriminate.
  - config_in_range.
  - reflexivity.
  - discriminate.
Defined.

(** C1 as stated fails at the defaults of the command line (bounds
    [0.05, 0.20]) with two tickers: each weight is 1/2, above the maximum. *)
Lemma allocation_property_fails_at_defaults :
  AllocationEngine Samples.args_defaults ["A"; "B"]%string
  = [("A", 200000 # 400000); ("B", 200000 # 400000)]%string
  /\ ~ (200000 # 400000) <= max_alloc_asset Samples.args_defaults
  /\ ~ Spec.allocation_property_as_stated.
Proof.
  split; [reflexivity|]. split; [intro H; vm_compute in H; congruence|].
  intro P.
  destruct (P Samples.args_defaults ["A"; "B"]%string) as [_ B].
  - distinct_tickers.
  - discriminate.
  - config_in_range.
  - discriminate.
  - inversion B as [|? ? [_ U] _]. vm_compute in U. congruence.
Qed.

(** ** The shrink to the minimum allocation *)

Lemma int_floor (x : Q) : 0 <= x -> Py.int x = Qfloor x.
Proof.
  destruct x as [n d]. unfold Qle, Py.int, Qfloor. simpl. intro H.
  apply Z.quot_div_nonneg; lia.
Qed.

Lemma NoDup_prefix {A} (n : nat) (l : list A) : NoDup l -> NoDup (firstn n l).
Proof.
  intro H. rewrite <- (firstn_skipn n l) in H.
  now apply NoDup_app_remove_r in H.
Qed.

Section Shrink.

Variable args : Args.
Variable selected_tickers : list string.

Hypothesis min_nonneg : 0 <= min_alloc_asset args.
Hypothesis min_le_one : min_alloc_asset args <= 1.
Hypothesis infeasible : 1 < min_alloc_asset args * Py.len selected_tickers.

Let count : Z := Qfloor (1 / min_alloc_asset args).

Lemma min_alloc_pos : 0 < min_alloc_asset args.
Proof.
  destruct (Qlt_le_dec 0 (min_alloc_asset args)) as [P|N]; [exact P|].
  assert (E : min_alloc_asset args == 0) by lra.
  rewrite E in infeasible. lra.
Qed.

Lemma count_floor : Py.int (1 / min_alloc_asset args) = count.
Proof.
  apply int_floor. pose proof min_alloc_pos.
  apply Qle_shift_div_l; lra.
Qed.

Lemma count_pos : (1 <= count)%Z.
Proof.
  pose proof min_alloc_pos.
  change 1%Z with (Qfloor 1). apply Qfloor_resp_le.
  apply Qle_shift_div_l; lra.
Qed.

Lemma count_feasible : min_alloc_asset args * inject_Z count <= 1.
Proof.
  pose proof min_alloc_pos as P.
  pose proof (Qfloor_le (1 / min_alloc_asset args)) as F. fold count in F.
  assert (E : min_alloc_asset args * (1 / min_alloc_asset args) == 1) by (field; lra).
  rewrite <- E. apply Qmult_le_l; assumption.
Qed.

Lemma count_below_length : (Z.to_nat count < List.length selected_tickers)%nat.
Proof.
  pose proof min_alloc_pos as P. pose proof count_pos as C.
  pose proof (Qfloor_le (1 / min_alloc_asset args)) as F. fold count in F.
  assert (L : 1 / min_alloc_asset args < Py.len selected_tickers).
  { apply Qlt_shift_div_r; [exact P|]. lra. }
  assert (Z : inject_Z count < Py.len selected_tickers) by lra.
  unfold Py.len in Z. rewrite <- Zlt_Qlt in Z. lia.
Qed.

Lemma shrink_is_prefix :
  shrink_to_min_alloc args selected_tickers = firstn (Z.to_nat count) selected_tickers.
Proof.
  unfold shrink_to_min_alloc.
  replace (Py.Qltb 1 (min_alloc_asset args * Py.len selected_tickers)) with true
    by (symmetry; now apply Qltb_true).
  rewrite count_floor. unfold Py.slice_to.
  pose proof count_pos. destruct (Z.leb_spec 0 count); [reflexivity|lia].
Qed.

Lemma shrink_length :
  List.length (shrink_to_min_alloc args selected_tickers) = Z.to_nat count.
Proof.
  rewrite shrink_is_prefix. apply firstn_length_le.
  pose proof count_below_length. lia.
Qed.

Lemma shrink_len : Py.len (shrink_to_min_alloc args selected_tickers) = inject_Z count.
Proof.
  unfold Py.len. rewrite shrink_length. pose proof count_pos.
  now rewrite Z2Nat.id by lia.
Qed.

Lemma shrink_nonempty : shrink_to_min_alloc args selected_tickers <> [].
Proof.
  intro E. pose proof shrink_length as L. rewrite E in L. simpl in L.
  pose proof count_pos. lia.
Qed.

End Shrink.

Lemma AllocationEngine_shrunk (args : Args) (l : list string) :
  shrink_to_min_alloc args l <> [] ->
  AllocationEngine args l = clamped_equal_weights args (shrink_to_min_alloc args l).
Proof.
  intro NE. unfold AllocationEngine.
  destruct (shrink_to_min_alloc args l); [congruence|reflexivity].
Qed.

(** C4, amended.  For a list of N distinct tickers and bounds with
    0 <= min <= max <= 1 and min * N > 1, the AllocationEngine keeps exactly
    the first floor(1 / min) tickers of the selection, at least one; the
    weights over them sum to 1, and every weight is 1 / floor(1 / min) and at
    least min.  Every weight lies in [min, max] exactly when
    max * floor(1 / min) >= 1. *)
Theorem shrink_keeps_prefix_and_renormalises (args : Args) (selected_tickers : list string) :
  NoDup selected_tickers ->
  Spec.bounds_in_range args ->
  1 < min_alloc_asset args * Py.len selected_tickers ->
  let count := Z.to_nat (Qfloor (1 / min_alloc_asset args)) in
  let target_weights := AllocationEngine args selected_tickers in
  shrink_to_min_alloc args selected_tickers = firstn count selected_tickers
  /\ List.length (shrink_to_min_alloc args selected_tickers) = count
  /\ (1 <= count)%nat
  /\ Py.keys target_weights = firstn count selected_tickers
  /\ Py.sum (Py.values target_weights) == 1
  /\ Forall (fun w => w == 1 / inject_Z (Z.of_nat count) /\ min_alloc_asset args <= w)
            (Py.values target_weights)
  /\ (1 <= max_alloc_asset args * inject_Z (Z.of_nat count)
      <-> Spec.within_bounds args target_weights).
Proof.
  intros ND (Hlo & Hmid & Hhi) Hinf. cbv zeta.
  assert (Hle : min_alloc_asset args <= 1) by lra.
  pose proof (min_alloc_pos args selected_tickers Hlo Hinf) as Hpos.
  pose proof (count_pos args selected_tickers Hlo Hle Hinf) as Hc.
  pose proof (count_feasible args selected_tickers Hlo Hinf) as Hf.
  pose proof (shrink_is_prefix args selected_tickers Hlo Hle Hinf) as Hp.
  pose proof (shrink_length args selected_tickers Hlo Hle Hinf) as Hl.
  pose proof (shrink_len args selected_tickers Hlo Hle Hinf) as Hn.
  pose proof (shrink_nonempty args selected_tickers Hlo Hle Hinf) as Hne.
  rewrite AllocationEngine_shrunk by assumption.
  assert (NDs : NoDup (shrink_to_min_alloc args selected_tickers))
    by (rewrite Hp; now apply NoDup_prefix).
  destruct (weights_renormalised args _ NDs Hne) as (K & S & F); [lra|].
  rewrite Hn in F. rewrite Z2Nat.id by lia.
  destruct (Forall_equal_weight_bounds
              (Py.values (clamped_equal_weights args (shrink_to_min_alloc args selected_tickers)))
              (inject_Z (Qfloor (1 / min_alloc_asset args)))
              (min_alloc_asset args) (max_alloc_asset args))
    as (L & B); auto using values_nonempty.
  { change 1 with (inject_Z 1). rewrite <- Zle_Qle. exact Hc. }
  repeat split; try assumption; try lia.
  - now rewrite K.
  - apply Forall_forall. intros w I. split.
    + exact (proj1 (Forall_forall _ _) F w I).
    + exact (proj1 (Forall_forall _ _) L w I).
  - apply B.
  - apply B.
Qed.

(** C4, an instance: four tickers under the bounds [0.3, 0.4] shrink to
    three, each of weight 1/3. *)
Lemma shrink_keeps_prefix_and_renormalises_witness :
  let args := Samples.args_with_bounds (3 # 10) (4 # 10) in
  let selected_tickers := ["A"; "B"; "C"; "D"]%string in
  1 < min_alloc_asset args * Py.len selected_tickers
  /\ shrink_to_min_alloc args selected_tickers = ["A"; "B"; "C"]%string
  /\ Py.sum (Py.values (AllocationEngine args selected_tickers)) == 1
  /\ Spec.within_bounds args (AllocationEngine args selected_tickers).
Proof.
  cbv zeta.
  assert (ND : NoDup ["A"; "B"; "C"; "D"]%string)
    by distinct_tickers.
  assert (B : Spec.bounds_in_range (Samples.args_with_bounds (3 # 10) (4 # 10)))
    by config_in_range.
  assert (I : 1 < min_alloc_asset (Samples.args_with_bounds (3 # 10) (4 # 10))
                  * Py.len ["A"; "B"; "C"; "D"]%string) by reflexivity.
  destruct (shrink_keeps_prefix_and_renormalises _ _ ND B I)
    as (P & _ & _ & _ & S & _ & W).
  split; [exact I|]. split; [exact P|]. split; [exact S|].
  apply W. discriminate.
Defined.

(** C4 as stated fails for four tickers under the bounds [0.3, 0.3]: the
    three tickers kept get 1/3 each, above the maximum. *)
Lemma shrink_property_fails_at_equal_bounds :
  let args := Samples.args_with_bounds (3 # 10) (3 # 10) in
  let selected_tickers := ["A"; "B"; "C"; "D"]%string in
  AllocationEngine args selected_tickers
  = [("A", 3000 # 9000); ("B", 3000 # 9000); ("C", 3000 # 9000)]%string
  /\ ~ (3000 # 9000) <= max_alloc_asset args
  /\ ~ Spec.shrink_property_as_stated.
Proof.
  cbv zeta. split; [reflexivity|]. split; [intro H; vm_compute in H; congruence|].
  intro P.
  destruct (P (Samples.args_with_bounds (3 # 10) (3 # 10)) ["A"; "B"; "C"; "D"]%string)
    as (_ & _ & _ & B).
  - distinct_tickers.
  - config_in_range.
  - reflexivity.
  - inversion B as [|? ? [_ U] _]. vm_compute in U. congruence.
Qed.

Lemma parse_arguments_bounds (args : Args) :
  parse_arguments_accepts args = true ->
  0 <= min_alloc_asset args /\ min_alloc_asset args <= 1
  /\ 0 <= max_alloc_asset args /\ max_alloc_asset args <= 1
  /\ min_alloc_asset args <= max_alloc_asset args.
Proof.
  unfold parse_arguments_accepts. rewrite !andb_true_iff, negb_true_iff.
  rewrite !Qle_bool_iff, Qltb_false. tauto.
Qed.

(** C10.  With arguments that [parse_arguments] accepts (so
    0 <= min_alloc <= 1) and a non-empty selection: when the shrink branch
    runs ([min_alloc * N > 1]) the new count [int(1.0 / min_alloc)] is at
    least 1; the list after the feasibility check is never empty; and
    [rebalance] therefore always goes on to the TradeExecutor, never through
    the branch that empties the holdings for want of assets. *)
Theorem shrink_leaves_an_asset (args : Args) (selected_tickers : list string) :
  parse_arguments_accepts args = true ->
  selected_tickers <> [] ->
  (Py.Qltb 1 (min_alloc_asset args * Py.len selected_tickers) = true ->
   (1 <= Py.int (1 / min_alloc_asset args))%Z)
  /\ shrink_to_min_alloc args selected_tickers <> []
  /\ forall (env : Environment) (current_rebalance_date : date) (st : State),
       rebalance args current_rebalance_date selected_tickers st
       = TradeExecutor args (shrink_to_min_alloc args selected_tickers)
           (clamped_equal_weights args (shrink_to_min_alloc args selected_tickers))
           (obter_dados_historicos_yf (shrink_to_min_alloc args selected_tickers)
              current_rebalance_date (current_rebalance_date + 3)%Z)
           st.
Proof.
  intros V NE. apply parse_arguments_bounds in V. destruct V as (Hlo & Hle & _).
  assert (S : shrink_to_min_alloc args selected_tickers <> []).
  { destruct (Py.Qltb 1 (min_alloc_asset args * Py.len selected_tickers)) eqn:E.
    - apply Qltb_true in E. now apply shrink_nonempty.
    - unfold shrink_to_min_alloc. now rewrite E. }
  split; [|split; [exact S|]].
  - intro E. apply Qltb_true in E.
    rewrite (count_floor args selected_tickers Hlo E).
    now apply (count_pos args selected_tickers).
  - intros env d st. unfold rebalance.
    destruct selected_tickers as [|t ts]; [congruence|]. simpl Nat.ltb.
    cbv iota.
    destruct (shrink_to_min_alloc args (t :: ts)); [congruence|reflexivity].
Qed.

(** C10, an instance: four tickers with a minimum allocation of 0.3. *)
Lemma shrink_leaves_an_asset_witness :
  parse_arguments_accepts (Samples.args_with_bounds (3 # 10) (4 # 10)) = true
  /\ Py.Qltb 1 ((3 # 10) * Py.len ["A"; "B"; "C"; "D"]%string) = true
  /\ (1 <= Py.int (1 / (3 # 10)))%Z
  /\ shrink_to_min_alloc (Samples.args_with_bounds (3 # 10) (4 # 10))
       ["A"; "B"; "C"; "D"]%string <> [].
Proof.
  split; [reflexivity|]. split; [reflexivity|].
  destruct (shrink_leaves_an_asset (Samples.args_with_bounds (3 # 10) (4 # 10))
              ["A"; "B"; "C"; "D"]%string) as (I & S & _).
  - reflexivity.
  - discriminate.
  - split; [apply I; reflexivity|exact S].
Defined.

Local Open Scope Z_scope.

(** ** Date ranges *)

Lemma in_days_from (start : date) (len : nat) (d : date) :
  In d (Calendar.days_from start len) <-> start <= d < start + Z.of_nat len.
Proof.
  revert start. induction len as [|len IH]; intro start; simpl Calendar.days_from.
  - simpl. lia.
  - simpl In. rewrite IH. lia.
Qed.

Lemma days_from_increasing (start : date) (len : nat) :
  StronglySorted Z.lt (Calendar.days_from start len).
Proof.
  revert start. induction len as [|len IH]; intro start; simpl; constructor.
  - apply IH.
  - apply Forall_forall. intros d I. apply in_days_from in I. lia.
Qed.

Lemma days_from_app (start : date) (n m : nat) :
  Calendar.days_from start (n + m)
  = Calendar.days_from start n ++ Calendar.days_from (start + Z.of_nat n) m.
Proof.
  revert start. induction n as [|n IH]; intro start.
  - simpl. f_equal. lia.
  - simpl Calendar.days_from. simpl app. f_equal. rewrite IH. do 2 f_equal. lia.
Qed.

Lemma filter_increasing {A} (R : A -> A -> Prop) (f : A -> bool) (l : list A) :
  StronglySorted R l -> StronglySorted R (filter f l).
Proof.
  induction 1 as [|x l S IH F]; simpl; [constructor|].
  destruct (f x); [|exact IH]. constructor; [exact IH|].
  apply Forall_forall. intros y I. apply filter_In in I.
  exact (proj1 (Forall_forall _ _) F y (proj1 I)).
Qed.

Lemma filter_all {A} (f : A -> bool) (l : list A) :
  (forall x, In x l -> f x = true) -> filter f l = l.
Proof.
  induction l as [|x l IH]; simpl; intro H; [reflexivity|].
  rewrite (H x) by now left. f_equal. apply IH. intros y I. apply H. now right.
Qed.

Lemma in_date_range (start stop : date) (freq : Pd.Offset) (d : date) :
  In d (Pd.date_range start stop freq)
  <-> start <= d <= stop /\ Pd.is_on_offset freq d = true.
Proof.
  unfold Pd.date_range, Calendar.days_between.
  rewrite filter_In, in_days_from.
  assert (R : start <= d < start + Z.of_nat (Z.to_nat (stop - start + 1))
              <-> start <= d <= stop) by lia.
  tauto.
Qed.

Lemma date_range_increasing (start stop : date) (freq : Pd.Offset) :
  StronglySorted Z.lt (Pd.date_range start stop freq).
Proof. apply filter_increasing, days_from_increasing. Qed.

Lemma date_range_split (a b c : date) (freq : Pd.Offset) :
  a <= b -> b <= c + 1 ->
  Pd.date_range a (b - 1) freq ++ Pd.date_range b c freq = Pd.date_range a c freq.
Proof.
  intros Hab Hbc. unfold Pd.date_range, Calendar.days_between.
  rewrite <- filter_app. f_equal.
  replace (Z.to_nat (c - a + 1)) with (Z.to_nat (b - 1 - a + 1) + Z.to_nat (c - b + 1))%nat by lia.
  rewrite days_from_app. do 2 f_equal. lia.
Qed.

Lemma date_range_empty (start stop : date) (freq : Pd.Offset) :
  Pd.date_range start stop freq = []
  <-> forall d, start <= d <= stop -> Pd.is_on_offset freq d = false.
Proof.
  split.
  - intros E d R. destruct (Pd.is_on_offset freq d) eqn:O; [|reflexivity].
    assert (I : In d (Pd.date_range start stop freq)) by now apply in_date_range.
    rewrite E in I. destruct I.
  - intro H. destruct (Pd.date_range start stop freq) as [|d l] eqn:E; [reflexivity|].
    assert (I : In d (Pd.date_range start stop freq)) by (rewrite E; now left).
    apply in_date_range in I. destruct I as [R O]. rewrite (H d R) in O. discriminate.
Qed.

(** ** [get_rebalance_dates] *)

Lemma get_rebalance_dates_offset (start_date end_date : date) (frequency : string) :
  get_rebalance_dates start_date end_date frequency
  = option_map (Pd.date_range start_date end_date) (offset_of_frequency frequency).
Proof.
  assert (K : forall freq,
             filter (fun d => d <=? end_date)
               (filter (fun d => start_date <=? d) (Pd.date_range start_date end_date freq))
             = Pd.date_range start_date end_date freq).
  { intro freq. rewrite (filter_all (fun d => start_date <=? d)).
    - apply filter_all. intros d I. apply in_date_range in I. lia.
    - intros d I. apply in_date_range in I. lia. }
  unfold get_rebalance_dates, offset_of_frequency.
  destruct (String.eqb frequency "monthly"); [simpl; now rewrite K|].
  destruct (String.eqb frequency "quarterly"); [simpl; now rewrite K|].
  destruct (String.eqb frequency "annually"); [simpl; now rewrite K|].
  reflexivity.
Qed.

Lemma offset_of_accepted_frequency (frequency : string) :
  In frequency ["monthly"; "quarterly"; "annually"]%string ->
  exists period_start, offset_of_frequency frequency = Some period_start.
Proof.
  simpl. intros [<-|[<-|[<-|[]]]]; eexists; reflexivity.
Qed.

(** C8.  For every start date, end date and frequency among monthly,
    quarterly and annually, [get_rebalance_dates] returns a list of dates
    that all lie in [[start, end]] and increase strictly; a date is in the
    list exactly when it lies in the range and is a period start (the first
    business day of a month, quarter or year), so the list is empty exactly
    when no period start falls in the range. *)
Theorem rebalance_dates_in_range_increasing
    (start_date end_date : date) (frequency : string) :
  In frequency ["monthly"; "quarterly"; "annually"]%string ->
  exists (rebalance_dates : list date) (period_start : Pd.Offset),
    get_rebalance_dates start_date end_date frequency = Some rebalance_dates
    /\ offset_of_frequency frequency = Some period_start
    /\ Forall (fun d => start_date <= d <= end_date) rebalance_dates
    /\ StronglySorted Z.lt rebalance_dates
    /\ (forall d, In d rebalance_dates
                  <-> start_date <= d <= end_date
                      /\ Pd.is_on_offset period_start d = true)
    /\ (rebalance_dates = []
        <-> forall d, start_date <= d <= end_date ->
                      Pd.is_on_offset period_start d = false).
Proof.
  intro A. destruct (offset_of_accepted_frequency frequency A) as [period_start O].
  exists (Pd.date_range start_date end_date period_start), period_start.
  rewrite get_rebalance_dates_offset, O. simpl.
  repeat split.
  - apply Forall_forall. intros d I. apply in_date_range in I. tauto.
  - apply date_range_increasing.
  - apply in_date_range in H. tauto.
  - apply in_date_range in H. tauto.
  - apply in_date_range in H. tauto.
  - intros [R P]. now apply in_date_range.
  - apply date_range_empty.
  - apply date_range_empty.
Qed.

(** C8, an instance: monthly over the first quarter of 2020. *)
Lemma rebalance_dates_in_range_increasing_witness :
  exists (rebalance_dates : list date) (period_start : Pd.Offset),
    get_rebalance_dates (Calendar.ymd2ord 2020 1 1) (Calendar.ymd2ord 2020 3 31) "monthly"
    = Some rebalance_dates
    /\ offset_of_frequency "monthly" = Some period_start
    /\ Forall (fun d => Calendar.ymd2ord 2020 1 1 <= d <= Calendar.ymd2ord 2020 3 31)
              rebalance_dates
    /\ StronglySorted Z.lt rebalance_dates
    /\ (forall d, In d rebalance_dates
                  <-> Calendar.ymd2ord 2020 1 1 <= d <= Calendar.ymd2ord 2020 3 31
                      /\ Pd.is_on_offset period_start d = true)
    /\ (rebalance_dates = []
        <-> forall d, Calendar.ymd2ord 2020 1 1 <= d <= Calendar.ymd2ord 2020 3 31 ->
                      Pd.is_on_offset period_start d = false).
Proof.
  apply (rebalance_dates_in_range_increasing
           (Calendar.ymd2ord 2020 1 1) (Calendar.ymd2ord 2020 3 31) "monthly").
  simpl. now left.
Defined.

Example rebalance_dates_first_quarter_2020 :
  get_rebalance_dates (Calendar.ymd2ord 2020 1 1) (Calendar.ymd2ord 2020 3 31) "monthly"
  = Some [Calendar.ymd2ord 2020 1 1; Calendar.ymd2ord 2020 2 3; Calendar.ymd2ord 2020 3 2].
Proof. reflexivity. Qed.

Example rebalance_dates_single_day_off_period :
  get_rebalance_dates (Calendar.ymd2ord 2020 1 15) (Calendar.ymd2ord 2020 1 15) "monthly"
  = Some [].
Proof. reflexivity. Qed.

Example rebalance_dates_single_day_on_period :
  get_rebalance_dates (Calendar.ymd2ord 2020 1 1) (Calendar.ymd2ord 2020 1 1) "monthly"
  = Some [Calendar.ymd2ord 2020 1 1].
Proof. reflexivity. Qed.

Example rebalance_dates_unknown_frequency :
  get_rebalance_dates (Calendar.ymd2ord 2020 1 1) (Calendar.ymd2ord 2020 3 31) "weekly" = None.
Proof. reflexivity. Qed.

(** ** The history of a run *)

Lemma last_item_in {A} (l : list A) (x : A) : Py.last_item l = Some x -> In x l.
Proof.
  unfold Py.last_item. intro H. apply in_rev.
  destruct (rev l); inversion H. now left.
Qed.

Lemma dates_of_append (st : State) (s : Snapshot) :
  dates_of (append_snapshot st s) = dates_of st ++ [snap_date s].
Proof. unfold dates_of. simpl. now rewrite map_app. Qed.

Section History.

Context {env : Environment}.
Variable args : Args.

Lemma simulate_day_records (daily_prices_df : Pd.DataFrame) :
  records_its_day (simulate_day daily_prices_df).
Proof.
  intros st d B. unfold simulate_day.
  destruct (negb (Pd.in_index daily_prices_df d)).
  - destruct (Py.last_item (portfolio_history st)) as [s|] eqn:L.
    + apply last_item_in in L.
      assert (snap_date s < d) as ->%Z.ltb_lt
          by (apply B; unfold dates_of; now apply in_map).
      apply dates_of_append.
    + apply dates_of_append.
  - destruct (value_holdings _ _ _ _ _ _) as [[v log]|];
      rewrite dates_of_append; reflexivity.
Qed.

Lemma cash_day_records : records_its_day cash_day.
Proof. intros st d _. apply dates_of_append. Qed.

Lemma fold_records (step : State -> date -> State) (days : list date) (st : State) :
  records_its_day step ->
  StronglySorted Z.lt days ->
  (forall x d, In x (dates_of st) -> In d days -> x < d) ->
  dates_of (fold_left step days st) = dates_of st ++ days.
Proof.
  intros R S. revert st. induction S as [|d days S IH F]; intros st B; simpl.
  - now rewrite app_nil_r.
  - rewrite IH.
    + rewrite R by (intros x I; apply (B x d I); now left).
      now rewrite <- app_assoc.
    + intros x d' I I'.
      rewrite R in I by (intros y J; apply (B y d J); now left).
      apply in_app_or in I. destruct I as [I|[<-|[]]].
      * apply (B x d' I). now right.
      * exact (proj1 (Forall_forall _ _) F d' I').
Qed.

Lemma simulate_period_dates (start_sim_period end_sim_period : date) (st : State) :
  (forall x, In x (dates_of st) -> x < start_sim_period) ->
  dates_of (simulate_period start_sim_period end_sim_period st)
  = dates_of st ++ Pd.date_range start_sim_period end_sim_period Pd.B.
Proof.
  intro B.
  assert (K : forall x d, In x (dates_of st) ->
                          In d (Pd.date_range start_sim_period end_sim_period Pd.B) ->
                          x < d).
  { intros x d I J. apply in_date_range in J. specialize (B x I). lia. }
  unfold simulate_period. destruct (Py.truthy (current_holdings st)).
  - apply fold_records; auto using simulate_day_records, date_range_increasing.
  - apply fold_records; auto using cash_day_records, date_range_increasing.
Qed.

Lemma TradeExecutor_history (selected_tickers : list string)
    (target_weights : Py.dict Q) (df : Pd.DataFrame) (st : State) :
  portfolio_history (TradeExecutor args selected_tickers target_weights df st)
  = portfolio_history st.
Proof.
  unfold TradeExecutor.
  repeat match goal with
         | |- context [if ?b then _ else _] => destruct b
         end; reflexivity.
Qed.

Lemma TradeExecutor_value (selected_tickers : list string)
    (target_weights : Py.dict Q) (df : Pd.DataFrame) (st : State) :
  current_portfolio_value (TradeExecutor args selected_tickers target_weights df st)
  = current_portfolio_value st.
Proof.
  unfold TradeExecutor.
  repeat match goal with
         | |- context [if ?b then _ else _] => destruct b
         end; reflexivity.
Qed.

Lemma rebalance_history (d : date) (selected_tickers : list string) (st : State) :
  portfolio_history (rebalance args d selected_tickers st) = portfolio_history st.
Proof.
  unfold rebalance.
  destruct (0 <? List.length selected_tickers)%nat; [|reflexivity].
  destruct (negb _); [reflexivity|apply TradeExecutor_history].
Qed.

Lemma rebalance_iteration_dates (d : date) (next : option date) (st : State) :
  obter_dados_fundamentalistas_detalhados_br d (universe_tickers args) <> [] ->
  (forall x, In x (dates_of st) -> x < d) ->
  dates_of (rebalance_iteration args d next st)
  = dates_of st
    ++ Pd.date_range d
         (match next with Some n => n - 1 | None => end_date_backtest args end) Pd.B.
Proof.
  intros NE B. unfold rebalance_iteration.
  destruct (obter_dados_fundamentalistas_detalhados_br d (universe_tickers args))
    as [|r rs] eqn:E; [congruence|].
  simpl negb. cbv iota.
  rewrite simulate_period_dates.
  - f_equal. unfold dates_of.
    destruct (negb _); [reflexivity|now rewrite rebalance_history].
  - intros x I. apply B. revert I. unfold dates_of.
    destruct (negb _); [tauto|now rewrite rebalance_history].
Qed.

Lemma rebalance_iteration_outage (d : date) (next : option date) (st : State) :
  obter_dados_fundamentalistas_detalhados_br d (universe_tickers args) = [] ->
  dates_of (rebalance_iteration args d next st)
  = dates_of st ++ (if Py.truthy (current_holdings st) then [d] else []).
Proof.
  intro E. unfold rebalance_iteration. rewrite E. simpl.
  destruct (Py.truthy (current_holdings st)).
  - apply dates_of_append.
  - now rewrite app_nil_r.
Qed.

Lemma rebalance_loop_dates (rebalance_dates : list date) (st : State) :
  StronglySorted Z.lt rebalance_dates ->
  (forall d, In d rebalance_dates -> d <= end_date_backtest args) ->
  (forall d, In d rebalance_dates ->
             obter_dados_fundamentalistas_detalhados_br d (universe_tickers args) <> []) ->
  (forall x d, In x (dates_of st) -> In d rebalance_dates -> x < d) ->
  rebalance_dates <> [] ->
  dates_of (rebalance_loop args rebalance_dates st)
  = dates_of st ++ Pd.date_range (hd 0 rebalance_dates) (end_date_backtest args) Pd.B.
Proof.
  intro S. revert st. induction S as [|d rest S IH F]; intros st E P B NE;
    [exfalso; now apply NE|].
  simpl rebalance_loop. simpl hd.
  assert (D : dates_of (rebalance_iteration args d (hd_error rest) st)
              = dates_of st
                ++ Pd.date_range d
                     (match hd_error rest with
                      | Some n => n - 1
                      | None => end_date_backtest args
                      end) Pd.B).
  { apply rebalance_iteration_dates.
    - apply P. now left.
    - intros x I. apply (B x d I). now left. }
  destruct rest as [|d' rest'].
  - simpl. exact D.
  - cbn [hd_error] in D.
    assert (Hd : d < d') by (inversion F; assumption).
    rewrite IH.
    + cbn [hd_error hd]. rewrite D, <- app_assoc. f_equal.
      apply date_range_split; [lia|].
      assert (d' <= end_date_backtest args) by (apply E; right; now left). lia.
    + intros x I. apply E. now right.
    + intros x I. apply P. now right.
    + intros x d'' I J. cbn [hd_error] in I. rewrite D in I. apply in_app_or in I. destruct I as [I|I].
      * apply (B x d'' I). now right.
      * apply in_date_range in I.
        assert (d' <= d'').
        { destruct J as [<-|J]; [lia|].
          inversion S as [|? ? _ F']. subst.
          pose proof (proj1 (Forall_forall _ _) F' d'' J). lia. }
        lia.
    + discriminate.
Qed.

End History.

Lemma run_backtest_finished {env : Environment} (args : Args) (history : list Snapshot) :
  run_backtest args = Finished history ->
  exists rebalance_dates,
    get_rebalance_dates (start_date_backtest args) (end_date_backtest args)
      (rebalance_frequency args) = Some rebalance_dates
    /\ rebalance_dates <> []
    /\ history = portfolio_history (rebalance_loop args rebalance_dates (initial_state args)).
Proof.
  unfold run_backtest.
  destruct (get_rebalance_dates _ _ _) as [[|d ds]|]; simpl; try discriminate.
  intros [= <-]. exists (d :: ds). repeat split. discriminate.
Qed.

Lemma not_in_dates (d : date) (l : list date) :
  forallb (fun x => negb (x =? d)) l = true -> ~ In d l.
Proof.
  intros H I. rewrite forallb_forall in H. specialize (H d I).
  rewrite Z.eqb_refl in H. discriminate.
Qed.

(** C2, amended.  For every run that reaches the rebalance loop and in which
    the fundamentals provider returns a non-empty table at every rebalance
    date, the dates of the recorded history are exactly the business days
    from the first rebalance date through the end date of the backtest, each
    once and in order, whichever branch each day takes.  (A rebalance without
    fundamentals skips the simulation of its period:
    [rebalance_iteration_outage].) *)
Theorem history_gapless_when_fundamentals_available
    (env : Environment) (args : Args) (rebalance_dates : list date)
    (history : list Snapshot) :
  get_rebalance_dates (start_date_backtest args) (end_date_backtest args)
    (rebalance_frequency args) = Some rebalance_dates ->
  run_backtest args = Finished history ->
  (forall d, In d rebalance_dates ->
             obter_dados_fundamentalistas_detalhados_br d (universe_tickers args) <> []) ->
  map snap_date history
  = Pd.date_range (hd 0 rebalance_dates) (end_date_backtest args) Pd.B.
Proof.
  intros G R P.
  destruct (run_backtest_finished args history R) as (ds & G' & NE & ->).
  rewrite G in G'. injection G' as <-.
  rewrite get_rebalance_dates_offset in G.
  destruct (offset_of_frequency (rebalance_frequency args)) as [freq|]; [|discriminate].
  injection G as <-.
  change (map snap_date (portfolio_history ?s)) with (dates_of s).
  rewrite rebalance_loop_dates; auto using date_range_increasing.
  - intros d I. apply in_date_range in I. lia.
  - intros x d [].
Qed.

(** C2, an instance: the first quarter of 2020 with fundamentals at every
    rebalance, 65 business days. *)
Lemma history_gapless_when_fundamentals_available_witness :
  exists history,
    @run_backtest Samples.env_stable Samples.args_defaults = Finished history
    /\ List.length history = 65%nat
    /\ map snap_date history
       = Pd.date_range (Calendar.ymd2ord 2020 1 1) (Calendar.ymd2ord 2020 3 31) Pd.B.
Proof.
  eexists. split; [vm_compute; reflexivity|]. split; [reflexivity|].
  apply (history_gapless_when_fundamentals_available Samples.env_stable
           Samples.args_defaults
           [Calendar.ymd2ord 2020 1 1; Calendar.ymd2ord 2020 2 3; Calendar.ymd2ord 2020 3 2]).
  - reflexivity.
  - vm_compute; reflexivity.
  - intros d _. discriminate.
Defined.

(** C2 as stated fails when the fundamentals are missing at the rebalance of
    3 February 2020: the run records that day and then nothing until the
    rebalance of March, so Tuesday 4 February has no snapshot. *)
Lemma history_gap_after_fundamentals_outage :
  exists history,
    @run_backtest Samples.env_february_outage Samples.args_defaults = Finished history
    /\ get_rebalance_dates (start_date_backtest Samples.args_defaults)
         (end_date_backtest Samples.args_defaults)
         (rebalance_frequency Samples.args_defaults)
       = Some [Calendar.ymd2ord 2020 1 1; Calendar.ymd2ord 2020 2 3; Calendar.ymd2ord 2020 3 2]
    /\ In (Calendar.ymd2ord 2020 2 4)
          (Pd.date_range (Calendar.ymd2ord 2020 1 1)
             (end_date_backtest Samples.args_defaults) Pd.B)
    /\ ~ In (Calendar.ymd2ord 2020 2 4) (map snap_date history)
    /\ ~ Spec.gapless_history_as_stated.
Proof.
  eexists. split; [vm_compute; reflexivity|]. split; [reflexivity|].
  assert (I : In (Calendar.ymd2ord 2020 2 4)
                 (Pd.date_range (Calendar.ymd2ord 2020 1 1)
                    (end_date_backtest Samples.args_defaults) Pd.B)).
  { apply in_date_range. split; [vm_compute; split; discriminate|reflexivity]. }
  match goal with
  | |- _ /\ ~ In _ ?l /\ _ => assert (N : ~ In (Calendar.ymd2ord 2020 2 4) l)
  end.
  { apply not_in_dates. vm_compute. reflexivity. }
  split; [exact I|]. split; [exact N|].
  intro G. apply N.
  eapply (G Samples.env_february_outage Samples.args_defaults).
  - reflexivity.
  - vm_compute; reflexivity.
  - exact I.
Qed.

Local Open Scope Q_scope.

(** ** TradeExecutor *)

(** ** Price tables without a price *)

Lemma fill_from_null (prev cells : list (option Q)) :
  forallb Pd.isnull prev = true -> forallb Pd.isnull cells = true ->
  forallb Pd.isnull (Pd.fill_from prev cells) = true.
Proof.
  revert prev. induction cells as [|c cs IH]; intros prev Hp Hc; [reflexivity|].
  simpl in Hc. apply andb_true_iff in Hc. destruct Hc as [Hc Hcs].
  destruct c; [discriminate|]. simpl.
  destruct prev as [|p ps]; simpl in *.
  - now apply IH.
  - apply andb_true_iff in Hp. destruct Hp as [Hp Hps]. rewrite Hp. now apply IH.
Qed.

Lemma ffill_rows_null (prev : list (option Q)) (rs : list (Z * list (option Q))) :
  forallb Pd.isnull prev = true -> Pd.all_null rs = true ->
  Pd.all_null (Pd.ffill_rows prev rs) = true.
Proof.
  unfold Pd.all_null. revert prev. induction rs as [|[d cells] rs IH]; intros prev Hp H;
    [reflexivity|].
  simpl in H. apply andb_true_iff in H. destruct H as [Hc Hrs]. simpl.
  rewrite fill_from_null by assumption. simpl. apply IH; [|assumption].
  now apply fill_from_null.
Qed.

Lemma all_null_rev (rs : list (Z * list (option Q))) :
  Pd.all_null (rev rs) = Pd.all_null rs.
Proof.
  unfold Pd.all_null. apply eq_true_iff_eq. rewrite !forallb_forall.
  split; intros H r I; apply H.
  - now apply -> in_rev.
  - now apply in_rev.
Qed.

Lemma getitem_combine_null (labels : list string) (cells : list (option Q)) (t : string) :
  forallb Pd.isnull cells = true -> Pd.at_label (combine labels cells) t = None.
Proof.
  unfold Pd.at_label. revert cells. induction labels as [|k ks IH]; intros cells H;
    [reflexivity|].
  destruct cells as [|c cs]; [reflexivity|].
  simpl in H. apply andb_true_iff in H. destruct H as [Hc Hcs].
  destruct c; [discriminate|]. simpl.
  destruct (String.eqb k t); [reflexivity|now apply IH].
Qed.

(** A table that gives a price after the two fills is usable. *)
Lemma priced_table_usable (df : Pd.DataFrame) (t : string) (p : Q) :
  Pd.at_label (Pd.iloc0 (Pd.bfill (Pd.ffill df))) t = Some p ->
  Pd.empty df || Pd.isnull_all_all df = false.
Proof.
  intro H. destruct (Pd.empty df || Pd.isnull_all_all df) eqn:U; [|reflexivity].
  exfalso. apply orb_true_iff in U.
  assert (N : Pd.all_null (Pd.rows (Pd.bfill (Pd.ffill df))) = true
              \/ Pd.columns df = []).
  { destruct U as [E|A].
    - unfold Pd.empty in E. apply orb_true_iff in E.
      destruct E as [E|E]; apply negb_true_iff in E.
      + right. destruct (Pd.columns df); [reflexivity|discriminate].
      + left. destruct (Pd.rows df) eqn:R; [|discriminate].
        unfold Pd.bfill, Pd.ffill. simpl. rewrite R. reflexivity.
    - left. unfold Pd.bfill, Pd.ffill. simpl. rewrite all_null_rev.
      apply ffill_rows_null; [reflexivity|]. rewrite all_null_rev.
      apply ffill_rows_null; [reflexivity|exact A]. }
  unfold Pd.iloc0 in H.
  destruct (Pd.rows (Pd.bfill (Pd.ffill df))) as [|[d cells] rs] eqn:R;
    [discriminate|].
  destruct N as [N|N].
  - unfold Pd.all_null in N. simpl in N. apply andb_true_iff in N.
    rewrite getitem_combine_null in H by tauto. discriminate.
  - simpl in H. rewrite N in H. discriminate.
Qed.

Lemma fold_left_ext_in {A B} (f g : A -> B -> A) (l : list B) (a : A) :
  (forall x acc, In x l -> f acc x = g acc x) ->
  fold_left f l a = fold_left g l a.
Proof.
  revert a. induction l as [|x l IH]; simpl; intros a H; [reflexivity|].
  rewrite H by now left. apply IH. intros y acc I. apply H. now right.
Qed.

Lemma setitem_nonempty {V} (d : Py.dict V) k v : Py.setitem d k v <> [].
Proof.
  destruct d as [|[k' v'] d]; simpl; [discriminate|].
  destruct (String.eqb k' k); discriminate.
Qed.

Lemma comprehension_nonempty {A V} (f : A -> string * V) (l : list A) :
  l <> [] -> Py.comprehension f l <> [].
Proof.
  unfold Py.comprehension. destruct l as [|a l]; [congruence|]. intros _. simpl.
  assert (K : forall (acc : Py.dict V), acc <> [] ->
              fold_left (fun d a0 => Py.setitem d (fst (f a0)) (snd (f a0))) l acc <> []).
  { induction l as [|b l IH]; simpl; intros acc H; [exact H|].
    apply IH, setitem_nonempty. }
  apply K. discriminate.
Qed.

Lemma truthy_true {A} (l : list A) : Py.truthy l = true <-> l <> [].
Proof. destruct l; simpl; split; congruence. Qed.

Lemma clamped_equal_weights_truthy (args : Args) (l : list string) :
  l <> [] -> Py.truthy (clamped_equal_weights args l) = true.
Proof.
  intro NE. apply truthy_true. unfold clamped_equal_weights.
  now apply comprehension_nonempty, comprehension_nonempty.
Qed.

Lemma execute_trades_priced (V : Q) (target_weights : Py.dict Q) (prices : Pd.Series) :
  NoDup (Py.keys target_weights) ->
  (forall t, In t (Py.keys target_weights) -> Pd.at_label prices t <> None) ->
  execute_trades V target_weights prices = map (bought V prices) target_weights.
Proof.
  intros ND P. unfold execute_trades.
  rewrite (fold_left_ext_in _
             (fun d tw => Py.setitem d (fst (bought V prices tw)) (snd (bought V prices tw)))).
  - apply (comprehension_distinct (bought V prices)). exact ND.
  - intros [t w] acc I. unfold bought. simpl.
    destruct (Pd.at_label prices t) eqn:E; [reflexivity|].
    exfalso. apply (P t); [|exact E].
    unfold Py.keys. change t with (fst (t, w)). now apply in_map.
Qed.

Lemma invested_bought (V : Q) (prices : Pd.Series) (target_weights : Py.dict Q) :
  (forall t, In t (Py.keys target_weights) ->
             exists p, Pd.at_label prices t = Some p /\ ~ p == 0) ->
  Spec.invested (map (bought V prices) target_weights)
  == V * Py.sum (Py.values target_weights).
Proof.
  unfold Spec.invested, Py.values, Py.keys.
  induction target_weights as [|[t w] l IH]; intro P.
  - unfold Py.sum. simpl. ring.
  - simpl map. rewrite !sum_cons. simpl map in IH. rewrite IH.
    + destruct (P t) as (p & E & NZ); [now left|].
      unfold bought. simpl. rewrite E. field. exact NZ.
    + intros t' I. apply P. now right.
Qed.

Lemma missing_prices_none (l : list string) (prices : Pd.Series) :
  (forall t, In t l -> Pd.at_label prices t <> None) ->
  missing_prices l prices = [].
Proof.
  intro P. unfold missing_prices.
  induction l as [|t l IH]; simpl; [reflexivity|].
  destruct (Pd.at_label prices t) eqn:E.
  - simpl. apply IH. intros t' I. apply P. now right.
  - exfalso. apply (P t); [now left|exact E].
Qed.

Lemma keys_bought (V : Q) (prices : Pd.Series) (target_weights : Py.dict Q) :
  Py.keys (map (bought V prices) target_weights) = Py.keys target_weights.
Proof. unfold Py.keys. rewrite map_map. reflexivity. Qed.

(** C5.  Round trip of the TradeExecutor: given a total value V, target
    weights (a dictionary, so with distinct keys) that sum to 1, and a price
    table that gives a non-zero price for every weighted ticker, the new
    holdings have one entry per weighted ticker with
    shares = V * weight / price, the sum of shares times entry price equals
    V, and the total value of the portfolio is unchanged. *)
Theorem rebalance_preserves_value (args : Args) (target_weights : Py.dict Q)
    (prices_on_rebalance_date_df : Pd.DataFrame) (st : State) :
  NoDup (Py.keys target_weights) ->
  Py.sum (Py.values target_weights) == 1 ->
  (forall t, In t (Py.keys target_weights) ->
     exists price,
       Pd.at_label (Pd.iloc0 (Pd.bfill (Pd.ffill prices_on_rebalance_date_df))) t
       = Some price /\ ~ price == 0) ->
  let st' := TradeExecutor args (Py.keys target_weights) target_weights
               prices_on_rebalance_date_df st in
  Py.keys (current_holdings st') = Py.keys target_weights
  /\ Forall (fun h => exists shares price weight,
                 snd h = Bought shares price weight
                 /\ Py.getitem target_weights (fst h) = Some weight
                 /\ shares == current_portfolio_value st * weight / price)
            (current_holdings st')
  /\ Spec.invested (current_holdings st') == current_portfolio_value st
  /\ current_portfolio_value st' = current_portfolio_value st.
Proof.
  intros ND S P. cbv zeta.
  assert (P' : forall t, In t (Py.keys target_weights) ->
                 Pd.at_label (Pd.iloc0 (Pd.bfill (Pd.ffill prices_on_rebalance_date_df))) t
                 <> None).
  { intros t I. destruct (P t I) as (p & -> & _). discriminate. }
  assert (T : Py.truthy target_weights = true).
  { destruct target_weights; [|reflexivity]. unfold Py.sum in S. simpl in S.
    discriminate S. }
  assert (U : Pd.empty prices_on_rebalance_date_df
              || Pd.isnull_all_all prices_on_rebalance_date_df = false).
  { destruct target_weights as [|[t w] l]; [discriminate|].
    destruct (P t) as (p & E & _); [now left|].
    exact (priced_table_usable _ _ _ E). }
  split; [|split; [|split; [|apply TradeExecutor_value]]];
    unfold TradeExecutor; rewrite T, U, (missing_prices_none _ _ P'); simpl Py.truthy;
    cbv iota; rewrite T; simpl current_holdings;
    rewrite execute_trades_priced by assumption.
  - apply keys_bought.
  - apply Forall_forall. intros [t h] I. apply in_map_iff in I.
    destruct I as ([t' w] & E & I). unfold bought in E. simpl in E.
    destruct (P t') as (p & Ep & _).
    { unfold Py.keys. change t' with (fst (t', w)). now apply in_map. }
    rewrite Ep in E. injection E as <- <-.
    exists (current_portfolio_value st * w / p), p, w. simpl.
    split; [reflexivity|]. split; [|reflexivity].
    clear - ND I. induction target_weights as [|[k v] l IH]; [destruct I|].
    simpl. destruct I as [[= -> ->]|I].
    + now rewrite String.eqb_refl.
    + destruct (String.eqb_spec k t') as [->|_].
      * exfalso. inversion ND as [|? ? N _]. apply N.
        change t' with (fst (t', w)). now apply in_map.
      * apply IH; [|exact I]. now inversion ND.
  - rewrite invested_bought by assumption. rewrite S. ring.
Qed.

(** C5, an instance: 100000 split evenly over two tickers priced 10. *)
Lemma rebalance_preserves_value_witness :
  let target_weights := [("A", 1 # 2); ("B", 1 # 2)]%string in
  let df := Samples.flat_prices 10 ["A"; "B"]%string
              (Calendar.ymd2ord 2020 1 1) (Calendar.ymd2ord 2020 1 4) in
  let st' := TradeExecutor Samples.args_defaults ["A"; "B"]%string target_weights df
               (initial_state Samples.args_defaults) in
  Py.sum (Py.values target_weights) == 1
  /\ current_holdings st'
     = [("A", Bought (100000 * (1 # 2) / 10) 10 (1 # 2));
        ("B", Bought (100000 * (1 # 2) / 10) 10 (1 # 2))]%string
  /\ Spec.invested (current_holdings st') == 100000
  /\ current_portfolio_value st' = 100000.
Proof.
  cbv zeta. split; [reflexivity|]. split; [reflexivity|].
  apply (rebalance_preserves_value Samples.args_defaults
           [("A", 1 # 2); ("B", 1 # 2)]%string
           (Samples.flat_prices 10 ["A"; "B"]%string
              (Calendar.ymd2ord 2020 1 1) (Calendar.ymd2ord 2020 1 4))
           (initial_state Samples.args_defaults)).
  - distinct_tickers.
  - reflexivity.
  - intros t [<-|[<-|[]]]; exists 10; (split; [reflexivity|discriminate]).
Defined.

(** The tickers left once those without a price are taken out. *)
Lemma filter_not_in_missing (l : list string) (prices : Pd.Series) :
  filter (fun t => negb (Py.contains (missing_prices l prices) t)) l
  = filter (fun t => negb (Pd.isnull (Pd.at_label prices t))) l.
Proof.
  apply filter_ext_in. intros t I. f_equal. unfold Py.contains, missing_prices.
  destruct (Pd.isnull (Pd.at_label prices t)) eqn:E.
  - apply existsb_exists. exists t. split; [|apply String.eqb_refl].
    apply filter_In. now split.
  - destruct (existsb _ _) eqn:X; [|reflexivity].
    apply existsb_exists in X. destruct X as (t' & I' & Q).
    apply String.eqb_eq in Q. subst t'. apply filter_In in I'.
    destruct I' as [_ I']. congruence.
Qed.

Lemma filter_priced (l : list string) (prices : Pd.Series) (t : string) :
  In t (filter (fun t => negb (Pd.isnull (Pd.at_label prices t))) l) ->
  Pd.at_label prices t <> None.
Proof.
  intro I. apply filter_In in I. destruct I as [_ I].
  destruct (Pd.at_label prices t); [discriminate|discriminate I].
Qed.

Lemma NoDup_filter_keeps {A} (f : A -> bool) (l : list A) :
  NoDup l -> NoDup (filter f l).
Proof.
  induction 1 as [|x l N ND IH]; simpl; [constructor|].
  destruct (f x); [|exact IH]. constructor; [|exact IH].
  intro I. apply N. apply filter_In in I. tauto.
Qed.

(** C6.  A rebalance whose price lookup succeeds but leaves some selected
    tickers without a price: those tickers leave the weight mapping, and the
    weights of the remaining ones are computed afresh by the same clamp of
    the equal weight and the same renormalisation (the holdings are bought
    with [clamped_equal_weights] of the remaining tickers).  For distinct
    tickers every remaining ticker gets one holding, with the weight
    [clip(1/n) / sum of the n clipped weights], which is [1/n] as soon as the
    maximum allocation is positive.  When no ticker remains the holdings are
    empty, and in every case the total value is the one before the
    rebalance. *)
Theorem unpriced_tickers_dropped_and_reweighted (args : Args)
    (selected_tickers : list string) (target_weights : Py.dict Q)
    (prices_on_rebalance_date_df : Pd.DataFrame) (st : State) :
  Py.truthy target_weights = true ->
  Pd.empty prices_on_rebalance_date_df
  || Pd.isnull_all_all prices_on_rebalance_date_df = false ->
  let prices := Pd.iloc0 (Pd.bfill (Pd.ffill prices_on_rebalance_date_df)) in
  missing_prices selected_tickers prices <> [] ->
  let remaining :=
    filter (fun t => negb (Pd.isnull (Pd.at_label prices t))) selected_tickers in
  let clipped :=
    Pd.clip (1 / Py.len remaining) (min_alloc_asset args) (max_alloc_asset args) in
  let weight := clipped / Py.sum (map (fun _ => clipped) remaining) in
  let st' := TradeExecutor args selected_tickers target_weights
               prices_on_rebalance_date_df st in
  current_holdings st'
  = (if Py.truthy remaining
     then execute_trades (current_portfolio_value st)
            (clamped_equal_weights args remaining) prices
     else [])
  /\ (NoDup selected_tickers ->
      Py.keys (current_holdings st') = remaining
      /\ Forall (fun h => exists price,
                     Pd.at_label prices (fst h) = Some price
                     /\ snd h = Bought (current_portfolio_value st * weight / price)
                                  price weight)
                (current_holdings st'))
  /\ (remaining <> [] -> 0 < max_alloc_asset args -> weight == 1 / Py.len remaining)
  /\ (remaining = [] -> current_holdings st' = [])
  /\ current_portfolio_value st' = current_portfolio_value st.
Proof.
  intros T U prices M remaining clipped weight st'.
  assert (H : current_holdings st'
              = if Py.truthy remaining
                then execute_trades (current_portfolio_value st)
                       (clamped_equal_weights args remaining) prices
                else []).
  { subst st'. unfold TradeExecutor. rewrite T, U. fold prices.
    apply truthy_true in M. rewrite M.
    rewrite filter_not_in_missing. fold remaining.
    destruct (Py.truthy remaining) eqn:R; [|reflexivity].
    rewrite clamped_equal_weights_truthy by now apply truthy_true.
    reflexivity. }
  split; [exact H|]. split; [|split; [|split]].
  - intro ND.
    assert (NDr : NoDup remaining) by now apply NoDup_filter_keeps.
    assert (W : clamped_equal_weights args remaining
                = map (fun t => (t, weight)) remaining)
      by now apply clamped_equal_weights_distinct.
    assert (K : Py.keys (map (fun t => (t, weight)) remaining) = remaining)
      by (unfold Py.keys; rewrite map_map; apply map_id).
    assert (E : current_holdings st'
                = map (bought (current_portfolio_value st) prices)
                      (map (fun t => (t, weight)) remaining)).
    { rewrite H. destruct remaining as [|r rs] eqn:R; [reflexivity|].
      simpl Py.truthy. cbv iota. rewrite W. apply execute_trades_priced.
      - now rewrite K.
      - rewrite K. intros t I. apply (filter_priced selected_tickers). fold remaining.
        now rewrite R. }
    split.
    + rewrite E, keys_bought. exact K.
    + rewrite E, map_map. apply Forall_forall. intros h I. apply in_map_iff in I.
      destruct I as (t & <- & I). unfold bought. simpl.
      destruct (Pd.at_label prices t) as [p|] eqn:P.
      * exists p. split; reflexivity.
      * exfalso. now apply (filter_priced selected_tickers prices t).
  - intros NE Hhi. subst weight. rewrite sum_constant.
    pose proof (len_pos remaining NE).
    assert (0 < clipped) by now apply clipped_pos.
    field. split; lra.
  - intro R. rewrite H, R. reflexivity.
  - apply TradeExecutor_value.
Qed.

(** C7.  A rebalance whose price lookup (made for the selection that passed
    the feasibility check) returns an empty or all-null table changes
    nothing: the holdings, the total value and the whole state are those
    before the rebalance. *)
Theorem rebalance_without_prices_changes_nothing (env : Environment) (args : Args)
    (current_rebalance_date : date) (selected_tickers : list string) (st : State) :
  shrink_to_min_alloc args selected_tickers <> [] ->
  let prices_on_rebalance_date_df :=
    obter_dados_historicos_yf (shrink_to_min_alloc args selected_tickers)
      current_rebalance_date (current_rebalance_date + 3)%Z in
  Pd.empty prices_on_rebalance_date_df
  || Pd.isnull_all_all prices_on_rebalance_date_df = true ->
  let st' := rebalance args current_rebalance_date selected_tickers st in
  current_holdings st' = current_holdings st
  /\ current_portfolio_value st' = current_portfolio_value st
  /\ st' = st.
Proof.
  intros NE df U st'.
  assert (E : st' = st).
  { subst st'. unfold rebalance.
    destruct (0 <? List.length selected_tickers)%nat; [|reflexivity].
    apply truthy_true in NE. rewrite NE. simpl negb. cbv iota.
    unfold TradeExecutor.
    rewrite clamped_equal_weights_truthy by now apply truthy_true.
    fold df. now rewrite U. }
  now rewrite E.
Qed.

(** ** AssetSelector *)

Lemma descending_cons_inv (x : ScoredRow) (l : list ScoredRow) :
  descending (x :: l) ->
  descending l /\ forall y, In y l -> Quant_Value_Score y <= Quant_Value_Score x.
Proof.
  intro D. inversion D as [|? ? S F]. subst. split; [exact S|].
  intros y I. exact (proj1 (Forall_forall _ _) F y I).
Qed.

Lemma descending_cons (x : ScoredRow) (l : list ScoredRow) :
  descending l ->
  (forall y, In y l -> Quant_Value_Score y <= Quant_Value_Score x) ->
  descending (x :: l).
Proof.
  intros D H. constructor; [exact D|]. apply Forall_forall. exact H.
Qed.

(** Insertion keeps a descending list descending, whichever side of its
    ties the new record takes. *)
Section Insertion.

Variable before : Q -> Q -> bool.
Hypothesis before_le : forall a b, before a b = true -> a <= b.
Hypothesis before_ge : forall a b, before a b = false -> b <= a.

Lemma insert_by_permutation (r : ScoredRow) (l : list ScoredRow) :
  Permutation (r :: l) (insert_by before r l).
Proof.
  induction l as [|x l IH]; simpl; [reflexivity|].
  destruct (before _ _); [|reflexivity].
  rewrite perm_swap. now constructor.
Qed.

Lemma insert_by_descending (r : ScoredRow) (l : list ScoredRow) :
  descending l -> descending (insert_by before r l).
Proof.
  induction l as [|x l IH]; simpl; intro D.
  - apply descending_cons; [constructor|]. intros y [].
  - apply descending_cons_inv in D. destruct D as [D H].
    destruct (before _ _) eqn:E.
    + apply descending_cons; [now apply IH|].
      intros y I. apply (Permutation_in _ (Permutation_sym (insert_by_permutation r l))) in I.
      destruct I as [<-|I]; [now apply before_le|now apply H].
    + apply before_ge in E. apply descending_cons.
      * now apply descending_cons.
      * intros y [<-|I]; [exact E|]. specialize (H y I). lra.
Qed.

Lemma fold_insert_by_contract (l : list ScoredRow) :
  Permutation l (fold_right (insert_by before) [] l) /\ descending (fold_right (insert_by before) [] l).
Proof.
  induction l as [|r l [P D]]; simpl.
  - split; constructor.
  - split; [|now apply insert_by_descending].
    rewrite <- insert_by_permutation. now constructor.
Qed.

End Insertion.

Lemma stable_sort_desc_contract : sort_values_contract Spec.stable_sort_desc.
Proof.
  intro l. unfold Spec.stable_sort_desc. apply fold_insert_by_contract.
  - intros a b H. apply Qltb_true in H. lra.
  - intros a b H. now apply Qltb_false in H.
Qed.

(** Without ties a descending arrangement is unique. *)
Lemma descending_unique (l1 l2 : list ScoredRow) :
  Permutation l1 l2 -> descending l1 -> descending l2 -> Spec.no_ties l1 -> l1 = l2.
Proof.
  revert l2. induction l1 as [|a l1 IH]; intros l2 P D1 D2 N.
  - apply Permutation_nil in P. now subst.
  - destruct l2 as [|b l2].
    { apply Permutation_sym, Permutation_nil in P. discriminate. }
    apply descending_cons_inv in D1, D2. destruct D1 as [D1 H1], D2 as [D2 H2].
    assert (E : a = b).
    { assert (Ia : In a (b :: l2)) by (apply (Permutation_in _ P); now left).
      assert (Ib : In b (a :: l1)) by (apply (Permutation_in _ (Permutation_sym P)); now left).
      destruct Ia as [->|Ia]; [reflexivity|].
      destruct Ib as [->|Ib]; [reflexivity|].
      apply N; [now left|now right|].
      specialize (H1 b Ib). specialize (H2 a Ia). lra. }
    subst b. f_equal. apply IH; try assumption.
    + now apply Permutation_cons_inv in P.
    + intros x y Ix Iy. apply N; now right.
Qed.

Lemma head_firstn {A} (l : list A) (n : Z) :
  (0 <= n)%Z -> Pd.head l n = firstn (Z.to_nat n) l.
Proof.
  intro H. unfold Pd.head, Py.slice_to.
  destruct (Z.leb_spec 0 n); [reflexivity|lia].
Qed.

Section Selector.

Context {env : Environment}.
Variable args : Args.
Hypothesis in_range : Spec.filters_in_range args.

Lemma filters_survivors (records : list ScoredRow) :
  (let df_elegiveis :=
     if (0 <? min_piotroski_score args)%Z
     then filter (fun r => (min_piotroski_score args <=? Piotroski_F_Score r)%Z) records
     else records in
   if Py.Qltb 0 (min_quant_value_score args)
   then filter (fun r => Qle_bool (min_quant_value_score args) (Quant_Value_Score r))
          df_elegiveis
   else df_elegiveis)
  = Spec.survivors args records.
Proof.
  destruct in_range as (Hp & Hq & _). unfold Spec.survivors. cbv zeta.
  assert (F1 : (if (0 <? min_piotroski_score args)%Z
                then filter (fun r => (min_piotroski_score args <=? Piotroski_F_Score r)%Z) records
                else records)
               = (if (min_piotroski_score args =? 0)%Z then records
                  else filter (fun r => negb (Piotroski_F_Score r <? min_piotroski_score args)%Z)
                         records)).
  { destruct (Z.ltb_spec 0 (min_piotroski_score args)),
             (Z.eqb_spec (min_piotroski_score args) 0); try lia; try reflexivity.
    apply filter_ext. intro r. now rewrite Z.leb_antisym. }
  rewrite F1.
  destruct (Py.Qltb 0 (min_quant_value_score args)) eqn:L,
           (Qeq_bool (min_quant_value_score args) 0) eqn:Z.
  - apply Qltb_true in L. apply Qeq_bool_iff in Z. lra.
  - apply filter_ext. intro r. unfold Py.Qltb. now rewrite negb_involutive.
  - reflexivity.
  - apply Qltb_false in L. apply Qeq_bool_neq in Z. exfalso. apply Z. lra.
Qed.

Lemma AssetSelector_ranked (records : list ScoredRow) :
  AssetSelector args records
  = map ticker (Spec.truncate args (sort_values_desc (Spec.survivors args records))).
Proof.
  unfold AssetSelector. cbv zeta.
  pose proof (filters_survivors records) as F. cbv zeta in F. rewrite F.
  destruct in_range as (_ & _ & Hm).
  unfold Spec.truncate. rewrite head_firstn by assumption.
  destruct (Z.ltb_spec 0 (top_n_quant_value args)); [|reflexivity].
  now rewrite head_firstn by lia.
Qed.

End Selector.

(** C3, amended.  With thresholds and cap that are not negative, and
    [sort_values] only known to rearrange the rows into descending order of
    the value score (pandas' default sort is not stable), the AssetSelector
    output is the truncation (top N when positive, then max assets) of a
    descending arrangement of the records that survive the two filters.  It
    equals the description with the stable sort whenever no two different
    surviving records have the same value score. *)
Theorem selector_ranks_filtered_records (env : Environment) (args : Args)
    (records : list ScoredRow) :
  sort_values_contract sort_values_desc ->
  Spec.filters_in_range args ->
  (exists ranked,
      Permutation (Spec.survivors args records) ranked
      /\ descending ranked
      /\ AssetSelector args records = map ticker (Spec.truncate args ranked))
  /\ (Spec.no_ties (Spec.survivors args records) ->
      AssetSelector args records = Spec.select_assets args records).
Proof.
  intros C R. destruct (C (Spec.survivors args records)) as [P D]. split.
  - exists (sort_values_desc (Spec.survivors args records)).
    split; [exact P|]. split; [exact D|]. now apply AssetSelector_ranked.
  - intro N. rewrite AssetSelector_ranked by assumption.
    unfold Spec.select_assets. do 2 f_equal.
    destruct (stable_sort_desc_contract (Spec.survivors args records)) as [P' D'].
    apply descending_unique; try assumption.
    + rewrite <- P. exact P'.
    + intros a b Ia Ib E.
      apply N; [apply (Permutation_in _ (Permutation_sym P) Ia)
               |apply (Permutation_in _ (Permutation_sym P) Ib)
               |exact E].
Qed.

(** C3, an instance: three records of distinct value scores. *)
Lemma selector_ranks_filtered_records_witness :
  Spec.no_ties (Spec.survivors Samples.args_defaults Samples.ranked_rows)
  /\ @AssetSelector Samples.env_stable Samples.args_defaults Samples.ranked_rows
     = Spec.select_assets Samples.args_defaults Samples.ranked_rows
  /\ Spec.select_assets Samples.args_defaults Samples.ranked_rows = ["B"; "A"; "C"]%string.
Proof.
  assert (N : Spec.no_ties (Spec.survivors Samples.args_defaults Samples.ranked_rows)).
  { intros a b Ia Ib. simpl in Ia, Ib.
    destruct Ia as [<-|[<-|[<-|[]]]], Ib as [<-|[<-|[<-|[]]]];
      intro E; try reflexivity; discriminate E. }
  split; [exact N|]. split; [|reflexivity].
  apply (selector_ranks_filtered_records Samples.env_stable Samples.args_defaults
           Samples.ranked_rows).
  - exact stable_sort_desc_contract.
  - config_in_range.
  - exact N.
Defined.

(** C3 as stated fails where numpy sorts with its AVX-512 kernel.  Of four
    records with the scores 0.5, 0.25, 0.75, 0.75, in provider order A, B,
    C, D, the two tied at the top come out D before C: reversed, the keys
    enter the network as D, C, B, A; its second stage exchanges D with A and
    C with B, three lanes and one lane apart, which takes D behind C in the
    ascending order that [nargsort] then reverses.  The rows are in
    descending order all the same. *)
Lemma selector_ties_not_in_provider_order :
  Spec.filters_in_range Samples.args_defaults
  /\ Permutation Samples.tied_top_rows (sort_values_avx512 Samples.tied_top_rows)
  /\ descending (sort_values_avx512 Samples.tied_top_rows)
  /\ @AssetSelector Samples.env_avx512 Samples.args_defaults Samples.tied_top_rows
     = ["D"; "C"; "A"; "B"]%string
  /\ Spec.select_assets Samples.args_defaults Samples.tied_top_rows
     = ["C"; "D"; "A"; "B"]%string
  /\ @AssetSelector Samples.env_avx512 Samples.args_defaults Samples.tied_top_rows
     <> Spec.select_assets Samples.args_defaults Samples.tied_top_rows.
Proof.
  split; [config_in_range|]. split; [|split; [|split; [|split]]].
  - change (sort_values_avx512 Samples.tied_top_rows)
      with [Samples.row "D" 5 (3 # 4); Samples.row "C" 5 (3 # 4);
            Samples.row "A" 5 (1 # 2); Samples.row "B" 5 (1 # 4)]%string.
    unfold Samples.tied_top_rows.
    apply (Permutation_cons_app [Samples.row "D" 5 (3 # 4); Samples.row "C" 5 (3 # 4)]%string
             [Samples.row "B" 5 (1 # 4)]%string).
    apply (Permutation_cons_app [Samples.row "D" 5 (3 # 4); Samples.row "C" 5 (3 # 4)]%string []).
    apply perm_swap.
  - change (sort_values_avx512 Samples.tied_top_rows)
      with [Samples.row "D" 5 (3 # 4); Samples.row "C" 5 (3 # 4);
            Samples.row "A" 5 (1 # 2); Samples.row "B" 5 (1 # 4)]%string.
    repeat (apply descending_cons; [|simpl; intros y I; intuition (subst; discriminate)]).
    constructor.
  - reflexivity.
  - reflexivity.
  - discriminate.
Qed.

(** Two records of equal score keep the provider order there too: the
    network compares them once and exchanges only on a strict inequality. *)
Example selector_two_ties_in_provider_order :
  @AssetSelector Samples.env_avx512 Samples.args_defaults Samples.tied_rows
  = Spec.select_assets Samples.args_defaults Samples.tied_rows
  /\ Spec.select_assets Samples.args_defaults Samples.tied_rows = ["A"; "B"]%string.
Proof. split; reflexivity. Qed.

(** C9.  100 shares of one ticker bought at 10, no further trading, four
    business days (1 to 4 June 2020) with prices 10, 11, missing, 12: the
    simulator records the values 1000, 1100, 1100, 1200, whether the missing
    price is a NaN cell or a day absent from the price table. *)
Theorem simulator_values_with_missing_price (env : Environment)
    (daily_prices_df : Pd.DataFrame) :
  obter_dados_historicos_yf ["T"%string] (Samples.june 1) (Samples.june 4 + 3)%Z
  = daily_prices_df ->
  daily_prices_df = Samples.prices_with_nan
  \/ daily_prices_df = Samples.prices_with_gap ->
  let history :=
    portfolio_history
      (simulate_period (Samples.june 1) (Samples.june 4) Samples.hundred_shares) in
  map snap_date history
  = [Samples.june 1; Samples.june 2; Samples.june 3; Samples.june 4]
  /\ Forall2 Qeq (map portfolio_value history) [1000; 1100; 1100; 1200].
Proof.
  intros P D. cbv zeta. unfold simulate_period, Samples.hundred_shares.
  cbn [Py.truthy current_holdings Py.keys map fst]. rewrite P.
  destruct D as [->| ->]; vm_compute; (split; [reflexivity|]);
    repeat (constructor; try reflexivity).
Qed.

(** C9, an instance: the provider answers with the NaN table. *)
Lemma simulator_values_with_missing_price_witness :
  let history :=
    portfolio_history
      (@simulate_period (Samples.env_scenario Samples.prices_with_nan)
         (Samples.june 1) (Samples.june 4) Samples.hundred_shares) in
  map snap_date history
  = [Samples.june 1; Samples.june 2; Samples.june 3; Samples.june 4]
  /\ Forall2 Qeq (map portfolio_value history) [1000; 1100; 1100; 1200].
Proof.
  apply (simulator_values_with_missing_price
           (Samples.env_scenario Samples.prices_with_nan) Samples.prices_with_nan).
  - reflexivity.
  - now left.
Defined.

(** The same scenario as a whole run: the rebalance of 1 June 2020 turns
    1000 of cash into 100 shares at 10. *)
Example run_with_missing_price :
  exists history,
    @run_backtest (Samples.env_scenario Samples.prices_with_gap) Samples.args_scenario
    = Finished history
    /\ Forall2 Qeq (map portfolio_value history) [1000; 1100; 1100; 1200].
Proof.
  eexists. split; [vm_compute; reflexivity|].
  repeat (constructor; try reflexivity).
Qed.

(** C6, an instance: three tickers, no price for "B". *)
Lemma unpriced_tickers_dropped_and_reweighted_witness :
  let args := Samples.args_with_bounds (3 # 10) (7 # 10) in
  let selected_tickers := ["A"; "B"; "C"]%string in
  let st' := TradeExecutor args selected_tickers
               (clamped_equal_weights args selected_tickers) Samples.prices_b_missing
               (initial_state args) in
  missing_prices selected_tickers
    (Pd.iloc0 (Pd.bfill (Pd.ffill Samples.prices_b_missing))) = ["B"]%string
  /\ Py.keys (current_holdings st') = ["A"; "C"]%string
  /\ current_portfolio_value st' = 100000.
Proof.
  cbv zeta. split; [reflexivity|].
  destruct (unpriced_tickers_dropped_and_reweighted
              (Samples.args_with_bounds (3 # 10) (7 # 10)) ["A"; "B"; "C"]%string
              (clamped_equal_weights (Samples.args_with_bounds (3 # 10) (7 # 10))
                 ["A"; "B"; "C"]%string)
              Samples.prices_b_missing
              (initial_state (Samples.args_with_bounds (3 # 10) (7 # 10))))
    as (_ & K & _ & _ & V).
  - reflexivity.
  - reflexivity.
  - discriminate.
  - split; [|exact V]. apply K.
    distinct_tickers.
Defined.

(** C7, an instance: 100 shares held, the price provider down. *)
Lemma rebalance_without_prices_changes_nothing_witness :
  let st' := @rebalance Samples.env_no_prices Samples.args_defaults
               (Calendar.ymd2ord 2020 1 1) ["A"; "B"]%string Samples.hundred_shares in
  current_holdings st' = [("T", Bought 100 10 1)]%string
  /\ current_portfolio_value st' = 1000
  /\ st' = Samples.hundred_shares.
Proof.
  apply (rebalance_without_prices_changes_nothing Samples.env_no_prices
           Samples.args_defaults (Calendar.ymd2ord 2020 1 1) ["A"; "B"]%string
           Samples.hundred_shares).
  - discriminate.
  - reflexivity.
Defined.

(** When no selected ticker has a price the executor goes to cash. *)
Example all_tickers_unpriced_goes_to_cash :
  let args := Samples.args_defaults in
  let df := {| Pd.columns := ["A"; "Z"]%string;
               Pd.rows := [(Calendar.ymd2ord 2020 1 1, [None; Some 10])] |} in
  TradeExecutor args ["A"]%string (clamped_equal_weights args ["A"]%string) df
    Samples.hundred_shares
  = set_holdings Samples.hundred_shares [].
Proof. reflexivity. Qed.

(** * Further properties of the code *)

Local Open Scope Z_scope.

(** ** The calendar *)

Lemma month_day_checked :
  forallb (fun n => month_day_ok true n && month_day_ok false n)
          (Calendar.days_from 0 365) = true.
Proof. vm_compute. reflexivity. Qed.

Lemma month_day_spec (leapyear : bool) (n : Z) :
  0 <= n < 365 ->
  let '(month, day) := month_day leapyear n in
  1 <= month <= 12 /\ 1 <= day <= 31
  /\ nth (Z.to_nat (month - 1)) Calendar.DAYS_BEFORE_MONTH 0
     + (if (2 <? month) && leapyear then 1 else 0) + day = n + 1.
Proof.
  intro R. pose proof month_day_checked as C. rewrite forallb_forall in C.
  specialize (C n). rewrite in_days_from in C.
  assert (K : month_day_ok leapyear n = true).
  { destruct (andb_prop _ _ (C ltac:(lia))) as [T F]. now destruct leapyear. }
  unfold month_day_ok in K. destruct (month_day leapyear n) as [month day].
  rewrite !andb_true_iff in K. lia.
Qed.

Lemma ord2ymd_unfold (n : date) :
  Calendar.ord2ymd n
  = (let n0 := n - 1 in
     let n400 := n0 / 146097 in
     let r1 := n0 mod 146097 in
     let n100 := r1 / 36524 in
     let r2 := r1 mod 36524 in
     let n4 := r2 / 1461 in
     let r3 := r2 mod 1461 in
     let n1 := r3 / 365 in
     let r4 := r3 mod 365 in
     let year := n400 * 400 + 1 + n100 * 100 + n4 * 4 + n1 in
     if (n1 =? 4) || (n100 =? 4) then (year - 1, 12, 31)
     else
       let leapyear := (n1 =? 3) && (negb (n4 =? 24) || (n100 =? 3)) in
       let '(month, day) := month_day leapyear r4 in (year, month, day)).
Proof.
  unfold Calendar.ord2ymd, month_day. cbv zeta.
  destruct ((_ =? 4) || (_ =? 4)); [reflexivity|].
  destruct (_ <? _); reflexivity.
Qed.

Lemma is_leap_spec (year : Z) :
  Calendar.is_leap year = true
  <-> year mod 4 = 0 /\ (year mod 100 <> 0 \/ year mod 400 = 0).
Proof.
  unfold Calendar.is_leap.
  rewrite andb_true_iff, orb_true_iff, negb_true_iff, Z.eqb_neq, !Z.eqb_eq. tauto.
Qed.

(** [ord2ymd] inverts [ymd2ord]. *)
Lemma ord2ymd_ymd2ord (n : date) :
  1 <= n ->
  let '(year, month, day) := Calendar.ord2ymd n in
  Calendar.ymd2ord year month day = n /\ 1 <= month <= 12 /\ 1 <= day <= 31.
Proof.
  intro H. rewrite ord2ymd_unfold. cbv zeta.
  set (n0 := n - 1).
  set (n400 := n0 / 146097). set (r1 := n0 mod 146097).
  set (n100 := r1 / 36524). set (r2 := r1 mod 36524).
  set (n4 := r2 / 1461). set (r3 := r2 mod 1461).
  set (n1 := r3 / 365). set (r4 := r3 mod 365).
  assert (B : 0 <= n0) by (subst n0; lia).
  destruct ((n1 =? 4) || (n100 =? 4)) eqn:S.
  - split; [|lia]. unfold Calendar.ymd2ord, Calendar.days_before_month.
    assert (L : Calendar.is_leap (n400 * 400 + 1 + n100 * 100 + n4 * 4 + n1 - 1) = true).
    { apply is_leap_spec. apply orb_true_iff in S. rewrite !Z.eqb_eq in S.
      subst n1 r3 n4 r2 n100 r1 n400. Z.to_euclidean_division_equations. lia. }
    rewrite L. simpl nth. simpl andb. cbv iota.
    unfold Calendar.days_before_year. cbv zeta.
    apply orb_true_iff in S. rewrite !Z.eqb_eq in S.
    subst n1 r3 n4 r2 n100 r1 n400 n0. Z.to_euclidean_division_equations. lia.
  - apply orb_false_iff in S. rewrite !Z.eqb_neq in S. destruct S as [S1 S2].
    set (leapyear := (n1 =? 3) && (negb (n4 =? 24) || (n100 =? 3))).
    assert (R4 : 0 <= r4 < 365) by (subst r4; apply Z.mod_pos_bound; lia).
    pose proof (month_day_spec leapyear r4 R4) as M.
    destruct (month_day leapyear r4) as [month day].
    destruct M as (M1 & M2 & M3). split; [|lia].
    unfold Calendar.ymd2ord, Calendar.days_before_month.
    assert (L : Calendar.is_leap (n400 * 400 + 1 + n100 * 100 + n4 * 4 + n1) = leapyear).
    { apply eq_true_iff_eq. rewrite is_leap_spec. subst leapyear.
      rewrite andb_true_iff, orb_true_iff, negb_true_iff, Z.eqb_neq, !Z.eqb_eq.
      subst n1 r3 n4 r2 n100 r1 n400. Z.to_euclidean_division_equations. lia. }
    rewrite L.
    assert (Y : Calendar.days_before_year (n400 * 400 + 1 + n100 * 100 + n4 * 4 + n1)
                = n0 - r4).
    { unfold Calendar.days_before_year. cbv zeta.
      subst r4 n1 r3 n4 r2 n100 r1 n400. Z.to_euclidean_division_equations. lia. }
    rewrite Y. subst n0. lia.
Qed.

Lemma business_day_weekday (d : date) :
  Pd.is_on_offset Pd.B d = (Calendar.weekday d <? 5).
Proof. unfold Pd.is_on_offset. now destruct (Calendar.ord2ymd d) as [[y m] day]. Qed.

(** A business month start is the first business day of its month. *)
Lemma month_start_facts (d : date) :
  1 <= d ->
  Pd.is_on_offset Pd.BMS d = true ->
  Pd.is_on_offset Pd.B d = true
  /\ 1 <= day_of_month d <= 3
  /\ forall d', d - day_of_month d + 1 <= d' < d -> Pd.is_on_offset Pd.B d' = false.
Proof.
  intros H O. unfold day_of_month.
  assert (K : Calendar.weekday d < 5
              /\ (let '(_, _, day) := Calendar.ord2ymd d in
                  1 <= day <= 3
                  /\ forall d', d - day + 1 <= d' < d -> 5 <= Calendar.weekday d')).
  { pose proof (ord2ymd_ymd2ord d H) as R. unfold Pd.is_on_offset in O.
    destruct (Calendar.ord2ymd d) as [[y m] day]. destruct R as (R & _ & D).
    apply Z.eqb_eq in O. unfold Pd.get_firstbday in O. cbv zeta in O.
    assert (F : Calendar.ymd2ord y m 1 = d - day + 1)
      by (unfold Calendar.ymd2ord in *; lia).
    rewrite F in O. unfold Calendar.weekday in *.
    destruct (Z.eqb_spec ((d - day + 1 + 6) mod 7) 5) as [E5|N5].
    - subst day. split; [|split; [lia|intros d' I]];
        Z.to_euclidean_division_equations; lia.
    - destruct (Z.eqb_spec ((d - day + 1 + 6) mod 7) 6) as [E6|N6].
      + subst day. split; [|split; [lia|intros d' I]];
          Z.to_euclidean_division_equations; lia.
      + subst day. split; [|split; [lia|intros d' I; lia]].
        replace (d - 1 + 1 + 6) with (d + 6) in * by lia.
        pose proof (Z.mod_pos_bound (d + 6) 7). lia. }
  destruct K as [W K]. split; [rewrite business_day_weekday; now apply Z.ltb_lt|].
  destruct (Calendar.ord2ymd d) as [[y m] day]. destruct K as [K1 K2].
  split; [exact K1|]. intros d' I. rewrite business_day_weekday.
  apply Z.ltb_ge. now apply K2.
Qed.

Lemma period_starts_nest (d : date) :
  (Pd.is_on_offset Pd.BYS d = true -> Pd.is_on_offset Pd.BQS d = true)
  /\ (Pd.is_on_offset Pd.BQS d = true -> Pd.is_on_offset Pd.BMS d = true).
Proof.
  unfold Pd.is_on_offset. destruct (Calendar.ord2ymd d) as [[y m] day]. split.
  - intro H. apply andb_true_iff in H. destruct H as [M D].
    apply Z.eqb_eq in M. subst m. now rewrite D.
  - intro H. apply andb_true_iff in H. tauto.
Qed.

Lemma month_start_unique (d1 d2 : date) :
  1 <= d1 -> 1 <= d2 ->
  Pd.is_on_offset Pd.BMS d1 = true -> Pd.is_on_offset Pd.BMS d2 = true ->
  year_month d1 = year_month d2 -> d1 = d2.
Proof.
  intros H1 H2 O1 O2 E. unfold year_month, Pd.is_on_offset in *.
  pose proof (ord2ymd_ymd2ord d1 H1) as R1. pose proof (ord2ymd_ymd2ord d2 H2) as R2.
  destruct (Calendar.ord2ymd d1) as [[y1 m1] day1].
  destruct (Calendar.ord2ymd d2) as [[y2 m2] day2].
  injection E as -> ->. apply Z.eqb_eq in O1, O2.
  destruct R1 as [<- _], R2 as [<- _]. congruence.
Qed.

Lemma period_start_is_month_start (period_start : Pd.Offset) (frequency : string) (d : date) :
  offset_of_frequency frequency = Some period_start ->
  Pd.is_on_offset period_start d = true -> Pd.is_on_offset Pd.BMS d = true.
Proof.
  unfold offset_of_frequency.
  destruct (String.eqb frequency "monthly"); [intros [= <-]; tauto|].
  destruct (String.eqb frequency "quarterly");
    [intros [= <-]; apply period_starts_nest|].
  destruct (String.eqb frequency "annually"); [|discriminate].
  intros [= <-] O. now apply period_starts_nest, period_starts_nest.
Qed.

Lemma rebalance_date_is_month_start (start_date end_date : date) (frequency : string)
    (rebalance_dates : list date) (d : date) :
  get_rebalance_dates start_date end_date frequency = Some rebalance_dates ->
  In d rebalance_dates ->
  start_date <= d <= end_date /\ Pd.is_on_offset Pd.BMS d = true.
Proof.
  rewrite get_rebalance_dates_offset.
  destruct (offset_of_frequency frequency) as [freq|] eqn:F; [|discriminate].
  intros [= <-] I. apply in_date_range in I. split; [tauto|].
  apply (period_start_is_month_start freq frequency); tauto.
Qed.

(** X1.  Every date [get_rebalance_dates] returns is the first business day
    of its month: it is a business day, it falls on one of the first three
    days of the month, and no earlier day of that month is a business day.
    Dates are read as ordinals of the proleptic Gregorian calendar, from
    1 January of year 1. *)
Theorem rebalance_dates_are_first_business_days
    (start_date end_date : date) (frequency : string) (rebalance_dates : list date) :
  1 <= start_date ->
  get_rebalance_dates start_date end_date frequency = Some rebalance_dates ->
  forall d, In d rebalance_dates ->
    Pd.is_on_offset Pd.B d = true
    /\ 1 <= day_of_month d <= 3
    /\ forall d', d - day_of_month d + 1 <= d' < d -> Pd.is_on_offset Pd.B d' = false.
Proof.
  intros H G d I.
  destruct (rebalance_date_is_month_start _ _ _ _ d G I) as [R O].
  apply month_start_facts; [lia|exact O].
Qed.

(** X1, an instance: monthly over the first quarter of 2020; 1 and
    2 February 2020 are a Saturday and a Sunday. *)
Lemma rebalance_dates_are_first_business_days_witness :
  get_rebalance_dates (Calendar.ymd2ord 2020 1 1) (Calendar.ymd2ord 2020 3 31) "monthly"
  = Some [Calendar.ymd2ord 2020 1 1; Calendar.ymd2ord 2020 2 3; Calendar.ymd2ord 2020 3 2]
  /\ Pd.is_on_offset Pd.B (Calendar.ymd2ord 2020 2 3) = true
  /\ 1 <= day_of_month (Calendar.ymd2ord 2020 2 3) <= 3
  /\ forall d', Calendar.ymd2ord 2020 2 3 - day_of_month (Calendar.ymd2ord 2020 2 3) + 1
                <= d' < Calendar.ymd2ord 2020 2 3 ->
                Pd.is_on_offset Pd.B d' = false.
Proof.
  split; [reflexivity|].
  apply (rebalance_dates_are_first_business_days
           (Calendar.ymd2ord 2020 1 1) (Calendar.ymd2ord 2020 3 31) "monthly"
           [Calendar.ymd2ord 2020 1 1; Calendar.ymd2ord 2020 2 3; Calendar.ymd2ord 2020 3 2]).
  - vm_compute. discriminate.
  - reflexivity.
  - right. now left.
Defined.

(** X2.  [get_rebalance_dates] returns at most one date per calendar month:
    two returned dates of the same year and month are the same date. *)
Theorem rebalance_dates_in_distinct_months
    (start_date end_date : date) (frequency : string) (rebalance_dates : list date) :
  1 <= start_date ->
  get_rebalance_dates start_date end_date frequency = Some rebalance_dates ->
  forall d1 d2, In d1 rebalance_dates -> In d2 rebalance_dates ->
    year_month d1 = year_month d2 -> d1 = d2.
Proof.
  intros H G d1 d2 I1 I2 E.
  destruct (rebalance_date_is_month_start _ _ _ _ d1 G I1) as [R1 O1].
  destruct (rebalance_date_is_month_start _ _ _ _ d2 G I2) as [R2 O2].
  apply month_start_unique; try assumption; lia.
Qed.

(** X2, an instance: monthly over the first quarter of 2020. *)
Lemma rebalance_dates_in_distinct_months_witness :
  get_rebalance_dates (Calendar.ymd2ord 2020 1 1) (Calendar.ymd2ord 2020 3 31) "monthly"
  = Some [Calendar.ymd2ord 2020 1 1; Calendar.ymd2ord 2020 2 3; Calendar.ymd2ord 2020 3 2]
  /\ map year_month
       [Calendar.ymd2ord 2020 1 1; Calendar.ymd2ord 2020 2 3; Calendar.ymd2ord 2020 3 2]
     = [(2020, 1); (2020, 2); (2020, 3)]
  /\ forall d1 d2,
       In d1 [Calendar.ymd2ord 2020 1 1; Calendar.ymd2ord 2020 2 3; Calendar.ymd2ord 2020 3 2] ->
       In d2 [Calendar.ymd2ord 2020 1 1; Calendar.ymd2ord 2020 2 3; Calendar.ymd2ord 2020 3 2] ->
       year_month d1 = year_month d2 -> d1 = d2.
Proof.
  split; [reflexivity|]. split; [reflexivity|].
  apply (rebalance_dates_in_distinct_months
           (Calendar.ymd2ord 2020 1 1) (Calendar.ymd2ord 2020 3 31) "monthly").
  - vm_compute. discriminate.
  - reflexivity.
Defined.

(** ** Invariants of a run *)

Lemma last_item_app {A} (l : list A) (x : A) : Py.last_item (l ++ [x]) = Some x.
Proof. unfold Py.last_item. now rewrite rev_app_distr. Qed.

Lemma increasing_app (l1 l2 : list Z) :
  StronglySorted Z.lt l1 -> StronglySorted Z.lt l2 ->
  (forall x y, In x l1 -> In y l2 -> x < y) ->
  StronglySorted Z.lt (l1 ++ l2).
Proof.
  induction 1 as [|a l1 S IH F]; intros S2 H; simpl; [exact S2|].
  constructor.
  - apply IH; [exact S2|]. intros x y Ix Iy. apply H; [now right|exact Iy].
  - apply Forall_app. split; [exact F|].
    apply Forall_forall. intros y Iy. apply H; [now left|exact Iy].
Qed.

Section Run.

Context {env : Environment}.
Variable args : Args.

(** What an iteration adds to the history: days of its own period, in
    order. *)
Lemma rebalance_iteration_extends (d : date) (next : option date) (st : State) :
  let end_sim_period :=
    match next with Some n => n - 1 | None => end_date_backtest args end in
  (forall x, In x (dates_of st) -> x < d) ->
  d <= end_sim_period ->
  exists added,
    dates_of (rebalance_iteration args d next st) = dates_of st ++ added
    /\ StronglySorted Z.lt added
    /\ (forall x, In x added -> d <= x <= end_sim_period)
    /\ (forall x, In x added -> x = d \/ Pd.is_on_offset Pd.B x = true).
Proof.
  intros end_sim B L.
  destruct (obter_dados_fundamentalistas_detalhados_br d (universe_tickers args))
    as [|r rs] eqn:E.
  - rewrite (rebalance_iteration_outage args d next st E).
    exists (if Py.truthy (current_holdings st) then [d] else []).
    split; [reflexivity|].
    destruct (Py.truthy (current_holdings st)).
    + split; [repeat constructor|]. split; intros x [<-|[]]; [lia|now left].
    + split; [constructor|]. split; intros x [].
  - rewrite (rebalance_iteration_dates args d next st);
      [|rewrite E; discriminate|exact B].
    exists (Pd.date_range d end_sim Pd.B). split; [reflexivity|].
    split; [apply date_range_increasing|].
    split; intros x I; apply in_date_range in I; tauto.
Qed.

Lemma rebalance_loop_extends (rebalance_dates : list date) (st : State) :
  StronglySorted Z.lt rebalance_dates ->
  (forall d, In d rebalance_dates -> d <= end_date_backtest args) ->
  (forall x d, In x (dates_of st) -> In d rebalance_dates -> x < d) ->
  exists added,
    dates_of (rebalance_loop args rebalance_dates st) = dates_of st ++ added
    /\ StronglySorted Z.lt added
    /\ (forall x, In x added ->
                  hd (end_date_backtest args + 1) rebalance_dates <= x
                  <= end_date_backtest args)
    /\ (forall x, In x added ->
                  In x rebalance_dates \/ Pd.is_on_offset Pd.B x = true).
Proof.
  intro S. revert st. induction S as [|d rest S IH F]; intros st E B.
  - exists []. simpl. rewrite app_nil_r.
    split; [reflexivity|]. split; [apply SSorted_nil|]. split; intros x [].
  - simpl rebalance_loop. cbn [hd].
    assert (Fd : forall d', In d' rest -> d < d')
      by (intros d' I; exact (proj1 (Forall_forall _ _) F d' I)).
    destruct (rebalance_iteration_extends d (hd_error rest) st)
      as (a1 & D1 & S1 & R1 & W1).
    { intros x I. apply (B x d I). now left. }
    { destruct rest as [|d' rest']; cbn [hd_error].
      - apply E. now left.
      - assert (d < d') by (apply Fd; now left). lia. }
    assert (Hend : forall x, In x a1 ->
                     x <= end_date_backtest args
                     /\ forall d', In d' rest -> x < d').
    { intros x I. specialize (R1 x I). destruct rest as [|d' rest']; cbn [hd_error] in R1.
      - split; [lia|]. intros d' [].
      - split.
        + assert (d' <= end_date_backtest args) by (apply E; right; now left). lia.
        + intros d'' [<-|J]; [lia|].
          inversion S as [|? ? _ F']. subst.
          pose proof (proj1 (Forall_forall _ _) F' d'' J). lia. }
    destruct (IH (rebalance_iteration args d (hd_error rest) st))
      as (a2 & D2 & S2 & R2 & W2).
    { intros x I. apply E. now right. }
    { intros x d' I J. rewrite D1 in I. apply in_app_or in I. destruct I as [I|I].
      - apply (B x d' I). now right.
      - now apply (Hend x I). }
    exists (a1 ++ a2). split; [rewrite D2, D1; now rewrite app_assoc|].
    split; [|split].
    + apply increasing_app; try assumption.
      intros x y Ix Iy. specialize (R2 y Iy). destruct rest as [|d' rest'].
      * cbn [hd] in R2. lia.
      * cbn [hd] in R2. assert (x < d') by (apply (Hend x Ix); now left). lia.
    + intros x I. apply in_app_or in I. destruct I as [I|I].
      * specialize (R1 x I). split; [lia|]. now apply Hend.
      * specialize (R2 x I). split; [|lia].
        destruct rest as [|d' rest']; cbn [hd] in R2; [lia|].
        assert (d < d') by (apply Fd; now left). lia.
    + intros x I. apply in_app_or in I. destruct I as [I|I].
      * destruct (W1 x I) as [->|O]; [left; now left|now right].
      * destruct (W2 x I) as [J|O]; [left; now right|now right].
Qed.

End Run.

(** X3.  The history of a finished run is in strictly increasing date order
    (so no day is recorded twice), every recorded date lies between the start
    and the end date of the backtest, and every recorded date is a business
    day, whichever branches the loop takes, the fundamentals outage
    included. *)
Theorem history_is_chronological (env : Environment) (args : Args)
    (history : list Snapshot) :
  run_backtest args = Finished history ->
  StronglySorted Z.lt (map snap_date history)
  /\ Forall (fun d => start_date_backtest args <= d <= end_date_backtest args)
            (map snap_date history)
  /\ (1 <= start_date_backtest args ->
      Forall (fun d => Pd.is_on_offset Pd.B d = true) (map snap_date history)).
Proof.
  intro R. destruct (run_backtest_finished args history R) as (ds & G & NE & ->).
  rewrite get_rebalance_dates_offset in G.
  destruct (offset_of_frequency (rebalance_frequency args)) as [freq|] eqn:OF;
    [|discriminate].
  injection G as <-.
  destruct (rebalance_loop_extends args
              (Pd.date_range (start_date_backtest args) (end_date_backtest args) freq)
              (initial_state args)) as (added & D & S & I & W).
  - apply date_range_increasing.
  - intros d J. apply in_date_range in J. lia.
  - intros x d [].
  - change (map snap_date (portfolio_history ?s)) with (dates_of s).
    rewrite D. simpl. split; [exact S|]. split;
      [|intro P; apply Forall_forall; intros x J;
        destruct (W x J) as [K|K]; [|exact K];
        apply in_date_range in K;
        apply month_start_facts; [lia|];
        apply (period_start_is_month_start freq (rebalance_frequency args)); tauto].
    apply Forall_forall. intros x J. specialize (I x J). split; [|lia].
    destruct (Pd.date_range (start_date_backtest args) (end_date_backtest args) freq)
      as [|d0 l] eqn:E0; [exfalso; now apply NE|].
    cbn [hd] in I.
    assert (K : In d0 (Pd.date_range (start_date_backtest args) (end_date_backtest args) freq))
      by (rewrite E0; now left).
    apply in_date_range in K. lia.
Qed.

(** X3, an instance: the defaults with the fundamentals missing in
    February. *)
Lemma history_is_chronological_witness :
  exists history,
    @run_backtest Samples.env_february_outage Samples.args_defaults = Finished history
    /\ List.length history = 46%nat
    /\ StronglySorted Z.lt (map snap_date history)
    /\ Forall (fun d => Calendar.ymd2ord 2020 1 1 <= d <= Calendar.ymd2ord 2020 3 31)
              (map snap_date history)
    /\ Forall (fun d => Pd.is_on_offset Pd.B d = true) (map snap_date history).
Proof.
  eexists. split; [vm_compute; reflexivity|]. split; [reflexivity|].
  destruct (history_is_chronological Samples.env_february_outage Samples.args_defaults
              _ ltac:(vm_compute; reflexivity)) as (S & R & W).
  split; [exact S|]. split; [exact R|]. apply W. discriminate.
Defined.

Local Open Scope Q_scope.

Section RunValue.

Context {env : Environment}.
Variable args : Args.
Variable initial : Q.

Lemma append_keeps_value_recorded (st : State) (s : Snapshot) :
  current_portfolio_value st = portfolio_value s ->
  value_is_last_recorded initial (append_snapshot st s).
Proof.
  intro H. unfold value_is_last_recorded. simpl.
  now rewrite last_item_app.
Qed.

Lemma simulate_day_keeps_value_recorded (df : Pd.DataFrame) (st : State) (d : date) :
  value_is_last_recorded initial st ->
  value_is_last_recorded initial (simulate_day df st d).
Proof.
  intro I. unfold simulate_day.
  destruct (negb (Pd.in_index df d)).
  - unfold value_is_last_recorded in I.
    destruct (Py.last_item (portfolio_history st)) as [s|] eqn:L.
    + destruct (snap_date s <? d)%Z.
      * now apply append_keeps_value_recorded.
      * unfold value_is_last_recorded. now rewrite L.
    + now apply append_keeps_value_recorded.
  - destruct (value_holdings _ _ _ _ _ _) as [[v log]|];
      now apply append_keeps_value_recorded.
Qed.

Lemma cash_day_keeps_value_recorded (st : State) (d : date) :
  value_is_last_recorded initial st ->
  value_is_last_recorded initial (cash_day st d).
Proof. intros _. now apply append_keeps_value_recorded. Qed.

Lemma fold_keeps_value_recorded (step : State -> date -> State) (days : list date) :
  (forall st d, value_is_last_recorded initial st ->
                value_is_last_recorded initial (step st d)) ->
  forall st, value_is_last_recorded initial st ->
             value_is_last_recorded initial (fold_left step days st).
Proof.
  intro H. induction days as [|d days IH]; intros st I; simpl; [exact I|].
  apply IH, H, I.
Qed.

Lemma rebalance_keeps_value_recorded (d : date) (selected_tickers : list string)
    (st : State) :
  value_is_last_recorded initial st ->
  value_is_last_recorded initial (rebalance args d selected_tickers st).
Proof.
  unfold value_is_last_recorded. intro I.
  rewrite rebalance_history.
  assert (V : current_portfolio_value (rebalance args d selected_tickers st)
              = current_portfolio_value st).
  { unfold rebalance. destruct (0 <? _)%nat; [|reflexivity].
    destruct (negb _); [reflexivity|apply TradeExecutor_value]. }
  now rewrite V.
Qed.

Lemma simulate_period_keeps_value_recorded (start_sim_period end_sim_period : date)
    (st : State) :
  value_is_last_recorded initial st ->
  value_is_last_recorded initial (simulate_period start_sim_period end_sim_period st).
Proof.
  intro I. unfold simulate_period. destruct (Py.truthy (current_holdings st)).
  - apply fold_keeps_value_recorded; [|exact I].
    intros. now apply simulate_day_keeps_value_recorded.
  - apply fold_keeps_value_recorded; [|exact I].
    intros. now apply cash_day_keeps_value_recorded.
Qed.

Lemma rebalance_iteration_keeps_value_recorded (d : date) (next : option date)
    (st : State) :
  value_is_last_recorded initial st ->
  value_is_last_recorded initial (rebalance_iteration args d next st).
Proof.
  intro I. unfold rebalance_iteration.
  destruct (negb (Py.truthy (obter_dados_fundamentalistas_detalhados_br _ _))).
  - destruct (Py.truthy (current_holdings st)); [|exact I].
    now apply append_keeps_value_recorded.
  - apply simulate_period_keeps_value_recorded.
    destruct (negb _); [exact I|now apply rebalance_keeps_value_recorded].
Qed.

End RunValue.

(** X4.  Loop invariant of [run_backtest]: the running
    [current_portfolio_value] is the portfolio value of the last snapshot
    recorded, the initial portfolio value while nothing is recorded.  It
    holds at the start, every iteration of the rebalance loop preserves it,
    and so it holds when the loop ends. *)
Theorem running_value_is_last_recorded (env : Environment) (args : Args) :
  value_is_last_recorded (initial_portfolio_value args) (initial_state args)
  /\ (forall d next st,
         value_is_last_recorded (initial_portfolio_value args) st ->
         value_is_last_recorded (initial_portfolio_value args)
           (rebalance_iteration args d next st))
  /\ (forall rebalance_dates,
         value_is_last_recorded (initial_portfolio_value args)
           (rebalance_loop args rebalance_dates (initial_state args))).
Proof.
  assert (I0 : value_is_last_recorded (initial_portfolio_value args) (initial_state args))
    by reflexivity.
  split; [exact I0|]. split.
  - intros. now apply rebalance_iteration_keeps_value_recorded.
  - intro ds. generalize (initial_state args) I0.
    induction ds as [|d ds IH]; intros st I; simpl; [exact I|].
    now apply IH, rebalance_iteration_keeps_value_recorded.
Qed.

(** ** Periods and runs in cash *)

Lemma fold_cash_day (days : list date) (st : State) :
  fold_left cash_day days st
  = {| portfolio_history :=
         portfolio_history st ++ map (cash_snapshot (current_portfolio_value st)) days;
       current_portfolio_value := current_portfolio_value st;
       current_holdings := current_holdings st |}.
Proof.
  revert st. induction days as [|d days IH]; intro st; simpl.
  - rewrite app_nil_r. now destruct st.
  - rewrite IH. simpl. now rewrite <- app_assoc.
Qed.

Lemma simulate_period_in_cash {env : Environment}
    (start_sim_period end_sim_period : date) (st : State) :
  current_holdings st = [] ->
  simulate_period start_sim_period end_sim_period st
  = {| portfolio_history :=
         portfolio_history st
         ++ map (cash_snapshot (current_portfolio_value st))
              (Pd.date_range start_sim_period end_sim_period Pd.B);
       current_portfolio_value := current_portfolio_value st;
       current_holdings := [] |}.
Proof.
  intro H. unfold simulate_period. rewrite H. simpl Py.truthy. cbv iota.
  rewrite fold_cash_day. now rewrite H.
Qed.

(** X5.  A simulation period entered with no holdings records one snapshot
    per business day of the period, each with the running value and empty
    holdings, and leaves the value and the (empty) holdings as they were. *)
Theorem cash_period_is_constant (env : Environment)
    (start_sim_period end_sim_period : date) (st : State) :
  current_holdings st = [] ->
  let st' := simulate_period start_sim_period end_sim_period st in
  portfolio_history st'
  = portfolio_history st
    ++ map (cash_snapshot (current_portfolio_value st))
         (Pd.date_range start_sim_period end_sim_period Pd.B)
  /\ current_portfolio_value st' = current_portfolio_value st
  /\ current_holdings st' = [].
Proof.
  intros H st'. subst st'. rewrite simulate_period_in_cash by exact H.
  repeat split.
Qed.

(** X5, an instance: the first three days of 2020 in cash. *)
Lemma cash_period_is_constant_witness :
  let st := initial_state Samples.args_defaults in
  let st' := @simulate_period Samples.env_stable
               (Calendar.ymd2ord 2020 1 1) (Calendar.ymd2ord 2020 1 3) st in
  map portfolio_value (portfolio_history st') = [100000; 100000; 100000]
  /\ current_portfolio_value st' = 100000
  /\ current_holdings st' = [].
Proof.
  cbv zeta.
  destruct (cash_period_is_constant Samples.env_stable
              (Calendar.ymd2ord 2020 1 1) (Calendar.ymd2ord 2020 1 3)
              (initial_state Samples.args_defaults)) as (H & V & C); [reflexivity|].
  split; [now rewrite H|]. split; [exact V|exact C].
Defined.

Local Open Scope Z_scope.

Section CashRun.

Context {env : Environment}.
Variable args : Args.

Lemma rebalance_iteration_skips (d : date) (next : option date) (st : State) :
  obter_dados_fundamentalistas_detalhados_br d (universe_tickers args) = [] ->
  current_holdings st = [] ->
  rebalance_iteration args d next st = st.
Proof.
  intros E H. unfold rebalance_iteration. rewrite E, H. reflexivity.
Qed.

Lemma rebalance_loop_skips (rebalance_dates : list date) (st : State) :
  (forall d, In d rebalance_dates ->
             obter_dados_fundamentalistas_detalhados_br d (universe_tickers args) = []) ->
  current_holdings st = [] ->
  rebalance_loop args rebalance_dates st = st.
Proof.
  induction rebalance_dates as [|d ds IH]; intros E H; simpl; [reflexivity|].
  rewrite rebalance_iteration_skips; auto with datatypes.
Qed.

Lemma rebalance_stays_in_cash (d : date) (selected_tickers : list string) (st : State) :
  current_holdings st = [] ->
  Pd.empty (obter_dados_historicos_yf (shrink_to_min_alloc args selected_tickers) d (d + 3))
  || Pd.isnull_all_all
       (obter_dados_historicos_yf (shrink_to_min_alloc args selected_tickers) d (d + 3))
  = true ->
  current_holdings (rebalance args d selected_tickers st) = [].
Proof.
  intros H U. unfold rebalance.
  destruct (0 <? List.length selected_tickers)%nat; [|exact H].
  destruct (shrink_to_min_alloc args selected_tickers) as [|t ts] eqn:S; [reflexivity|].
  simpl negb. cbv iota. unfold TradeExecutor.
  rewrite clamped_equal_weights_truthy by discriminate.
  rewrite U. exact H.
Qed.

Lemma rebalance_iteration_in_cash (d : date) (next : option date) (st : State) :
  nothing_to_buy args d ->
  current_holdings st = [] ->
  let st' := rebalance_iteration args d next st in
  portfolio_history st'
  = portfolio_history st
    ++ map (cash_snapshot (current_portfolio_value st))
         (Pd.date_range d
            (match next with Some n => n - 1 | None => end_date_backtest args end) Pd.B)
  /\ current_portfolio_value st' = current_portfolio_value st
  /\ current_holdings st' = [].
Proof.
  intros (NE & B) H. cbv zeta. unfold rebalance_iteration.
  destruct (obter_dados_fundamentalistas_detalhados_br d (universe_tickers args))
    as [|r rs] eqn:E; [congruence|].
  simpl negb at 1. cbv iota.
  set (sel := AssetSelector args (score_fundamentals args (r :: rs))) in *.
  set (st1 := if negb (Py.truthy sel) then st else rebalance args d sel st).
  assert (K : portfolio_history st1 = portfolio_history st
              /\ current_portfolio_value st1 = current_portfolio_value st
              /\ current_holdings st1 = []).
  { subst st1. destruct sel as [|t ts] eqn:Es; [now repeat split|].
    simpl negb. cbv iota. destruct B as [B|B]; [discriminate|].
    split; [apply rebalance_history|]. split.
    - unfold rebalance. destruct (0 <? _)%nat; [|reflexivity].
      destruct (negb _); [reflexivity|apply TradeExecutor_value].
    - now apply rebalance_stays_in_cash. }
  destruct K as (K1 & K2 & K3).
  rewrite simulate_period_in_cash by exact K3. simpl.
  rewrite K1, K2. repeat split.
Qed.

Lemma rebalance_loop_in_cash (rebalance_dates : list date) (st : State) :
  StronglySorted Z.lt rebalance_dates ->
  (forall d, In d rebalance_dates -> d <= end_date_backtest args) ->
  (forall d, In d rebalance_dates -> nothing_to_buy args d) ->
  current_holdings st = [] ->
  rebalance_dates <> [] ->
  let st' := rebalance_loop args rebalance_dates st in
  portfolio_history st'
  = portfolio_history st
    ++ map (cash_snapshot (current_portfolio_value st))
         (Pd.date_range (hd 0 rebalance_dates) (end_date_backtest args) Pd.B)
  /\ current_portfolio_value st' = current_portfolio_value st
  /\ current_holdings st' = [].
Proof.
  intro S. revert st. induction S as [|d rest S IH F]; intros st E N H NE;
    [exfalso; now apply NE|].
  cbv zeta. simpl rebalance_loop. cbn [hd].
  destruct (rebalance_iteration_in_cash d (hd_error rest) st) as (H1 & V1 & C1);
    [apply N; now left|exact H|].
  destruct rest as [|d' rest'].
  - simpl. cbn [hd_error] in H1. now repeat split.
  - cbn [hd_error] in H1, V1, C1 |- *.
    assert (Hd : d < d') by (inversion F; assumption).
    destruct (IH (rebalance_iteration args d (Some d') st)) as (H2 & V2 & C2).
    + intros x I. apply E. now right.
    + intros x I. apply N. now right.
    + exact C1.
    + discriminate.
    + cbn [hd] in H2. rewrite H2, V2, H1, V1, <- app_assoc, <- map_app.
      rewrite date_range_split; [now repeat split|lia|].
      assert (d' <= end_date_backtest args) by (apply E; right; now left). lia.
Qed.

End CashRun.

(** X6.  When the fundamentals provider returns an empty table at every
    rebalance date, the run finishes with an empty history although there
    are rebalance dates: each iteration leaves through the [continue], and
    the holdings, empty from the start, never trigger its snapshot. *)
Theorem run_without_fundamentals_records_nothing (env : Environment) (args : Args)
    (rebalance_dates : list date) :
  get_rebalance_dates (start_date_backtest args) (end_date_backtest args)
    (rebalance_frequency args) = Some rebalance_dates ->
  rebalance_dates <> [] ->
  (forall d, In d rebalance_dates ->
             obter_dados_fundamentalistas_detalhados_br d (universe_tickers args) = []) ->
  run_backtest args = Finished [].
Proof.
  intros G NE E. unfold run_backtest. rewrite G.
  destruct rebalance_dates as [|d ds]; [exfalso; now apply NE|].
  simpl negb. cbv iota. now rewrite rebalance_loop_skips.
Qed.

(** X6, an instance: the defaults over the first quarter of 2020. *)
Lemma run_without_fundamentals_records_nothing_witness :
  @run_backtest Cases.env_no_fundamentals Samples.args_defaults = Finished [].
Proof.
  apply (run_without_fundamentals_records_nothing
           Cases.env_no_fundamentals Samples.args_defaults
           [Calendar.ymd2ord 2020 1 1; Calendar.ymd2ord 2020 2 3; Calendar.ymd2ord 2020 3 2]).
  - reflexivity.
  - discriminate.
  - reflexivity.
Defined.

(** X7.  When at every rebalance date fundamentals are there but nothing can
    be bought (no asset passes the selection, or the price lookup for the
    selection is empty or all null), the history is exactly one snapshot per
    business day from the first rebalance date to the end date, each with the
    initial portfolio value and empty holdings. *)
Theorem run_in_cash_is_constant (env : Environment) (args : Args)
    (rebalance_dates : list date) :
  get_rebalance_dates (start_date_backtest args) (end_date_backtest args)
    (rebalance_frequency args) = Some rebalance_dates ->
  rebalance_dates <> [] ->
  (forall d, In d rebalance_dates -> nothing_to_buy args d) ->
  run_backtest args
  = Finished (map (cash_snapshot (initial_portfolio_value args))
                (Pd.date_range (hd 0 rebalance_dates) (end_date_backtest args) Pd.B)).
Proof.
  intros G NE N. unfold run_backtest. rewrite G.
  apply truthy_true in NE. rewrite NE. simpl negb. cbv iota. f_equal.
  apply truthy_true in NE.
  rewrite get_rebalance_dates_offset in G.
  destruct (offset_of_frequency (rebalance_frequency args)) as [freq|]; [|discriminate].
  injection G as <-.
  destruct (rebalance_loop_in_cash args
              (Pd.date_range (start_date_backtest args) (end_date_backtest args) freq)
              (initial_state args)) as (H & _); auto using date_range_increasing.
  intros d I. apply in_date_range in I. lia.
Qed.

(** X7, an instance: the defaults with the price provider down; the quarter
    has 65 business days. *)
Lemma run_in_cash_is_constant_witness :
  exists history,
    @run_backtest Samples.env_no_prices Samples.args_defaults = Finished history
    /\ List.length history = 65%nat
    /\ Forall (fun s => portfolio_value s = 100000%Q /\ holdings s = []) history.
Proof.
  eexists. split.
  - apply (run_in_cash_is_constant Samples.env_no_prices Samples.args_defaults
             [Calendar.ymd2ord 2020 1 1; Calendar.ymd2ord 2020 2 3; Calendar.ymd2ord 2020 3 2]).
    + reflexivity.
    + discriminate.
    + intros d _. split; [discriminate|]. right. reflexivity.
  - split; [reflexivity|]. apply Forall_forall. intros s I.
    apply in_map_iff in I. destruct I as (d & <- & _). split; reflexivity.
Defined.

Local Open Scope Q_scope.

(** ** Dictionaries built by insertion *)

Lemma keys_setitem {V} (d : Py.dict V) k v :
  Py.keys (Py.setitem d k v)
  = if Py.contains (Py.keys d) k then Py.keys d else Py.keys d ++ [k].
Proof.
  unfold Py.contains. induction d as [|[k' v'] d IH]; simpl; [reflexivity|].
  rewrite (String.eqb_sym k k').
  destruct (String.eqb k' k); simpl; [reflexivity|].
  rewrite IH. now destruct (existsb _ _).
Qed.

Lemma contains_In (l : list string) (k : string) :
  Py.contains l k = true <-> In k l.
Proof.
  unfold Py.contains. rewrite existsb_exists. split.
  - intros (x & I & E). apply String.eqb_eq in E. now subst.
  - intro I. exists k. split; [exact I|apply String.eqb_refl].
Qed.

Lemma setitem_keeps_distinct {V} (d : Py.dict V) k v :
  NoDup (Py.keys d) -> NoDup (Py.keys (Py.setitem d k v)).
Proof.
  intro N. rewrite keys_setitem.
  destruct (Py.contains (Py.keys d) k) eqn:C; [exact N|].
  apply NoDup_app; [exact N|repeat constructor; intros []|].
  intros x I [<-|[]]. apply contains_In in I. congruence.
Qed.

Lemma comprehension_keys_distinct {A V} (f : A -> string * V) (l : list A) :
  NoDup (Py.keys (Py.comprehension f l)).
Proof.
  unfold Py.comprehension.
  assert (K : forall acc : Py.dict V, NoDup (Py.keys acc) ->
              NoDup (Py.keys (fold_left (fun d a => Py.setitem d (fst (f a)) (snd (f a))) l acc))).
  { induction l as [|a l IH]; intros acc N; simpl; [exact N|].
    apply IH, setitem_keeps_distinct, N. }
  apply K. constructor.
Qed.

Lemma comprehension_keys_in {A V} (f : A -> string * V) (l : list A) (k : string) :
  In k (Py.keys (Py.comprehension f l)) -> In k (map (fun a => fst (f a)) l).
Proof.
  unfold Py.comprehension.
  assert (K : forall acc : Py.dict V,
              In k (Py.keys (fold_left (fun d a => Py.setitem d (fst (f a)) (snd (f a))) l acc)) ->
              In k (Py.keys acc) \/ In k (map (fun a => fst (f a)) l)).
  { induction l as [|a l IH]; intros acc I; simpl in *; [now left|].
    apply IH in I. destruct I as [I|I]; [|now right; right].
    rewrite keys_setitem in I. destruct (Py.contains _ _); [now left|].
    apply in_app_or in I. destruct I as [I|[<-|[]]]; [now left|right; now left]. }
  intro I. apply K in I. destruct I as [[]|I]. exact I.
Qed.

Lemma clamped_equal_weights_keys (args : Args) (l : list string) :
  NoDup (Py.keys (clamped_equal_weights args l))
  /\ forall t, In t (Py.keys (clamped_equal_weights args l)) -> In t l.
Proof.
  unfold clamped_equal_weights. split; [apply comprehension_keys_distinct|].
  intros t I. apply comprehension_keys_in in I.
  apply in_map_iff in I. destruct I as ([k w] & <- & I). simpl.
  assert (J : In k (Py.keys (Py.comprehension
                (fun ticker : string =>
                   (ticker, Pd.clip (1 / Py.len l) (min_alloc_asset args)
                              (max_alloc_asset args))) l))).
  { unfold Py.keys. change k with (fst (k, w)). now apply in_map. }
  apply comprehension_keys_in in J. simpl in J. now rewrite map_id in J.
Qed.

Lemma in_prefix {A} (n : nat) (l : list A) (x : A) : In x (firstn n l) -> In x l.
Proof.
  intro I. rewrite <- (firstn_skipn n l). apply in_or_app. now left.
Qed.

(** ** What the buying loop books *)

Lemma execute_trades_filter (V : Q) (target_weights : Py.dict Q) (prices : Pd.Series) :
  NoDup (Py.keys target_weights) ->
  execute_trades V target_weights prices
  = map (bought V prices) (filter (priced prices) target_weights).
Proof.
  intro ND. unfold execute_trades.
  assert (K : forall acc : Holdings,
              NoDup (Py.keys acc ++ Py.keys target_weights) ->
              fold_left
                (fun new_holdings tw =>
                   match Pd.at_label prices (fst tw) with
                   | Some price =>
                       Py.setitem new_holdings (fst tw)
                         (Bought (V * snd tw / price) price (snd tw))
                   | None => new_holdings
                   end) target_weights acc
              = acc ++ map (bought V prices) (filter (priced prices) target_weights)).
  { clear ND. induction target_weights as [|[t w] l IH]; intros acc N; simpl.
    - now rewrite app_nil_r.
    - unfold priced at 1. simpl fst.
      destruct (Pd.at_label prices t) as [p|] eqn:E; simpl.
      + rewrite setitem_fresh.
        * rewrite IH.
          -- rewrite <- app_assoc. simpl. unfold bought at 2. simpl. now rewrite E.
          -- unfold Py.keys in *. rewrite map_app. simpl. rewrite <- app_assoc. exact N.
        * apply NoDup_remove_2 in N. intro I. apply N. apply in_or_app. now left.
      + apply IH. apply NoDup_remove_1 in N. exact N. }
  apply (K []). exact ND.
Qed.

Lemma in_execute_trades (V : Q) (target_weights : Py.dict Q) (prices : Pd.Series)
    (h : string * HoldingEntry) :
  NoDup (Py.keys target_weights) ->
  In h (execute_trades V target_weights prices) ->
  In (fst h) (Py.keys target_weights)
  /\ exists price weight,
       Pd.at_label prices (fst h) = Some price
       /\ Py.getitem target_weights (fst h) = Some weight
       /\ snd h = Bought (V * weight / price) price weight.
Proof.
  intros ND I. rewrite execute_trades_filter in I by exact ND.
  apply in_map_iff in I. destruct I as ([t w] & <- & I).
  apply filter_In in I. destruct I as [I P].
  unfold priced in P. simpl in P. unfold bought. simpl.
  split; [unfold Py.keys; change t with (fst (t, w)); now apply in_map|].
  destruct (Pd.at_label prices t) as [p|]; [|discriminate].
  exists p, w. split; [reflexivity|]. split; [|reflexivity].
  clear - ND I. induction target_weights as [|[k v] l IH]; [destruct I|].
  simpl. destruct I as [[= -> ->]|I].
  - now rewrite String.eqb_refl.
  - destruct (String.eqb_spec k t) as [->|_].
    + exfalso. inversion ND as [|? ? N _]. apply N.
      change t with (fst (t, w)). now apply in_map.
    + apply IH; [|exact I]. now inversion ND.
Qed.

(** X8.  Steps 5 and 6 at a rebalance date never touch the history or the
    running value.  Either the state is left as it was, or the holdings are
    replaced wholesale: every holding left is a freshly bought position of a
    selected ticker, at that ticker's price in the first row of the filled
    lookup, with [shares = value * weight / price]; no earlier position
    survives a rebalance that trades. *)
Theorem rebalance_replaces_holdings_wholesale (env : Environment) (args : Args)
    (current_rebalance_date : date) (selected_tickers : list string) (st : State) :
  let st' := rebalance args current_rebalance_date selected_tickers st in
  let prices :=
    Pd.iloc0 (Pd.bfill (Pd.ffill
      (obter_dados_historicos_yf (shrink_to_min_alloc args selected_tickers)
         current_rebalance_date (current_rebalance_date + 3)%Z))) in
  portfolio_history st' = portfolio_history st
  /\ current_portfolio_value st' = current_portfolio_value st
  /\ (st' = st
      \/ Forall (fun h =>
                   In (fst h) selected_tickers
                   /\ exists price weight,
                        Pd.at_label prices (fst h) = Some price
                        /\ snd h = Bought (current_portfolio_value st * weight / price)
                                     price weight)
                (current_holdings st')).
Proof.
  cbv zeta. split; [apply rebalance_history|]. split.
  { unfold rebalance. destruct (0 <? _)%nat; [|reflexivity].
    destruct (negb _); [reflexivity|apply TradeExecutor_value]. }
  unfold rebalance. destruct (0 <? List.length selected_tickers)%nat; [|now left].
  assert (Sub : forall t, In t (shrink_to_min_alloc args selected_tickers) ->
                          In t selected_tickers).
  { unfold shrink_to_min_alloc, Py.slice_to. intro t.
    destruct (Py.Qltb _ _); [|tauto]. destruct (0 <=? _)%Z; apply in_prefix. }
  set (sel := shrink_to_min_alloc args selected_tickers) in *.
  destruct (negb (Py.truthy sel)); [right; constructor|].
  unfold TradeExecutor.
  destruct (Py.truthy (clamped_equal_weights args sel)); [|right; constructor].
  destruct (Pd.empty _ || Pd.isnull_all_all _); [now left|]. right.
  set (prices := Pd.iloc0 _).
  assert (G : forall l, (forall t, In t l -> In t sel) ->
              Forall (fun h =>
                        In (fst h) selected_tickers
                        /\ exists price weight,
                             Pd.at_label prices (fst h) = Some price
                             /\ snd h = Bought (current_portfolio_value st * weight / price)
                                          price weight)
                     (execute_trades (current_portfolio_value st)
                        (clamped_equal_weights args l) prices)).
  { intros l Hl. apply Forall_forall. intros h I.
    destruct (clamped_equal_weights_keys args l) as [ND K].
    apply in_execute_trades in I; [|exact ND].
    destruct I as (I & p & w & P & _ & B).
    split; [apply Sub, Hl, K, I|]. now exists p, w. }
  destruct (Py.truthy (missing_prices sel prices)).
  - destruct (Py.truthy (filter _ sel)) eqn:T; simpl; [|constructor].
    rewrite clamped_equal_weights_truthy by now apply truthy_true.
    simpl. apply G. intros t I. apply filter_In in I. tauto.
  - destruct (Py.truthy (clamped_equal_weights args sel)); simpl; [|constructor].
    apply G. tauto.
Qed.

Lemma shrink_keeps_distinct (args : Args) (l : list string) :
  NoDup l -> NoDup (shrink_to_min_alloc args l).
Proof.
  intro N. unfold shrink_to_min_alloc, Py.slice_to.
  destruct (Py.Qltb _ _); [|exact N]. destruct (0 <=? _)%Z; now apply NoDup_prefix.
Qed.

Lemma filter_none_missing (l : list string) (prices : Pd.Series) :
  missing_prices l prices = [] ->
  filter (fun t => negb (Pd.isnull (Pd.at_label prices t))) l = l.
Proof.
  unfold missing_prices. intro M. apply filter_all. intros t I.
  destruct (Pd.isnull (Pd.at_label prices t)) eqn:E; [|reflexivity].
  assert (J : In t (filter (fun t => Pd.isnull (Pd.at_label prices t)) l))
    by (apply filter_In; now split).
  rewrite M in J. destruct J.
Qed.

Lemma weights_of_bought (V : Q) (prices : Pd.Series) (target_weights : Py.dict Q) :
  weights_of (map (bought V prices) target_weights) = Py.values target_weights.
Proof.
  unfold weights_of, Py.values. rewrite !map_map. apply map_ext.
  intros [t w]. unfold bought. simpl. now destruct (Pd.at_label prices t).
Qed.

(** The holdings after a rebalance whose price table is usable: bought with
    the weights of the tickers that have a price. *)
Lemma TradeExecutor_usable (args : Args) (sel : list string) (df : Pd.DataFrame)
    (st : State) :
  sel <> [] ->
  Pd.empty df || Pd.isnull_all_all df = false ->
  let prices := Pd.iloc0 (Pd.bfill (Pd.ffill df)) in
  let remaining := filter (fun t => negb (Pd.isnull (Pd.at_label prices t))) sel in
  current_holdings (TradeExecutor args sel (clamped_equal_weights args sel) df st)
  = if Py.truthy remaining
    then execute_trades (current_portfolio_value st)
           (clamped_equal_weights args remaining) prices
    else [].
Proof.
  intros NE U prices remaining. unfold TradeExecutor.
  rewrite clamped_equal_weights_truthy by exact NE. rewrite U. fold prices.
  destruct (Py.truthy (missing_prices sel prices)) eqn:M.
  - rewrite filter_not_in_missing. fold remaining.
    destruct (Py.truthy remaining) eqn:R; [|reflexivity].
    rewrite clamped_equal_weights_truthy by now apply truthy_true.
    reflexivity.
  - assert (M' : missing_prices sel prices = [])
      by (destruct (missing_prices sel prices); [reflexivity|discriminate]).
    rewrite clamped_equal_weights_truthy by exact NE.
    subst remaining. rewrite (filter_none_missing _ _ M').
    apply truthy_true in NE. now rewrite NE.
Qed.

(** X9.  A rebalance over distinct selected tickers with a positive maximum
    allocation, a usable price lookup, at least one priced ticker and no
    price of zero buys exactly the priced tickers of the (shrunk) selection,
    in selection order; the recorded target weights sum to 1 and the amounts
    invested ([shares * price_at_buy]) add up to the portfolio value, also
    when unpriced tickers were dropped and the weights recomputed. *)
Theorem rebalance_is_fully_invested (env : Environment) (args : Args)
    (current_rebalance_date : date) (selected_tickers : list string) (st : State) :
  NoDup selected_tickers ->
  0 < max_alloc_asset args ->
  let prices_on_rebalance_date_df :=
    obter_dados_historicos_yf (shrink_to_min_alloc args selected_tickers)
      current_rebalance_date (current_rebalance_date + 3)%Z in
  let prices := Pd.iloc0 (Pd.bfill (Pd.ffill prices_on_rebalance_date_df)) in
  let remaining :=
    filter (fun t => negb (Pd.isnull (Pd.at_label prices t)))
      (shrink_to_min_alloc args selected_tickers) in
  Pd.empty prices_on_rebalance_date_df
  || Pd.isnull_all_all prices_on_rebalance_date_df = false ->
  remaining <> [] ->
  (forall t price, In t remaining -> Pd.at_label prices t = Some price -> ~ price == 0) ->
  let st' := rebalance args current_rebalance_date selected_tickers st in
  Py.keys (current_holdings st') = remaining
  /\ Py.sum (weights_of (current_holdings st')) == 1
  /\ Spec.invested (current_holdings st') == current_portfolio_value st.
Proof.
  intros ND Hhi df prices remaining U NE NZ st'.
  assert (S : shrink_to_min_alloc args selected_tickers <> []).
  { intro E. apply NE. subst remaining. now rewrite E. }
  assert (H : current_holdings st'
              = execute_trades (current_portfolio_value st)
                  (clamped_equal_weights args remaining) prices).
  { subst st'. unfold rebalance.
    destruct selected_tickers as [|t ts];
      [exfalso; apply S; unfold shrink_to_min_alloc, Py.slice_to;
       destruct (Py.Qltb _ _); [destruct (0 <=? _)%Z; now rewrite firstn_nil|reflexivity]|].
    destruct (0 <? _)%nat eqn:L; [|discriminate L].
    apply truthy_true in S. rewrite S. simpl negb. cbv iota. apply truthy_true in S.
    fold df. rewrite (TradeExecutor_usable args _ df st S U). fold prices. fold remaining.
    apply truthy_true in NE. now rewrite NE. }
  assert (NDr : NoDup remaining)
    by (apply NoDup_filter_keeps, shrink_keeps_distinct, ND).
  destruct (weights_renormalised args remaining NDr NE Hhi) as (K & Sum & _).
  assert (P : forall t, In t (Py.keys (clamped_equal_weights args remaining)) ->
                        Pd.at_label prices t <> None).
  { rewrite K. intros t I. now apply (filter_priced _ _ _ I). }
  rewrite H, execute_trades_priced; [|now rewrite K|exact P].
  split; [now rewrite keys_bought|]. split.
  - now rewrite weights_of_bought.
  - rewrite invested_bought.
    + rewrite Sum. ring.
    + rewrite K. intros t I.
      destruct (Pd.at_label prices t) as [p|] eqn:E.
      * exists p. split; [reflexivity|]. now apply (NZ t).
      * exfalso. now apply (filter_priced _ _ _ I).
Qed.

(** X9, an instance: three tickers at a price of 10 under the bounds
    [0, 1]. *)
Lemma rebalance_is_fully_invested_witness :
  let st' := @rebalance Samples.env_stable (Samples.args_with_bounds 0 1)
               (Calendar.ymd2ord 2020 1 1) ["B"; "A"; "C"]%string
               (initial_state Samples.args_defaults) in
  Py.keys (current_holdings st') = ["B"; "A"; "C"]%string
  /\ Py.sum (weights_of (current_holdings st')) == 1
  /\ Spec.invested (current_holdings st') == 100000.
Proof.
  apply (rebalance_is_fully_invested Samples.env_stable (Samples.args_with_bounds 0 1)
           (Calendar.ymd2ord 2020 1 1) ["B"; "A"; "C"]%string
           (initial_state Samples.args_defaults)).
  - distinct_tickers.
  - reflexivity.
  - reflexivity.
  - discriminate.
  - intros t price I. vm_compute in I.
    destruct I as [<-|[<-|[<-|[]]]]; intro E; injection E as <-; discriminate.
Defined.

(** ** The valuation of a day *)

Section Valuation.

Variable daily_prices_df : Pd.DataFrame.
Variable history : list Snapshot.
Variable sim_date : date.

Local Abbreviation price := (price_used daily_prices_df history sim_date).
Local Abbreviation log_entry := (valued daily_prices_df history sim_date).

Lemma value_holdings_step (ticker : string) (data : HoldingEntry) (items : Holdings)
    (acc : Q) (log : Holdings) :
  value_holdings daily_prices_df history sim_date ((ticker, data) :: items) acc log
  = match price ticker with
    | Some p =>
        value_holdings daily_prices_df history sim_date items
          (acc + shares_of data * p)
          (Py.setitem log ticker (Valued (shares_of data) p (shares_of data * p)))
    | None => None
    end.
Proof.
  unfold price_used. simpl.
  destruct (Pd.loc daily_prices_df sim_date ticker); [reflexivity|].
  destruct (last_known_price history ticker); reflexivity.
Qed.

Lemma value_holdings_priced (items : Holdings) (acc : Q) (log : Holdings) :
  NoDup (Py.keys log ++ Py.keys items) ->
  all_priced daily_prices_df history sim_date items = true ->
  value_holdings daily_prices_df history sim_date items acc log
  = Some (fold_left Qplus
            (map (fun e => match e with
                           | Bought shares price_at_buy _ => shares * price_at_buy
                           | Valued _ _ value => value
                           end) (Py.values (map log_entry items))) acc,
          log ++ map log_entry items).
Proof.
  revert acc log. induction items as [|[t data] items IH]; intros acc log N P.
  - simpl. now rewrite app_nil_r.
  - rewrite value_holdings_step. simpl in P. apply andb_true_iff in P.
    destruct P as [Pt P]. simpl fst in Pt.
    destruct (price t) as [p|] eqn:E; [|discriminate].
    assert (L : log_entry (t, data)
                = (t, Valued (shares_of data) p (shares_of data * p)))
      by (unfold valued; simpl; now rewrite E).
    assert (F : ~ In t (Py.keys log))
      by (apply NoDup_remove_2 in N; intro I; apply N, in_or_app; now left).
    rewrite IH; [|rewrite setitem_fresh by exact F|exact P].
    + change (map log_entry ((t, data) :: items))
        with (log_entry (t, data) :: map log_entry items).
      rewrite L, setitem_fresh by exact F. unfold Py.values. cbn [map snd fold_left].
      now rewrite <- app_assoc.
    + unfold Py.keys in *. rewrite map_app. simpl. rewrite <- app_assoc. exact N.
Qed.

Lemma value_holdings_unpriced (items : Holdings) (acc : Q) (log : Holdings) :
  all_priced daily_prices_df history sim_date items = false ->
  value_holdings daily_prices_df history sim_date items acc log = None.
Proof.
  revert acc log. induction items as [|[t data] items IH]; intros acc log P;
    [discriminate|].
  rewrite value_holdings_step. simpl in P.
  destruct (price t) as [p|]; [|reflexivity]. apply IH. exact P.
Qed.

End Valuation.

Lemma invested_keys_valued (df : Pd.DataFrame) (history : list Snapshot) (d : date)
    (items : Holdings) :
  Py.keys (map (valued df history d) items) = Py.keys items.
Proof. unfold Py.keys. rewrite map_map. reflexivity. Qed.

(** X10.  On a simulated day that has a row in the price table, the snapshot
    recorded is one of two: if every holding has a price (the day's, failing
    that the one of the last snapshot), every holding is logged at that price
    and the value is the sum of [shares * price]; otherwise the day is
    recorded with the holdings as bought and the value last recorded (the
    running value while nothing is recorded).  The value is never a partial
    sum, the holdings themselves never change, and the log has the tickers of
    the holdings in their order. *)
Theorem day_value_is_whole_or_carried (daily_prices_df : Pd.DataFrame) (st : State)
    (sim_date : date) :
  NoDup (Py.keys (current_holdings st)) ->
  Pd.in_index daily_prices_df sim_date = true ->
  let log := map (valued daily_prices_df (portfolio_history st) sim_date)
                 (current_holdings st) in
  let recorded :=
    if all_priced daily_prices_df (portfolio_history st) sim_date (current_holdings st)
    then {| snap_date := sim_date;
            portfolio_value := Spec.invested log;
            holdings := log |}
    else {| snap_date := sim_date;
            portfolio_value := previous_value st;
            holdings := current_holdings st |} in
  let st' := simulate_day daily_prices_df st sim_date in
  portfolio_history st' = portfolio_history st ++ [recorded]
  /\ current_portfolio_value st' = portfolio_value recorded
  /\ current_holdings st' = current_holdings st
  /\ Py.keys (holdings recorded) = Py.keys (current_holdings st).
Proof.
  intros ND I log recorded st'. subst st'. unfold simulate_day. rewrite I. simpl negb.
  cbv iota. subst recorded.
  destruct (all_priced daily_prices_df (portfolio_history st) sim_date (current_holdings st))
    eqn:P.
  - rewrite value_holdings_priced by assumption. simpl.
    repeat split. subst log. apply invested_keys_valued.
  - rewrite value_holdings_unpriced by assumption. simpl. repeat split.
Qed.

(** X10, an instance: "B" has no price and nothing is recorded yet, so the
    day is recorded at the running value although "A" is quoted. *)
Lemma day_value_is_whole_or_carried_witness :
  let st' := simulate_day Cases.prices_a_only Cases.two_holdings (Samples.june 1) in
  portfolio_history st'
  = [{| snap_date := Samples.june 1;
        portfolio_value := 1000;
        holdings := current_holdings Cases.two_holdings |}]
  /\ current_portfolio_value st' = 1000
  /\ current_holdings st' = current_holdings Cases.two_holdings.
Proof.
  destruct (day_value_is_whole_or_carried Cases.prices_a_only Cases.two_holdings
              (Samples.june 1)) as (H & V & C & _).
  - distinct_tickers.
  - reflexivity.
  - split; [exact H|]. split; [exact V|exact C].
Defined.

Lemma invested_valued_at_entry (df : Pd.DataFrame) (history : list Snapshot) (d : date)
    (items : Holdings) :
  (forall t e, In (t, e) items ->
     exists shares price weight,
       e = Bought shares price weight /\ Pd.loc df d t = Some price) ->
  all_priced df history d items = true
  /\ Spec.invested (map (valued df history d) items) = Spec.invested items.
Proof.
  intro H.
  assert (K : all_priced df history d items = true
              /\ map (fun e => match e with
                               | Bought shares price_at_buy _ => shares * price_at_buy
                               | Valued _ _ value => value
                               end) (Py.values (map (valued df history d) items))
                 = map (fun e => match e with
                                 | Bought shares price_at_buy _ => shares * price_at_buy
                                 | Valued _ _ value => value
                                 end) (Py.values items)).
  { split.
    - unfold all_priced. apply forallb_forall. intros [t e] I.
      destruct (H t e I) as (s & p & w & _ & L).
      unfold price_used. simpl. now rewrite L.
    - unfold Py.values. rewrite !map_map. apply map_ext_in. intros [t e] I.
      destruct (H t e I) as (s & p & w & -> & L).
      unfold valued, price_used. simpl. now rewrite L. }
  destruct K as [K1 K2]. split; [exact K1|]. unfold Spec.invested. now rewrite K2.
Qed.

(** X11.  A day on which every holding is quoted at its entry price is
    valued at the amount invested at the rebalance: with X9, a day at
    unchanged prices leaves the portfolio value unchanged. *)
Theorem day_at_entry_prices_returns_invested (daily_prices_df : Pd.DataFrame)
    (st : State) (sim_date : date) :
  NoDup (Py.keys (current_holdings st)) ->
  Pd.in_index daily_prices_df sim_date = true ->
  (forall t e, In (t, e) (current_holdings st) ->
     exists shares price weight,
       e = Bought shares price weight
       /\ Pd.loc daily_prices_df sim_date t = Some price) ->
  let st' := simulate_day daily_prices_df st sim_date in
  current_portfolio_value st' = Spec.invested (current_holdings st)
  /\ map portfolio_value (portfolio_history st')
     = map portfolio_value (portfolio_history st) ++ [Spec.invested (current_holdings st)].
Proof.
  intros ND I H st'. subst st'. unfold simulate_day. rewrite I. simpl negb. cbv iota.
  destruct (invested_valued_at_entry daily_prices_df (portfolio_history st) sim_date
              (current_holdings st) H) as [P E].
  rewrite value_holdings_priced by assumption. simpl.
  unfold Spec.invested, Py.sum in E. rewrite E. split; [reflexivity|].
  now rewrite map_app.
Qed.

(** X11, an instance: 50 shares at 10 and 25 shares at 20. *)
Lemma day_at_entry_prices_returns_invested_witness :
  let st' := simulate_day Cases.prices_at_entry Cases.two_holdings (Samples.june 1) in
  current_portfolio_value st' = Spec.invested (current_holdings Cases.two_holdings)
  /\ Spec.invested (current_holdings Cases.two_holdings) == 1000.
Proof.
  split; [|reflexivity].
  apply (day_at_entry_prices_returns_invested Cases.prices_at_entry Cases.two_holdings
           (Samples.june 1)).
  - distinct_tickers.
  - reflexivity.
  - intros t e [I|[I|[]]]; injection I as <- <-; do 3 eexists; split; reflexivity.
Defined.

(** ** More on the AssetSelector *)

Lemma head_is_prefix {A} (l : list A) (n : Z) : Pd.head l n = firstn (head_count l n) l.
Proof. unfold Pd.head, Py.slice_to, head_count. now destruct (0 <=? n)%Z. Qed.

Lemma head_count_nonneg {A} (l : list A) (n : Z) :
  (0 <= n)%Z -> head_count l n = Z.to_nat n.
Proof.
  intro H. unfold head_count. destruct (Z.leb_spec 0 n); [reflexivity|lia].
Qed.

Section SelectorFacts.

Context {env : Environment}.
Variable args : Args.
Variable records : list ScoredRow.
Hypothesis contract : sort_values_contract sort_values_desc.

Let ranked := sort_values_desc (eligible args records).

Lemma AssetSelector_prefix :
  exists k,
    AssetSelector args records = map ticker (firstn k ranked)
    /\ ((0 <= max_selected_assets args)%Z -> (k <= Z.to_nat (max_selected_assets args))%nat)
    /\ ((0 < top_n_quant_value args)%Z -> (k <= Z.to_nat (top_n_quant_value args))%nat).
Proof.
  unfold AssetSelector. cbv zeta. fold (eligible args records). fold ranked.
  rewrite head_is_prefix.
  destruct (Z.ltb_spec 0 (top_n_quant_value args)) as [T|T].
  - rewrite head_is_prefix, firstn_firstn.
    eexists. split; [reflexivity|]. split.
    + intro M. rewrite head_count_nonneg by exact M. lia.
    + intros _. rewrite (head_count_nonneg ranked) by lia. lia.
  - eexists. split; [reflexivity|]. split.
    + intro M. rewrite head_count_nonneg by exact M. lia.
    + lia.
Qed.

Lemma in_eligible (r : ScoredRow) :
  In r (eligible args records) ->
  In r records
  /\ ((0 < min_piotroski_score args)%Z ->
      (min_piotroski_score args <= Piotroski_F_Score r)%Z)
  /\ (0 < min_quant_value_score args ->
      min_quant_value_score args <= Quant_Value_Score r).
Proof.
  unfold eligible. cbv zeta. intro I.
  assert (J : In r (if (0 <? min_piotroski_score args)%Z
                    then filter (fun r => (min_piotroski_score args <=? Piotroski_F_Score r)%Z)
                           records
                    else records)
              /\ (0 < min_quant_value_score args ->
                  min_quant_value_score args <= Quant_Value_Score r)).
  { destruct (Py.Qltb 0 (min_quant_value_score args)) eqn:Q.
    - apply filter_In in I. destruct I as [I L]. apply Qle_bool_iff in L. tauto.
    - apply Qltb_false in Q. split; [exact I|]. intro. lra. }
  destruct J as [J Q].
  destruct (Z.ltb_spec 0 (min_piotroski_score args)).
  - apply filter_In in J. destruct J as [J L]. apply Z.leb_le in L. tauto.
  - split; [exact J|]. split; [lia|exact Q].
Qed.

Lemma in_ranked (r : ScoredRow) : In r ranked <-> In r (eligible args records).
Proof.
  destruct (contract (eligible args records)) as [P _]. split; intro I.
  - exact (Permutation_in _ (Permutation_sym P) I).
  - exact (Permutation_in _ P I).
Qed.

Lemma eligible_tickers_distinct :
  NoDup (map ticker records) -> NoDup (map ticker (eligible args records)).
Proof.
  assert (F : forall (f : ScoredRow -> bool) l,
             NoDup (map ticker l) -> NoDup (map ticker (filter f l))).
  { intros f l. induction l as [|x l IH]; simpl; intro N; [constructor|].
    inversion N as [|? ? X N']. subst. destruct (f x); [|now apply IH].
    simpl. constructor; [|now apply IH]. intro I. apply X.
    apply in_map_iff in I. destruct I as (y & E & I). apply filter_In in I.
    rewrite <- E. apply in_map. tauto. }
  intro N. unfold eligible. cbv zeta.
  destruct (Py.Qltb _ _); destruct (0 <? _)%Z; auto.
Qed.

Lemma ranked_tickers_distinct :
  NoDup (map ticker records) -> NoDup (map ticker ranked).
Proof.
  intro N. destruct (contract (eligible args records)) as [P _].
  apply (Permutation_NoDup (Permutation_map ticker P)).
  now apply eligible_tickers_distinct.
Qed.

End SelectorFacts.

(** X12.  Whatever order [sort_values] gives to equal scores: every selected
    ticker is the ticker of a scored row that passes each filter in force,
    there are no more selected tickers than rows, no more than
    [max_selected_assets] (when that is not negative) and no more than
    [top_n_quant_value] (when that is positive). *)
Theorem selection_is_sound_and_capped (env : Environment) (args : Args)
    (records : list ScoredRow) :
  sort_values_contract sort_values_desc ->
  (forall t, In t (AssetSelector args records) ->
     exists r, In r records /\ ticker r = t
       /\ ((0 < min_piotroski_score args)%Z ->
           (min_piotroski_score args <= Piotroski_F_Score r)%Z)
       /\ (0 < min_quant_value_score args ->
           min_quant_value_score args <= Quant_Value_Score r))
  /\ (List.length (AssetSelector args records) <= List.length records)%nat
  /\ ((0 <= max_selected_assets args)%Z ->
      (List.length (AssetSelector args records)
       <= Z.to_nat (max_selected_assets args))%nat)
  /\ ((0 < top_n_quant_value args)%Z ->
      (List.length (AssetSelector args records)
       <= Z.to_nat (top_n_quant_value args))%nat).
Proof.
  intro C. destruct (AssetSelector_prefix args records) as (k & E & M & T).
  rewrite E. rewrite length_map. split; [|split; [|split]].
  - intros t I. apply in_map_iff in I. destruct I as (r & <- & I).
    apply in_prefix in I. apply (in_ranked args records C) in I.
    apply in_eligible in I. exists r. tauto.
  - rewrite length_firstn.
    destruct (C (eligible args records)) as [P _].
    rewrite <- (Permutation_length P).
    assert (List.length (eligible args records) <= List.length records)%nat.
    { unfold eligible. cbv zeta.
      destruct (Py.Qltb _ _); destruct (0 <? _)%Z;
        repeat (etransitivity; [apply filter_length_le|]); auto. }
    lia.
  - intro H. rewrite length_firstn. specialize (M H). lia.
  - intro H. rewrite length_firstn. specialize (T H). lia.
Qed.

(** X12, an instance: a quality filter of 4 and a cap of one asset. *)
Lemma selection_is_sound_and_capped_witness :
  @AssetSelector Samples.env_stable Cases.args_filtered Samples.ranked_rows = ["B"]%string
  /\ (List.length (@AssetSelector Samples.env_stable Cases.args_filtered Samples.ranked_rows)
      <= 1)%nat.
Proof.
  split; [reflexivity|].
  destruct (selection_is_sound_and_capped Samples.env_stable Cases.args_filtered
              Samples.ranked_rows) as (_ & _ & M & _).
  - exact stable_sort_desc_contract.
  - apply M. discriminate.
Defined.

(** X13.  When the scored rows have distinct tickers, so have the selection
    and the selection shrunk for the minimum allocation: the keys of the
    weight dictionary built from them do not collide. *)
Theorem selection_has_distinct_tickers (env : Environment) (args : Args)
    (records : list ScoredRow) :
  sort_values_contract sort_values_desc ->
  NoDup (map ticker records) ->
  NoDup (AssetSelector args records)
  /\ NoDup (shrink_to_min_alloc args (AssetSelector args records)).
Proof.
  intros C N. destruct (AssetSelector_prefix args records) as (k & E & _).
  assert (D : NoDup (AssetSelector args records)).
  { rewrite E, <- firstn_map. apply NoDup_prefix.
    now apply ranked_tickers_distinct. }
  split; [exact D|now apply shrink_keeps_distinct].
Qed.

(** X13, an instance: the three ranked rows under the defaults. *)
Lemma selection_has_distinct_tickers_witness :
  NoDup (@AssetSelector Samples.env_stable Samples.args_defaults Samples.ranked_rows)
  /\ NoDup (shrink_to_min_alloc Samples.args_defaults
              (@AssetSelector Samples.env_stable Samples.args_defaults Samples.ranked_rows)).
Proof.
  apply (selection_has_distinct_tickers Samples.env_stable Samples.args_defaults
           Samples.ranked_rows).
  - exact stable_sort_desc_contract.
  - distinct_tickers.
Defined.

Lemma descending_app (l1 l2 : list ScoredRow) :
  descending (l1 ++ l2) ->
  forall a b, In a l1 -> In b l2 -> Quant_Value_Score b <= Quant_Value_Score a.
Proof.
  induction l1 as [|x l1 IH]; intros D a b Ia Ib; [destruct Ia|].
  simpl in D. apply descending_cons_inv in D. destruct D as [D H].
  destruct Ia as [<-|Ia].
  - apply H. apply in_or_app. now right.
  - now apply IH.
Qed.

(** X14.  Whatever order [sort_values] gives to equal scores, no row that
    passes the filters and is left out of the selection has a higher value
    score than a row that is selected. *)
Theorem selection_keeps_the_best (env : Environment) (args : Args)
    (records : list ScoredRow) :
  sort_values_contract sort_values_desc ->
  NoDup (map ticker records) ->
  forall a b,
    In a (eligible args records) -> In b (eligible args records) ->
    In (ticker a) (AssetSelector args records) ->
    ~ In (ticker b) (AssetSelector args records) ->
    Quant_Value_Score b <= Quant_Value_Score a.
Proof.
  intros C N a b Ia Ib Sa Sb.
  destruct (AssetSelector_prefix args records) as (k & E & _).
  rewrite E in Sa, Sb.
  set (ranked := sort_values_desc (eligible args records)) in *.
  assert (ND : NoDup (map ticker ranked)) by now apply ranked_tickers_distinct.
  destruct (C (eligible args records)) as [_ D]. fold ranked in D.
  apply (in_ranked args records C) in Ia, Ib. fold ranked in Ia, Ib.
  rewrite <- (firstn_skipn k ranked) in D, ND, Ia, Ib.
  apply (descending_app _ _ D).
  - apply in_app_or in Ia. destruct Ia as [Ia|Ia]; [exact Ia|].
    exfalso. apply in_map_iff in Sa. destruct Sa as (r & Er & Ir).
    rewrite map_app in ND.
    assert (X : In (ticker a) (map ticker (skipn k ranked))) by now apply in_map.
    assert (Y : In (ticker a) (map ticker (firstn k ranked)))
      by (rewrite <- Er; now apply in_map).
    clear - ND X Y. induction (map ticker (firstn k ranked)) as [|x l IH];
      [destruct Y|].
    simpl in ND. inversion ND as [|? ? Nx ND']. subst. destruct Y as [->|Y].
    + apply Nx. apply in_or_app. now right.
    + now apply IH.
  - apply in_app_or in Ib. destruct Ib as [Ib|Ib]; [|exact Ib].
    exfalso. apply Sb. now apply in_map.
Qed.

(** X14, an instance: "B" is selected, "A" passes the filters and is left
    out. *)
Lemma selection_keeps_the_best_witness :
  @AssetSelector Samples.env_stable Cases.args_filtered Samples.ranked_rows = ["B"]%string
  /\ (Quant_Value_Score (Samples.row "A" 5 (1 # 2))
      <= Quant_Value_Score (Samples.row "B" 7 (3 # 4)))%Q.
Proof.
  split; [reflexivity|].
  apply (selection_keeps_the_best Samples.env_stable Cases.args_filtered
           Samples.ranked_rows).
  - exact stable_sort_desc_contract.
  - distinct_tickers.
  - vm_compute. right. now left.
  - vm_compute. now left.
  - vm_compute. now left.
  - vm_compute. intros [E|[]]. discriminate E.
Defined.

(** ** One shrink is enough *)

Lemma len_prefix_le {A} (n : nat) (l : list A) :
  Py.len (firstn n l) <= inject_Z (Z.of_nat n).
Proof.
  unfold Py.len. rewrite <- Zle_Qle. rewrite length_firstn. lia.
Qed.

(** X15.  The feasibility check of step 5 keeps a prefix of the selection,
    after it the minimum allocation fits ([min_alloc * N <= 1]), and running
    the check again changes nothing: one pass is enough. *)
Theorem shrink_makes_minimum_feasible (args : Args) (selected_tickers : list string) :
  let shrunk := shrink_to_min_alloc args selected_tickers in
  (exists dropped, selected_tickers = shrunk ++ dropped)
  /\ min_alloc_asset args * Py.len shrunk <= 1
  /\ shrink_to_min_alloc args shrunk = shrunk.
Proof.
  cbv zeta.
  assert (K : (exists dropped,
                 selected_tickers = shrink_to_min_alloc args selected_tickers ++ dropped)
              /\ min_alloc_asset args
                 * Py.len (shrink_to_min_alloc args selected_tickers) <= 1).
  { unfold shrink_to_min_alloc.
    destruct (Py.Qltb 1 (min_alloc_asset args * Py.len selected_tickers)) eqn:E.
    - apply Qltb_true in E.
      assert (P : 0 < min_alloc_asset args).
      { destruct (Qlt_le_dec 0 (min_alloc_asset args)) as [P|N]; [exact P|].
        pose proof (len_nonneg selected_tickers).
        assert (min_alloc_asset args * Py.len selected_tickers <= 0 * Py.len selected_tickers)
          by (apply Qmult_le_compat_r; assumption).
        lra. }
      assert (F : 0 <= 1 / min_alloc_asset args) by (apply Qle_shift_div_l; lra).
      rewrite (int_floor _ F).
      assert (C : (0 <= Qfloor (1 / min_alloc_asset args))%Z).
      { change 0%Z with (Qfloor 0). now apply Qfloor_resp_le. }
      unfold Py.slice_to. destruct (Z.leb_spec 0 (Qfloor (1 / min_alloc_asset args))); [|lia].
      split; [eexists; symmetry; apply firstn_skipn|].
      pose proof (len_prefix_le (Z.to_nat (Qfloor (1 / min_alloc_asset args))) selected_tickers) as L.
      rewrite Z2Nat.id in L by exact C.
      pose proof (Qfloor_le (1 / min_alloc_asset args)) as G.
      assert (X : min_alloc_asset args * (1 / min_alloc_asset args) == 1) by (field; lra).
      apply Qle_trans with (min_alloc_asset args * (1 / min_alloc_asset args));
        [|rewrite X; apply Qle_refl].
      apply Qmult_le_l; [exact P|]. lra.
    - apply Qltb_false in E. split; [exists []; now rewrite app_nil_r|exact E]. }
  destruct K as [K1 K2]. split; [exact K1|]. split; [exact K2|].
  unfold shrink_to_min_alloc at 1.
  replace (Py.Qltb 1 _) with false; [reflexivity|].
  symmetry. now apply Qltb_false.
Qed.

(** ** What a run returns *)

Lemma offset_of_frequency_none (frequency : string) :
  offset_of_frequency frequency = None
  <-> ~ In frequency ["monthly"; "quarterly"; "annually"]%string.
Proof.
  unfold offset_of_frequency. simpl.
  destruct (String.eqb_spec frequency "monthly") as [->|M]; [split; [discriminate|tauto]|].
  destruct (String.eqb_spec frequency "quarterly") as [->|Q]; [split; [discriminate|tauto]|].
  destruct (String.eqb_spec frequency "annually") as [->|A]; [split; [discriminate|tauto]|].
  split; [|reflexivity]. intros _ [H|[H|[H|[]]]]; congruence.
Qed.

(** X16.  The three outcomes of [run_backtest]: the [ValueError] of
    [get_rebalance_dates] exactly when the frequency is none of monthly,
    quarterly, annually; the early return without rebalance dates exactly
    when no period start of the frequency lies in [start, end]; and the loop
    runs to its end, giving a history, exactly when one does. *)
Theorem run_outcomes (env : Environment) (args : Args) :
  (run_backtest args = UnknownFrequency
   <-> ~ In (rebalance_frequency args) ["monthly"; "quarterly"; "annually"]%string)
  /\ (run_backtest args = NoRebalanceDates
      <-> exists period_start,
            offset_of_frequency (rebalance_frequency args) = Some period_start
            /\ forall d, (start_date_backtest args <= d <= end_date_backtest args)%Z ->
                         Pd.is_on_offset period_start d = false)
  /\ ((exists history, run_backtest args = Finished history)
      <-> exists period_start d,
            offset_of_frequency (rebalance_frequency args) = Some period_start
            /\ (start_date_backtest args <= d <= end_date_backtest args)%Z
            /\ Pd.is_on_offset period_start d = true).
Proof.
  unfold run_backtest. rewrite get_rebalance_dates_offset.
  rewrite <- offset_of_frequency_none.
  destruct (offset_of_frequency (rebalance_frequency args)) as [freq|]; simpl.
  - pose proof (date_range_empty (start_date_backtest args) (end_date_backtest args) freq) as E.
    destruct (Pd.date_range (start_date_backtest args) (end_date_backtest args) freq)
      as [|d0 l] eqn:R; simpl.
    + split; [split; discriminate|]. split.
      * split; [|reflexivity]. intros _. exists freq. split; [reflexivity|now apply E].
      * split; [intros [h H]; discriminate|].
        intros (f & d & [= <-] & I & O).
        rewrite (proj1 E eq_refl d I) in O. discriminate.
    + split; [split; discriminate|]. split.
      * split; [discriminate|]. intros (f & [= <-] & H).
        apply E in H. discriminate.
      * split; [|intros _; eexists; reflexivity]. intros _.
        assert (I : In d0 (d0 :: l)) by now left.
        rewrite <- R in I. apply in_date_range in I. exists freq, d0. tauto.
  - split; [tauto|]. split.
    + split; [discriminate|]. intros (f & H & _). discriminate.
    + split; [intros [h H]; discriminate|]. intros (f & d & H & _). discriminate.
Qed.

(** ** The three frequencies *)

(** X17.  Over the same range, every annual rebalance date is a quarterly
    one and every quarterly rebalance date is a monthly one. *)
Theorem frequencies_nest (start_date end_date : date) :
  exists monthly quarterly annually,
    get_rebalance_dates start_date end_date "monthly" = Some monthly
    /\ get_rebalance_dates start_date end_date "quarterly" = Some quarterly
    /\ get_rebalance_dates start_date end_date "annually" = Some annually
    /\ incl annually quarterly
    /\ incl quarterly monthly.
Proof.
  rewrite !get_rebalance_dates_offset. simpl.
  do 3 eexists. repeat split; try reflexivity.
  - intros d I. apply in_date_range in I. apply in_date_range.
    split; [tauto|]. now apply period_starts_nest.
  - intros d I. apply in_date_range in I. apply in_date_range.
    split; [tauto|]. now apply period_starts_nest.
Qed.

(** ** The configuration of the value composite score *)

Lemma getitem_setitem {V} (d : Py.dict V) (k k' : string) (v : V) :
  Py.getitem (Py.setitem d k v) k'
  = if String.eqb k k' then Some v else Py.getitem d k'.
Proof.
  induction d as [|[k0 v0] d IH]; simpl.
  - reflexivity.
  - destruct (String.eqb_spec k0 k) as [->|N]; simpl.
    + now destruct (String.eqb k k').
    + destruct (String.eqb_spec k0 k') as [->|N'].
      * destruct (String.eqb_spec k k'); [congruence|reflexivity].
      * exact IH.
Qed.

Lemma getitem_some_in {V} (d : Py.dict V) (k : string) :
  Py.getitem d k <> None <-> In k (Py.keys d).
Proof.
  induction d as [|[k0 v0] d IH]; simpl; [tauto|].
  destruct (String.eqb_spec k0 k) as [->|N].
  - split; [now left|discriminate].
  - rewrite IH. split; [now right|]. intros [E|I]; [congruence|exact I].
Qed.

Lemma length_setitem {V} (d : Py.dict V) (k : string) (v : V) :
  List.length (Py.setitem d k v)
  = if Py.contains (Py.keys d) k then List.length d else S (List.length d).
Proof.
  unfold Py.contains. induction d as [|[k0 v0] d IH]; simpl; [reflexivity|].
  rewrite (String.eqb_sym k k0).
  destruct (String.eqb k0 k); simpl; [reflexivity|].
  rewrite IH. now destruct (existsb _ _).
Qed.

Lemma recognised_getitem (metric : string) :
  recognised metric = true <-> Py.getitem VC_METRIC_DIRECTIONS_DEFAULT metric <> None.
Proof. unfold recognised. now rewrite contains_In, getitem_some_in. Qed.

Section Config.

(** The loop of the comprehension, from any dictionary built so far. *)
Let step (d : Py.dict Direction) (metric : string) : Py.dict Direction :=
  match Py.getitem VC_METRIC_DIRECTIONS_DEFAULT metric with
  | Some dir => Py.setitem d metric dir
  | None => d
  end.

Lemma config_lookup (l : list string) (acc : Py.dict Direction) (m : string)
    (dir : Direction) :
  (forall k v, Py.getitem acc k = Some v ->
               Py.getitem VC_METRIC_DIRECTIONS_DEFAULT k = Some v) ->
  Py.getitem (fold_left step l acc) m = Some dir
  <-> Py.getitem acc m = Some dir
      \/ (In m l /\ Py.getitem VC_METRIC_DIRECTIONS_DEFAULT m = Some dir).
Proof.
  revert acc. induction l as [|a l IH]; intros acc C; cbn [fold_left In].
  - tauto.
  - assert (C' : forall k v, Py.getitem (step acc a) k = Some v ->
                             Py.getitem VC_METRIC_DIRECTIONS_DEFAULT k = Some v).
    { intros k v. unfold step.
      destruct (Py.getitem VC_METRIC_DIRECTIONS_DEFAULT a) as [da|] eqn:E; [|apply C].
      rewrite getitem_setitem. destruct (String.eqb_spec a k) as [->|_]; [|apply C].
      congruence. }
    rewrite (IH _ C'). unfold step.
    destruct (Py.getitem VC_METRIC_DIRECTIONS_DEFAULT a) as [da|] eqn:E.
    + rewrite getitem_setitem. destruct (String.eqb_spec a m) as [->|N].
      * split.
        -- intros [[= <-]|[_ H]]; right; split; auto.
        -- intros [H|[_ H]]; [left; f_equal; apply C in H; congruence|].
           left. congruence.
      * split; intros [H|[I H]]; auto.
        destruct I as [->|I]; [congruence|auto].
    + split; intros [H|[I H]]; auto.
      destruct I as [->|I]; [congruence|auto].
Qed.

Lemma config_length (l : list string) (acc : Py.dict Direction) :
  (List.length (fold_left step l acc) <= List.length acc + List.length l)%nat
  /\ (List.length (fold_left step l acc) = (List.length acc + List.length l)%nat
      <-> (forall m, In m l -> recognised m = true)
          /\ NoDup l
          /\ forall m, In m l -> ~ In m (Py.keys acc)).
Proof.
  revert acc. induction l as [|a l IH]; intro acc; simpl.
  - split; [lia|]. split; [intros _|lia].
    split; [tauto|]. split; [constructor|tauto].
  - destruct (IH (step acc a)) as [Le Eq].
    assert (L : List.length (step acc a)
                = if recognised a && negb (Py.contains (Py.keys acc) a)
                  then S (List.length acc) else List.length acc).
    { unfold step. destruct (recognised a) eqn:R.
      - apply recognised_getitem in R.
        destruct (Py.getitem VC_METRIC_DIRECTIONS_DEFAULT a) as [da|]; [|congruence].
        rewrite length_setitem. now destruct (Py.contains (Py.keys acc) a).
      - cbn [andb].
        destruct (Py.getitem VC_METRIC_DIRECTIONS_DEFAULT a) as [da|] eqn:E;
          [|reflexivity].
        assert (recognised a = true) by (apply recognised_getitem; congruence).
        congruence. }
    destruct (recognised a && negb (Py.contains (Py.keys acc) a)) eqn:B.
    + apply andb_true_iff in B. destruct B as [R N]. apply negb_true_iff in N.
      assert (Ka : Py.keys (step acc a) = Py.keys acc ++ [a]).
      { unfold step. apply recognised_getitem in R.
        destruct (Py.getitem VC_METRIC_DIRECTIONS_DEFAULT a) as [da|]; [|congruence].
        now rewrite keys_setitem, N. }
      split; [lia|]. rewrite L in Eq.
      replace (List.length acc + S (List.length l))%nat
        with (S (List.length acc) + List.length l)%nat by lia.
      rewrite Eq, Ka. split.
      * intros (A & D & F). split; [intros m [<-|I]; auto|]. split.
        -- constructor; [|exact D]. intro I. apply (F a I). apply in_or_app.
           right. now left.
        -- intros m [<-|I].
           ++ intro X. apply contains_In in X. congruence.
           ++ intro X. apply (F m I). apply in_or_app. now left.
      * intros (A & D & F). inversion D as [|? ? Na D']. subst.
        split; [intros m I; apply A; now right|]. split; [exact D'|].
        intros m I X. apply in_app_or in X. destruct X as [X|[<-|[]]].
        -- apply (F m); [now right|exact X].
        -- exact (Na I).
    + split; [lia|]. split; [lia|].
      intros (A & D & F). exfalso.
      apply andb_false_iff in B. destruct B as [B|B].
      * rewrite A in B by now left. discriminate.
      * apply negb_false_iff, contains_In in B. apply (F a); [now left|exact B].
Qed.

End Config.

(** X18.  [vc_metrics_config_backtest] maps a metric to a direction exactly
    when the metric is requested and that is its direction in
    [VC_METRIC_DIRECTIONS_DEFAULT]; and the warning stays silent exactly when
    every requested metric is recognised and no metric is requested twice: a
    repeated metric, although recognised, raises the warning. *)
Theorem vc_metrics_config_is_restriction_of_defaults (args : Args) :
  (forall metric dir,
      Py.getitem (vc_metrics_config_backtest args) metric = Some dir
      <-> In metric (vc_metrics args)
          /\ Py.getitem VC_METRIC_DIRECTIONS_DEFAULT metric = Some dir)
  /\ (vc_metrics_warning args = false
      <-> (forall metric, In metric (vc_metrics args) -> recognised metric = true)
          /\ NoDup (vc_metrics args)).
Proof.
  split.
  - intros metric dir. unfold vc_metrics_config_backtest.
    rewrite config_lookup by (intros k v; discriminate). simpl.
    split; [intros [H|H]; [discriminate|exact H]|tauto].
  - unfold vc_metrics_warning. rewrite negb_false_iff, Nat.eqb_eq.
    unfold vc_metrics_config_backtest.
    destruct (config_length (vc_metrics args) []) as [_ E]. simpl in E.
    rewrite E. split; [tauto|]. intros [A D]. repeat split; auto.
Qed.

Example vc_metrics_default_config :
  Py.keys (vc_metrics_config_backtest Samples.args_defaults)
  = vc_metrics Samples.args_defaults
  /\ vc_metrics_warning Samples.args_defaults = false.
Proof. split; reflexivity. Qed.

(** ** The universe of tickers of the command line *)

Lemma isspace_upper_char (c : ascii) :
  PyStr.isspace (PyStr.upper_char c) = PyStr.isspace c.
Proof. destruct c as [[] [] [] [] [] [] [] []]; reflexivity. Qed.

Lemma upper_char_twice (c : ascii) :
  PyStr.upper_char (PyStr.upper_char c) = PyStr.upper_char c.
Proof. destruct c as [[] [] [] [] [] [] [] []]; reflexivity. Qed.

Lemma upper_char_comma (c : ascii) :
  Ascii.eqb (PyStr.upper_char c) "," = Ascii.eqb c ",".
Proof. destruct c as [[] [] [] [] [] [] [] []]; reflexivity. Qed.

Lemma lstrip_starts_clean (s : string) : starts_clean (PyStr.lstrip s) = true.
Proof.
  induction s as [|c s IH]; simpl; [reflexivity|].
  destruct (PyStr.isspace c) eqn:E; [exact IH|]. simpl. now rewrite E.
Qed.

Lemma lstrip_clean (s : string) : starts_clean s = true -> PyStr.lstrip s = s.
Proof.
  destruct s as [|c s]; simpl; [reflexivity|].
  now destruct (PyStr.isspace c).
Qed.

Lemma rstrip_starts_clean (s : string) :
  starts_clean s = true -> starts_clean (PyStr.rstrip s) = true.
Proof.
  destruct s as [|c s]; simpl; [reflexivity|]. intro H.
  destruct (PyStr.rstrip s); [|exact H].
  destruct (PyStr.isspace c) eqn:E; simpl; [reflexivity|now rewrite E].
Qed.

Lemma rstrip_twice (s : string) : PyStr.rstrip (PyStr.rstrip s) = PyStr.rstrip s.
Proof.
  induction s as [|c s IH]; simpl; [reflexivity|].
  destruct (PyStr.rstrip s) as [|c' r] eqn:E.
  - destruct (PyStr.isspace c) eqn:S; simpl; [reflexivity|now rewrite S].
  - change (PyStr.rstrip (String c (String c' r)))
      with (match PyStr.rstrip (String c' r) with
            | EmptyString => if PyStr.isspace c then EmptyString else String c EmptyString
            | String c'' r' => String c (String c'' r')
            end).
    now rewrite IH.
Qed.

Lemma strip_twice (s : string) : PyStr.strip (PyStr.strip s) = PyStr.strip s.
Proof.
  unfold PyStr.strip.
  rewrite (lstrip_clean (PyStr.rstrip (PyStr.lstrip s)))
    by apply rstrip_starts_clean, lstrip_starts_clean.
  apply rstrip_twice.
Qed.

Lemma lstrip_upper (s : string) :
  PyStr.lstrip (PyStr.upper s) = PyStr.upper (PyStr.lstrip s).
Proof.
  induction s as [|c s IH]; simpl; [reflexivity|].
  rewrite isspace_upper_char. now destruct (PyStr.isspace c).
Qed.

Lemma rstrip_upper (s : string) :
  PyStr.rstrip (PyStr.upper s) = PyStr.upper (PyStr.rstrip s).
Proof.
  induction s as [|c s IH]; simpl; [reflexivity|].
  rewrite IH, isspace_upper_char.
  destruct (PyStr.rstrip s); simpl; [now destruct (PyStr.isspace c)|reflexivity].
Qed.

Lemma strip_upper (s : string) :
  PyStr.strip (PyStr.upper s) = PyStr.upper (PyStr.strip s).
Proof. unfold PyStr.strip. now rewrite lstrip_upper, rstrip_upper. Qed.

Lemma upper_twice (s : string) : PyStr.upper (PyStr.upper s) = PyStr.upper s.
Proof.
  induction s as [|c s IH]; simpl; [reflexivity|]. now rewrite upper_char_twice, IH.
Qed.

Lemma upper_comma_free (s : string) :
  PyStr.comma_free (PyStr.upper s) = PyStr.comma_free s.
Proof.
  induction s as [|c s IH]; simpl; [reflexivity|]. now rewrite upper_char_comma, IH.
Qed.

Lemma upper_nonempty (s : string) : s <> EmptyString -> PyStr.upper s <> EmptyString.
Proof. destruct s; simpl; [congruence|discriminate]. Qed.

Lemma lstrip_comma_free (s : string) :
  PyStr.comma_free s = true -> PyStr.comma_free (PyStr.lstrip s) = true.
Proof.
  induction s as [|c s IH]; simpl; [reflexivity|]. intro H.
  destruct (PyStr.isspace c); [|exact H].
  apply andb_true_iff in H. now apply IH.
Qed.

Lemma rstrip_comma_free (s : string) :
  PyStr.comma_free s = true -> PyStr.comma_free (PyStr.rstrip s) = true.
Proof.
  induction s as [|c s IH]; simpl; [reflexivity|]. intro H.
  apply andb_true_iff in H. destruct H as [C H]. specialize (IH H).
  destruct (PyStr.rstrip s) as [|c' r].
  - destruct (PyStr.isspace c); simpl; [reflexivity|]. now rewrite C.
  - simpl in *. now rewrite C.
Qed.

Lemma split_comma_nonempty (s : string) : PyStr.split_comma s <> [].
Proof.
  induction s as [|c s IH]; simpl; [discriminate|].
  destruct (Ascii.eqb c ","); [discriminate|].
  destruct (PyStr.split_comma s); discriminate.
Qed.

Lemma split_comma_pieces (s : string) :
  Forall (fun piece => PyStr.comma_free piece = true) (PyStr.split_comma s).
Proof.
  induction s as [|c s IH]; simpl; [repeat constructor|].
  destruct (Ascii.eqb c ",") eqn:E; [now constructor|].
  destruct (PyStr.split_comma s) as [|p ps]; [repeat constructor; simpl; now rewrite E|].
  inversion IH as [|? ? Hp Hps]. subst. constructor; [|exact Hps].
  simpl. now rewrite E.
Qed.

Lemma split_comma_single (piece : string) :
  PyStr.comma_free piece = true -> PyStr.split_comma piece = [piece].
Proof.
  induction piece as [|c s IH]; simpl; [reflexivity|]. intro H.
  apply andb_true_iff in H. destruct H as [C H]. apply negb_true_iff in C.
  now rewrite C, IH.
Qed.

Lemma split_comma_app (piece rest : string) :
  PyStr.comma_free piece = true ->
  PyStr.split_comma (piece ++ String "," rest) = piece :: PyStr.split_comma rest.
Proof.
  induction piece as [|c s IH]; simpl; [reflexivity|]. intro H.
  apply andb_true_iff in H. destruct H as [C H]. apply negb_true_iff in C.
  now rewrite C, IH.
Qed.

Lemma split_join (l : list string) :
  l <> [] ->
  Forall (fun piece => PyStr.comma_free piece = true) l ->
  PyStr.split_comma (PyStr.join_comma l) = l.
Proof.
  induction l as [|p l IH]; [congruence|]. intros _ F.
  inversion F as [|? ? Hp Hl]. subst.
  destruct l as [|q l]; [now apply split_comma_single|].
  change (PyStr.join_comma (p :: q :: l))
    with (p ++ String "," (PyStr.join_comma (q :: l)))%string.
  rewrite split_comma_app by exact Hp. f_equal. apply IH; [discriminate|exact Hl].
Qed.

Lemma truthy_nonempty (s : string) : PyStr.truthy s = true <-> s <> EmptyString.
Proof. destruct s; simpl; split; congruence. Qed.

Lemma parsed_ticker_normalised (piece : string) :
  PyStr.comma_free piece = true ->
  PyStr.truthy (PyStr.strip piece) = true ->
  normalised (PyStr.upper (PyStr.strip piece)).
Proof.
  intros C T. unfold normalised. split; [|split; [|split]].
  - apply upper_nonempty. now apply truthy_nonempty.
  - rewrite upper_comma_free. unfold PyStr.strip.
    now apply rstrip_comma_free, lstrip_comma_free.
  - now rewrite strip_upper, strip_twice.
  - apply upper_twice.
Qed.

Lemma parse_normalised_list (l : list string) :
  Forall normalised l -> parse_universe_tickers (PyStr.join_comma l) = l.
Proof.
  intro N. destruct l as [|p l]; [reflexivity|].
  unfold parse_universe_tickers. rewrite split_join.
  - rewrite filter_all.
    + rewrite <- (map_id (p :: l)) at 2. apply map_ext_in. intros t I.
      destruct (proj1 (Forall_forall _ _) N t I) as (_ & _ & S & U). now rewrite S.
    + intros t I. destruct (proj1 (Forall_forall _ _) N t I) as (E & _ & S & _).
      rewrite S. now apply truthy_nonempty.
  - discriminate.
  - eapply Forall_impl; [|exact N]. intros t (_ & C & _). exact C.
Qed.

(** X19.  For ASCII input, every ticker [parse_arguments] keeps of
    [--universe_tickers] is non-empty, has no comma, no surrounding white
    space and no lower-case letter; there are no more tickers than
    comma-separated pieces; the list is empty (and the argument rejected)
    exactly when every piece is blank; and parsing the tickers joined with
    commas gives the same list again. *)
Theorem parsed_universe_is_normalised (s : string) :
  PyStr.is_ascii s = true ->
  Forall normalised (parse_universe_tickers s)
  /\ (List.length (parse_universe_tickers s) <= List.length (PyStr.split_comma s))%nat
  /\ (parse_universe_tickers s = []
      <-> forall piece, In piece (PyStr.split_comma s) ->
                        PyStr.strip piece = EmptyString)
  /\ parse_universe_tickers (PyStr.join_comma (parse_universe_tickers s))
     = parse_universe_tickers s.
Proof.
  intros _.
  assert (N : Forall normalised (parse_universe_tickers s)).
  { unfold parse_universe_tickers. apply Forall_forall. intros t I.
    apply in_map_iff in I. destruct I as (piece & <- & I).
    apply filter_In in I. destruct I as [I T].
    apply parsed_ticker_normalised; [|exact T].
    exact (proj1 (Forall_forall _ _) (split_comma_pieces s) piece I). }
  split; [exact N|]. split; [|split].
  - unfold parse_universe_tickers. rewrite length_map. apply filter_length_le.
  - unfold parse_universe_tickers. split.
    + intros E piece I.
      destruct (PyStr.strip piece) eqn:S; [reflexivity|]. exfalso.
      apply map_eq_nil in E.
      assert (J : In piece (filter (fun ticker => PyStr.truthy (PyStr.strip ticker))
                              (PyStr.split_comma s)))
        by (apply filter_In; split; [exact I|now rewrite S]).
      rewrite E in J. destruct J.
    + intro H.
      destruct (filter _ (PyStr.split_comma s)) as [|p l] eqn:F; [reflexivity|].
      assert (J : In p (filter (fun ticker => PyStr.truthy (PyStr.strip ticker))
                          (PyStr.split_comma s))) by (rewrite F; now left).
      apply filter_In in J. destruct J as [I T]. rewrite (H p I) in T. discriminate.
  - now apply parse_normalised_list.
Qed.

(** X19, an instance: blanks around the tickers, an empty piece and a
    trailing comma. *)
Lemma parsed_universe_is_normalised_witness :
  PyStr.is_ascii " petr4.sa, VALE3.SA ,, itub4.sa ,  " = true
  /\ parse_universe_tickers " petr4.sa, VALE3.SA ,, itub4.sa ,  "
     = ["PETR4.SA"; "VALE3.SA"; "ITUB4.SA"]%string
  /\ Forall normalised (parse_universe_tickers " petr4.sa, VALE3.SA ,, itub4.sa ,  ").
Proof.
  split; [reflexivity|]. split; [reflexivity|].
  apply (parsed_universe_is_normalised " petr4.sa, VALE3.SA ,, itub4.sa ,  ").
  reflexivity.
Defined.
